(** * SkyView weather client: forecast aggregation, validation, theming,
      alerts, recent cities and the fetch orchestrator

    A shallow embedding of [js/ui.js], [js/app.js], [js/storage.js] and of the
    part of [js/api.js] the orchestrator depends on.

    Conventions of the embedding.
    - A JavaScript string is the list of its UTF-16 code units ([JsString]).
    - A JavaScript number is [NaN], an infinity, or a finite value kept as an
      exact rational ([number]).  Only comparisons, [Math.abs], [Math.round]
      and subtraction of small integers are performed by the modelled code, and
      every finite double is a rational, so the comparisons agree.
    - A function that can throw returns a [Completion]. *)

From Stdlib Require Import List Bool Arith NArith ZArith QArith Qabs Qround.
From Stdlib Require Import Lia Lqa String Ascii Sorted DecimalString.
Import ListNotations.

Close Scope Q_scope.
Set Implicit Arguments.

(* ------------------------------------------------------------------ *)
(** ** Completions: normal return or a thrown exception *)

Module Js.

(** A code unit; the values of real strings are below 65536. *)
Definition JsString := list N.

(** The exceptions the modelled code can raise.  [Error] is
    [new Error(message)]; the others are raised by the language and the
    DOM themselves. *)
Inductive JsError :=
| TypeError
| InvalidCharacterError
| Error (message : JsString).

Inductive Completion (A : Type) :=
| Normal (a : A)
| Throw (e : JsError).
Arguments Normal {A} a.
Arguments Throw {A} e.

Definition bind {A B} (c : Completion A) (k : A -> Completion B) : Completion B :=
  match c with
  | Normal a => k a
  | Throw e => Throw e
  end.

Definition isNormal {A} (c : Completion A) : bool :=
  match c with Normal _ => true | Throw _ => false end.

End Js.
Export Js.

Declare Scope js_scope.
Delimit Scope js_scope with js.
Notation "x <- c ;; k" := (bind c (fun x => k))
  (at level 61, c at next level, right associativity) : js_scope.
Open Scope js_scope.

(* ------------------------------------------------------------------ *)
(** ** Strings *)

Module Str.

(** A literal of the source, as code units. *)
Definition js (s : string) : JsString :=
  List.map N_of_ascii (list_ascii_of_string s).

Definition eqb (a b : JsString) : bool :=
  if list_eq_dec N.eq_dec a b then true else false.

Definition inRange (lo hi c : N) : bool := ((lo <=? c) && (c <=? hi))%N.

(** WhiteSpace and LineTerminator code points of ECMAScript: what
    [String.prototype.trim] strips, what [\s] matches in a regular
    expression without the [u] flag, and what [parseInt] skips. *)
Definition isWhiteSpace (c : N) : bool :=
  (inRange 9 13 c        (* TAB, LF, VT, FF, CR *)
   || (c =? 32)          (* SPACE *)
   || (c =? 160)         (* NO-BREAK SPACE *)
   || (c =? 5760)        (* OGHAM SPACE MARK *)
   || inRange 8192 8202 c (* EN QUAD .. HAIR SPACE *)
   || (c =? 8232) || (c =? 8233)  (* LINE / PARAGRAPH SEPARATOR *)
   || (c =? 8239) || (c =? 8287) || (c =? 12288)
   || (c =? 65279))%N.   (* ZERO WIDTH NO-BREAK SPACE (BOM) *)

Fixpoint trimStart (s : JsString) : JsString :=
  match s with
  | c :: s' => if isWhiteSpace c then trimStart s' else s
  | [] => []
  end.

Definition trimEnd (s : JsString) : JsString := rev (trimStart (rev s)).

(** [String.prototype.trim] *)
Definition trim (s : JsString) : JsString := trimEnd (trimStart s).

(** [s.split(sep)] for a one-unit separator: never the empty list. *)
Fixpoint split (sep : N) (s : JsString) : list JsString :=
  match s with
  | [] => [[]]
  | c :: s' =>
      if (c =? sep)%N then [] :: split sep s'
      else match split sep s' with
           | piece :: rest => (c :: piece) :: rest
           | [] => [[c]]
           end
  end.

(** [s.startsWith(p)] *)
Fixpoint startsWith (p s : JsString) : bool :=
  match p, s with
  | [], _ => true
  | _ :: _, [] => false
  | a :: p', b :: s' => (a =? b)%N && startsWith p' s'
  end.

(** [s.endsWith(p)] *)
Definition endsWith (p s : JsString) : bool := startsWith (rev p) (rev s).

Definition isDigit (c : N) : bool := inRange 48 57 c.

(** Lower-casing of one code unit of the Basic Latin and Latin-1 blocks:
    [A-Z] and [U+00C0..U+00DE] without the multiplication sign move by 32,
    everything else below [U+0100] is its own lower case. *)
Definition lowerLatin1 (c : N) : N :=
  if (inRange 65 90 c || (inRange 192 222 c && negb (c =? 215)))%N
  then (c + 32)%N else c.

Definition isLatin1 (s : JsString) : bool := forallb (fun c => (c <? 256)%N) s.

(** The case tables of Unicode beyond Latin-1 are the engine's; the
    embedding takes them as an interface. *)
Class Unicode := { unicodeLower : JsString -> JsString }.

(** [String.prototype.toLowerCase].  On a string of code units below
    [U+0100] the mapping is unit by unit and has no context rule. *)
Definition toLowerCase {U : Unicode} (s : JsString) : JsString :=
  if isLatin1 s then List.map lowerLatin1 s else unicodeLower s.

(** Value of a run of decimal digits. *)
Definition digitsValue (s : JsString) : N :=
  fold_left (fun acc c => (acc * 10 + (c - 48))%N) s 0%N.

Fixpoint takeDigits (s : JsString) : JsString :=
  match s with
  | c :: s' => if isDigit c then c :: takeDigits s' else []
  | [] => []
  end.

End Str.

(* ------------------------------------------------------------------ *)
(** ** Numbers *)

Module Num.

Inductive number :=
| NaN
| NegInfinity
| Fin (q : Q)
| Infinity.

Definition ofZ (z : Z) : number := Fin (inject_Z z).

Definition Qltb (a b : Q) : bool := negb (Qle_bool b a).

(** [a < b] of JavaScript on numbers: false as soon as one side is NaN. *)
Definition lt (a b : number) : bool :=
  match a, b with
  | NaN, _ | _, NaN => false
  | NegInfinity, NegInfinity => false
  | NegInfinity, _ => true
  | _, NegInfinity => false
  | Infinity, _ => false
  | Fin _, Infinity => true
  | Fin x, Fin y => Qltb x y
  end.

(** [a > b] *)
Definition gt (a b : number) : bool := lt b a.

(** [Math.abs] *)
Definition abs (a : number) : number :=
  match a with
  | NaN => NaN
  | NegInfinity | Infinity => Infinity
  | Fin x => Fin (Qabs x)
  end.

(** [Math.round]: the nearest integer, halves towards plus infinity. *)
Definition round (a : number) : number :=
  match a with
  | Fin x => ofZ (Qfloor (x + (1 # 2)))
  | other => other
  end.

Definition isFinite (a : number) : bool :=
  match a with Fin _ => true | _ => false end.

(** The double nearest to an integer (ties to even): the integer itself up
    to 53 bits, a multiple of a power of two beyond, an infinity past the
    largest double. *)
Definition ofInteger (z : Z) : number :=
  let a := Z.abs z in
  let e := (Z.log2 a - 52)%Z in
  if (e <=? 0)%Z then ofZ z
  else
    let q := (a / 2 ^ e)%Z in
    let r := (a mod 2 ^ e)%Z in
    let half := (2 ^ (e - 1))%Z in
    let q' := if (r <? half)%Z then q
              else if (half <? r)%Z then (q + 1)%Z
              else if Z.even q then q else (q + 1)%Z in
    let v := (q' * 2 ^ e)%Z in
    if (2 ^ 1024 <=? v)%Z
    then (if (z <? 0)%Z then NegInfinity else Infinity)
    else ofZ (Z.sgn z * v).

(** The double nearest to a rational that is no integer (ties to even):
    53 significant bits from the leading one, or a multiple of [2^-1074]
    below [2^-1022]; an infinity past the largest double. *)
Definition nearestFraction (q : Q) : number :=
  let a := Qabs q in
  let l0 := (Z.log2 (Qnum a) - Z.log2 (Zpos (Qden a)))%Z in
  let l := if Qltb a (Qpower 2 l0) then (l0 - 1)%Z else l0 in   (* floor (log2 a) *)
  let e := Z.max (l - 52) (-1074) in
  let s := (a / Qpower 2 e)%Q in
  let m := Qfloor s in
  let r := (s - inject_Z m)%Q in
  let m' := if Qltb r (1 # 2) then m
            else if Qltb (1 # 2) r then (m + 1)%Z
            else if Z.even m then m else (m + 1)%Z in
  let v := (inject_Z m' * Qpower 2 e)%Q in
  if Qle_bool (Qpower 2 1024) v
  then (if Qltb q 0 then NegInfinity else Infinity)
  else Fin (if Qltb q 0 then (- v)%Q else v).

(** The double nearest to a rational: the result of an arithmetic
    operation whose exact value is [q]. *)
Definition nearest (q : Q) : number :=
  if Qeq_bool q (inject_Z (Qfloor q)) then ofInteger (Qfloor q)
  else nearestFraction q.

(** [a - b] where [b] is finite (the code only subtracts the literal 12):
    the exact difference, rounded to the nearest double. *)
Definition subFin (a : number) (b : Q) : number :=
  match a with
  | Fin x => nearest (x - b)
  | other => other
  end.

(** [parseInt(s, 10)]: leading white space is skipped, one sign is read,
    then the longest run of decimal digits; no digit gives NaN, otherwise
    the result is the double nearest to the integer read. *)
Definition parseInt (s : Js.JsString) : number :=
  let t := Str.trimStart s in
  let '(negative, body) :=
    match t with
    | 45%N :: rest => (true, rest)
    | 43%N :: rest => (false, rest)
    | _ => (false, t)
    end in
  match Str.takeDigits body with
  | [] => NaN
  | ds =>
      let v := Z.of_N (Str.digitsValue ds) in
      ofInteger (if negative then (- v)%Z else v)
  end.

End Num.
Export Num.

(* ------------------------------------------------------------------ *)
(** ** Plain objects used as maps *)

Module Obj.

(** The properties every object literal inherits from [Object.prototype]:
    a lookup of one of these names on an object that has no own property
    of that name yields a function (or, for [__proto__], the prototype
    object), never [undefined]. *)
Definition inheritedNames : list JsString :=
  List.map Str.js
    [ "constructor"; "__defineGetter__"; "__defineSetter__"; "hasOwnProperty";
      "__lookupGetter__"; "__lookupSetter__"; "isPrototypeOf";
      "propertyIsEnumerable"; "toString"; "valueOf"; "__proto__";
      "toLocaleString" ]%string.

Definition isInherited (k : JsString) : bool :=
  existsb (Str.eqb k) inheritedNames.

(** Own string-keyed properties, in order of creation. *)
Definition t (V : Type) := list (JsString * V).

Inductive Lookup (V : Type) :=
| Own (v : V)       (* an own property *)
| Inherited         (* a member of Object.prototype: truthy, not a V *)
| Undefined.
Arguments Own {V} v.
Arguments Inherited {V}.
Arguments Undefined {V}.

Fixpoint getOwn {V} (o : t V) (k : JsString) : option V :=
  match o with
  | [] => None
  | (k', v) :: o' => if Str.eqb k' k then Some v else getOwn o' k
  end.

(** [o[k]] *)
Definition get {V} (o : t V) (k : JsString) : Lookup V :=
  match getOwn o k with
  | Some v => Own v
  | None => if isInherited k then Inherited else Undefined
  end.

(** [o[k] = v] for a key other than [__proto__]: an existing own property
    keeps its place, a new one goes last. *)
Fixpoint set {V} (o : t V) (k : JsString) (v : V) : t V :=
  match o with
  | [] => [(k, v)]
  | (k', v') :: o' =>
      if Str.eqb k' k then (k', v) :: o' else (k', v') :: set o' k v
  end.

(** An array index: the canonical decimal text of an integer between 0
    and 2^32 - 2. *)
Definition arrayIndex (k : JsString) : option N :=
  match k with
  | [] => None
  | c :: rest =>
      if forallb Str.isDigit k
         && (negb (c =? 48)%N || match rest with [] => true | _ => false end)
      then let v := Str.digitsValue k in
           if (v <=? 4294967294)%N then Some v else None
      else None
  end.

Fixpoint insertIndex (i : N) (k : JsString) (l : list (N * JsString))
  : list (N * JsString) :=
  match l with
  | [] => [(i, k)]
  | (j, k') :: l' =>
      if (i <=? j)%N then (i, k) :: l else (j, k') :: insertIndex i k l'
  end.

Fixpoint indexKeys (ks : list JsString) : list (N * JsString) :=
  match ks with
  | [] => []
  | k :: ks' =>
      match arrayIndex k with
      | Some i => insertIndex i k (indexKeys ks')
      | None => indexKeys ks'
      end
  end.

Definition isNamed (k : JsString) : bool :=
  match arrayIndex k with Some _ => false | None => true end.

(** [Object.keys(o)]: array indices in ascending numeric order, then the
    other keys in order of creation. *)
Definition keys {V} (o : t V) : list JsString :=
  let ks := List.map fst o in
  List.map snd (indexKeys ks) ++ filter isNamed ks.

End Obj.

(* ------------------------------------------------------------------ *)
(** ** Provider payloads *)

Module Payload.

(** [entry.main] of a forecast sample.  A field the payload lacks compares
    like [NaN]. *)
Record Main := {
  temp_min : number;
  temp_max : number;
  humidity : number
}.

(** [entry.weather[0]] *)
Record Weather := {
  condition : JsString;      (* weather[0].main *)
  description : JsString;
  icon : JsString
}.

(** One element of [data.list] of the forecast response.  [dt_txt] is
    [None] when the field is absent or is not a string. *)
Record Entry := {
  dt : number;
  dt_txt : option JsString;
  main : Main;
  weather : Weather;
  wind_speed : number
}.

(** What [renderForecast] pushes: [{ ...midday, tempMin, tempMax }]. *)
Record DailyForecast := {
  midday : Entry;
  tempMin : number;
  tempMax : number
}.

End Payload.
Export Payload.

(* ------------------------------------------------------------------ *)
(** ** js/ui.js: the forecast aggregation of renderForecast *)

Module Forecast.

(** [dt_txt.split(" ")[0]] *)
Definition dateKeyOf (s : JsString) : JsString := hd [] (Str.split 32 s).

(** [parseInt(dt_txt.split(" ")[1].split(":")[0], 10)]; with no second
    piece, [.split] is called on [undefined]. *)
Definition hourOf (s : JsString) : Completion number :=
  match nth_error (Str.split 32 s) 1 with
  | None => Throw TypeError
  | Some time => Normal (parseInt (hd [] (Str.split 58 time)))
  end.

(** One turn of the grouping loop of lines 240-246. *)
Definition groupStep (dailyMap : Obj.t (list Entry)) (entry : Entry)
  : Completion (Obj.t (list Entry)) :=
  match dt_txt entry with
  | None => Throw TypeError                    (* entry.dt_txt.split *)
  | Some s =>
      let dateKey := dateKeyOf s in
      match Obj.get dailyMap dateKey with
      | Obj.Undefined =>                       (* dailyMap[dateKey] = [] *)
          Normal (Obj.set dailyMap dateKey [entry])
      | Obj.Own entries =>                     (* arrays are truthy *)
          Normal (Obj.set dailyMap dateKey (entries ++ [entry]))
      | Obj.Inherited => Throw TypeError       (* .push is not a function *)
      end
  end.

Fixpoint groupByDate (dailyMap : Obj.t (list Entry)) (samples : list Entry)
  : Completion (Obj.t (list Entry)) :=
  match samples with
  | [] => Normal dailyMap
  | entry :: rest =>
      m <- groupStep dailyMap entry ;; groupByDate m rest
  end.

(** The loop of lines 259-268 over the entries of one day, threading
    [(midday, minDiff)]. *)
Fixpoint closestToNoon (entries : list Entry) (midday : Entry) (minDiff : number)
  : Completion Entry :=
  match entries with
  | [] => Normal midday
  | e :: rest =>
      match dt_txt e with
      | None => Throw TypeError
      | Some s =>
          hour <- hourOf s ;;
          let diff := Num.abs (subFin hour 12) in
          if Num.lt diff minDiff
          then closestToNoon rest e diff
          else closestToNoon rest midday minDiff
      end
  end.

(** The loop of lines 271-276, threading [(tempMin, tempMax)]. *)
Fixpoint extremes (entries : list Entry) (lo hi : number) : number * number :=
  match entries with
  | [] => (lo, hi)
  | e :: rest =>
      let lo' := if Num.lt (temp_min (main e)) lo then temp_min (main e) else lo in
      let hi' := if Num.gt (temp_max (main e)) hi then temp_max (main e) else hi in
      extremes rest lo' hi'
  end.

(** Lines 257-278 for one group.  A group is never empty, a key being
    created together with its first entry; on an empty one the code would
    fail as soon as the card reads [day.weather]. *)
Definition summarize (entries : list Entry) : Completion DailyForecast :=
  match entries with
  | [] => Throw TypeError
  | first :: _ =>
      m <- closestToNoon entries first Infinity ;;
      let '(lo, hi) := extremes entries Infinity NegInfinity in
      Normal {| midday := m; tempMin := lo; tempMax := hi |}
  end.

(** The callback of [Object.keys(dailyMap).forEach] (lines 253-279). *)
Definition dayStep (todayKey : JsString) (dailyMap : Obj.t (list Entry))
  (dailyForecasts : list DailyForecast) (dateKey : JsString)
  : Completion (list DailyForecast) :=
  if Str.eqb dateKey todayKey then Normal dailyForecasts
  else if 5 <=? List.length dailyForecasts then Normal dailyForecasts
  else
    match Obj.get dailyMap dateKey with
    | Obj.Own entries =>
        d <- summarize entries ;; Normal (dailyForecasts ++ [d])
    | Obj.Inherited | Obj.Undefined => Throw TypeError
    end.

Fixpoint forEachDay (todayKey : JsString) (dailyMap : Obj.t (list Entry))
  (dateKeys : list JsString) (dailyForecasts : list DailyForecast)
  : Completion (list DailyForecast) :=
  match dateKeys with
  | [] => Normal dailyForecasts
  | k :: rest =>
      dfs <- dayStep todayKey dailyMap dailyForecasts k ;;
      forEachDay todayKey dailyMap rest dfs
  end.

(** Lines 238-279: [data.list] to [dailyForecasts].  [todayKey] is
    [new Date().toISOString().split("T")[0]], read from the clock. *)
Definition aggregate (samples : list Entry) (todayKey : JsString)
  : Completion (list DailyForecast) :=
  dailyMap <- groupByDate [] samples ;;
  forEachDay todayKey dailyMap (Obj.keys dailyMap) [].

End Forecast.

(* ------------------------------------------------------------------ *)
(** ** Values of the language, as far as the code inspects them *)

Module Value.

#[warnings="-register-all"]
Inductive JsValue :=
| VUndefined
| VNull
| VBool (b : bool)
| VNumber (n : number)
| VString (s : JsString)
| VArray (elements : list JsValue)
| VObject (fields : list (JsString * JsValue)).

Definition isZero (n : number) : bool :=
  match n with Fin q => Qeq_bool q 0 | _ => false end.

(** ToBoolean *)
Definition truthy (v : JsValue) : bool :=
  match v with
  | VUndefined | VNull => false
  | VBool b => b
  | VNumber n => match n with NaN => false | _ => negb (isZero n) end
  | VString s => match s with [] => false | _ => true end
  | VArray _ | VObject _ => true
  end.

End Value.
Export Value.

(** The current-conditions response, with the fields the client reads. *)
Record CurrentData := {
  name : JsValue;
  sys_country : JsString;
  current_dt : number;
  current_weather : Weather;          (* weather[0] *)
  main_temp : number;
  main_feels_like : number;
  main_humidity : number;
  main_pressure : number;
  current_wind_speed : number;
  visibility : JsValue
}.

(* ------------------------------------------------------------------ *)
(** ** js/storage.js *)

Module Storage.

Definition MAX_CITIES : nat := 5.

(** What [localStorage] holds under [STORAGE_KEY]. *)
Inductive Item :=
| NoItem                (* getItem gives null *)
| NotJson               (* a text JSON.parse rejects, or the empty text *)
| Json (v : JsValue).   (* a text JSON.parse accepts, as its value *)

Record LocalStorage := {
  blocked : bool;       (* every access to localStorage throws *)
  full : bool;          (* setItem throws *)
  item : Item
}.

(** [getRecentCities]: whatever was parsed, [[]] on a missing or empty
    item and on every exception. *)
Definition getRecentCities (ls : LocalStorage) : JsValue :=
  if blocked ls then VArray []
  else match item ls with
       | NoItem | NotJson => VArray []
       | Json v => v
       end.

(** [localStorage.setItem(STORAGE_KEY, JSON.stringify(cities))] inside its
    [try]: a failure is swallowed. *)
Definition saveCities (cities : list JsString) (ls : LocalStorage) : LocalStorage :=
  if blocked ls || full ls then ls
  else {| blocked := blocked ls; full := full ls;
          item := Json (VArray (List.map VString cities)) |}.

Section WithUnicode.
Context {U : Str.Unicode}.

(** [cities.filter((c) => c.toLowerCase() !== trimmed.toLowerCase())] on
    the elements of an array: an element that is not a string has no
    [toLowerCase]. *)
Fixpoint dropCity (trimmed : JsString) (cities : list JsValue)
  : Completion (list JsString) :=
  match cities with
  | [] => Normal []
  | VString c :: rest =>
      kept <- dropCity trimmed rest ;;
      Normal (if Str.eqb (Str.toLowerCase c) (Str.toLowerCase trimmed)
              then kept else c :: kept)
  | _ :: _ => Throw TypeError
  end.

(** [addRecentCity].  An exception leaves the store as it was: the only
    write is the last statement. *)
Definition addRecentCity (city : JsValue) (ls : LocalStorage)
  : Completion LocalStorage :=
  match city with
  | VString s =>
      if negb (truthy city) then Normal ls
      else
        let trimmed := Str.trim s in
        if List.length trimmed =? 0 then Normal ls
        else
          match getRecentCities ls with
          | VArray stored =>
              kept <- dropCity trimmed stored ;;
              let cities := trimmed :: kept in           (* unshift *)
              let cities :=
                if MAX_CITIES <? List.length cities
                then firstn MAX_CITIES cities else cities in
              Normal (saveCities cities ls)
          | _ => Throw TypeError                         (* no .filter *)
          end
  | _ => Normal ls
  end.

End WithUnicode.

(** [clearRecentCities] *)
Definition clearRecentCities (ls : LocalStorage) : LocalStorage :=
  if blocked ls then ls
  else {| blocked := blocked ls; full := full ls; item := NoItem |}.

End Storage.

(* ------------------------------------------------------------------ *)
(** ** js/ui.js: the page and its renderers *)

Module UI.

(** The content of a [.rain-overlay] element; the random position, size
    and timing of the 60 drops or 40 flakes are left out. *)
Inductive Particle := RainDrops | SnowFlakes.

(** [elements.body]'s class tokens and the particle overlays of the
    document. *)
Record Backdrop := {
  bodyClass : list JsString;
  overlays : list Particle
}.

(** The text of [elements.alertMessage], with the rounded temperature it
    quotes. *)
Inductive AlertText :=
| NoAlertText
| ExtremeHeatWarning (rounded : number)
| ExtremeColdWarning (rounded : number).

(** [elements.alertMessage] and [elements.weatherAlert] *)
Record AlertBanner := {
  alertMessage : AlertText;
  alertHidden : bool;                (* class "hidden" *)
  alertBackground : string           (* style.background *)
}.

Inductive ToastType := ToastError | ToastSuccess | ToastInfo.

(** What a toast shows: a text of the source, or the [message] of a
    caught exception (the engine's own wording for its built-in ones). *)
Inductive ToastMessage :=
| Text (s : JsString)
| MessageOf (e : JsError).

Record Toast := { toastMessage : ToastMessage; toastType : ToastType }.

Inductive Unit := Celsius | Fahrenheit.

Record Page := {
  backdrop : Backdrop;
  banner : AlertBanner;
  welcomeHidden : bool;
  weatherHidden : bool;
  currentCard : option CurrentData;     (* the response the card displays *)
  currentTempCelsius : option number;
  currentUnit : Unit;
  forecastContainer : list DailyForecast;  (* one card per element *)
  recentList : list JsValue;            (* one <li> per element *)
  recentHidden : bool;
  toastContainer : list Toast;
  loadingHidden : bool
}.

Definition withBackdrop (b : Backdrop) (p : Page) : Page :=
  {| backdrop := b; banner := banner p; welcomeHidden := welcomeHidden p;
     weatherHidden := weatherHidden p; currentCard := currentCard p;
     currentTempCelsius := currentTempCelsius p; currentUnit := currentUnit p;
     forecastContainer := forecastContainer p; recentList := recentList p;
     recentHidden := recentHidden p; toastContainer := toastContainer p;
     loadingHidden := loadingHidden p |}.

Definition withBanner (a : AlertBanner) (p : Page) : Page :=
  {| backdrop := backdrop p; banner := a; welcomeHidden := welcomeHidden p;
     weatherHidden := weatherHidden p; currentCard := currentCard p;
     currentTempCelsius := currentTempCelsius p; currentUnit := currentUnit p;
     forecastContainer := forecastContainer p; recentList := recentList p;
     recentHidden := recentHidden p; toastContainer := toastContainer p;
     loadingHidden := loadingHidden p |}.

Definition withCurrent (data : CurrentData) (p : Page) : Page :=
  {| backdrop := backdrop p; banner := banner p; welcomeHidden := true;
     weatherHidden := false; currentCard := Some data;
     currentTempCelsius := Some (Num.round (main_temp data));
     currentUnit := Celsius;
     forecastContainer := forecastContainer p; recentList := recentList p;
     recentHidden := recentHidden p; toastContainer := toastContainer p;
     loadingHidden := loadingHidden p |}.

Definition withForecast (cards : list DailyForecast) (p : Page) : Page :=
  {| backdrop := backdrop p; banner := banner p; welcomeHidden := welcomeHidden p;
     weatherHidden := weatherHidden p; currentCard := currentCard p;
     currentTempCelsius := currentTempCelsius p; currentUnit := currentUnit p;
     forecastContainer := cards; recentList := recentList p;
     recentHidden := recentHidden p; toastContainer := toastContainer p;
     loadingHidden := loadingHidden p |}.

Definition withRecent (items : list JsValue) (hidden : bool) (p : Page) : Page :=
  {| backdrop := backdrop p; banner := banner p; welcomeHidden := welcomeHidden p;
     weatherHidden := weatherHidden p; currentCard := currentCard p;
     currentTempCelsius := currentTempCelsius p; currentUnit := currentUnit p;
     forecastContainer := forecastContainer p; recentList := items;
     recentHidden := hidden; toastContainer := toastContainer p;
     loadingHidden := loadingHidden p |}.

Definition withToasts (ts : list Toast) (p : Page) : Page :=
  {| backdrop := backdrop p; banner := banner p; welcomeHidden := welcomeHidden p;
     weatherHidden := weatherHidden p; currentCard := currentCard p;
     currentTempCelsius := currentTempCelsius p; currentUnit := currentUnit p;
     forecastContainer := forecastContainer p; recentList := recentList p;
     recentHidden := recentHidden p; toastContainer := ts;
     loadingHidden := loadingHidden p |}.

Definition withLoading (hidden : bool) (p : Page) : Page :=
  {| backdrop := backdrop p; banner := banner p; welcomeHidden := welcomeHidden p;
     weatherHidden := weatherHidden p; currentCard := currentCard p;
     currentTempCelsius := currentTempCelsius p; currentUnit := currentUnit p;
     forecastContainer := forecastContainer p; recentList := recentList p;
     recentHidden := recentHidden p; toastContainer := toastContainer p;
     loadingHidden := hidden |}.

(** *** checkWeatherAlert *)

Definition checkWeatherAlert (tempCelsius : number) (a : AlertBanner) : AlertBanner :=
  if Num.gt tempCelsius (ofZ 40) then
    {| alertMessage := ExtremeHeatWarning (Num.round tempCelsius);
       alertHidden := false;
       alertBackground := alertBackground a |}
  else if Num.lt tempCelsius (ofZ (-20)) then
    {| alertMessage := ExtremeColdWarning (Num.round tempCelsius);
       alertHidden := false;
       alertBackground := "rgba(37, 99, 235, 0.95)" |}
  else
    {| alertMessage := alertMessage a;
       alertHidden := true;
       alertBackground := "" |}.

(** *** updateBackground *)

(** The object literal [classMap] of lines 445-456. *)
Definition classMap (isNight : bool) : Obj.t JsString :=
  [ (Str.js "clear", if isNight then Str.js "weather-clear-night"
                     else Str.js "weather-clear");
    (Str.js "clouds", Str.js "weather-clouds");
    (Str.js "rain", Str.js "weather-rain");
    (Str.js "drizzle", Str.js "weather-drizzle");
    (Str.js "thunderstorm", Str.js "weather-thunderstorm");
    (Str.js "snow", Str.js "weather-snow");
    (Str.js "mist", Str.js "weather-mist");
    (Str.js "fog", Str.js "weather-fog");
    (Str.js "haze", Str.js "weather-haze");
    (Str.js "smoke", Str.js "weather-smoke") ].

(** [icon && icon.endsWith("n")] *)
Definition isNightIcon (icon : JsString) : bool :=
  match icon with
  | [] => false
  | _ => Str.endsWith (Str.js "n") icon
  end.

(** [body.classList.add(token)]: a token already present is not repeated. *)
Definition classListAdd (token : JsString) (classes : list JsString) : list JsString :=
  if existsb (Str.eqb token) classes then classes else classes ++ [token].

Section WithUnicode.
Context {U : Str.Unicode}.

(** [updateBackground(condition, icon)], on the class tokens of the body
    (module [ClassAttr] has it on the text of the attribute, and the two
    agree on an attribute as [classList] writes it).  The result is the
    backdrop reached and how the call ended.  When [classMap[conditionLower]] finds a
    member of [Object.prototype], the value handed to [classList.add] is a
    function (or the prototype object); its string form contains spaces, and
    [DOMTokenList.add] rejects such a token with an InvalidCharacterError. *)
Definition updateBackground (condition icon : JsString) (b : Backdrop)
  : Backdrop * Completion unit :=
  let isNight := isNightIcon icon in
  let classes :=
    filter (fun cls => negb (Str.startsWith (Str.js "weather-") cls)) (bodyClass b) in
  let cleared := {| bodyClass := classes; overlays := [] |} in
  let conditionLower := Str.toLowerCase condition in
  match Obj.get (classMap isNight) conditionLower with
  | Obj.Inherited => (cleared, Throw InvalidCharacterError)
  | found =>
      let weatherClass :=
        match found with
        | Obj.Own cls => cls
        | _ => Str.js "weather-default"
        end in
      let rain :=
        if existsb (Str.eqb conditionLower)
             [Str.js "rain"; Str.js "drizzle"; Str.js "thunderstorm"]
        then [RainDrops] else [] in
      let snow :=
        if Str.eqb conditionLower (Str.js "snow") then [SnowFlakes] else [] in
      ({| bodyClass := classListAdd weatherClass classes;
          overlays := rain ++ snow |}, Normal tt)
  end.

(** [renderCurrentWeather(data)]: the card is filled, then the backdrop is
    updated, then the alert is checked; an exception of [updateBackground]
    skips what follows it. *)
Definition renderCurrentWeather (data : CurrentData) (p : Page)
  : Page * Completion unit :=
  let p1 := withCurrent data p in
  let '(b, c) := updateBackground (condition (current_weather data))
                   (icon (current_weather data)) (backdrop p1) in
  let p2 := withBackdrop b p1 in
  match c with
  | Throw e => (p2, Throw e)
  | Normal _ =>
      (withBanner (checkWeatherAlert (main_temp data) (banner p2)) p2, Normal tt)
  end.

End WithUnicode.

(** [renderForecast(data)], with [data.list] and the date of the clock:
    the container is emptied, the days are aggregated, one card is appended
    per day. *)
Definition renderForecast (samples : list Entry) (todayKey : JsString) (p : Page)
  : Page * Completion unit :=
  let p1 := withForecast [] p in
  match Forecast.aggregate samples todayKey with
  | Throw e => (p1, Throw e)
  | Normal dailyForecasts => (withForecast dailyForecasts p1, Normal tt)
  end.

(** [cities.length === 0] *)
Definition lengthIsZero (v : JsValue) : bool :=
  match v with
  | VArray [] => true
  | VString [] => true
  | VObject fields =>
      match Obj.getOwn fields (Str.js "length") with
      | Some (VNumber n) => isZero n
      | _ => false
      end
  | _ => false
  end.

(** [renderRecentCities(cities, onCityClick)] *)
Definition renderRecentCities (cities : JsValue) (p : Page) : Page * Completion unit :=
  if negb (truthy cities) || lengthIsZero cities
  then (withRecent [] true p, Normal tt)
  else match cities with
       | VArray items => (withRecent items (recentHidden p) p, Normal tt)
       | _ => (withRecent [] (recentHidden p) p, Throw TypeError)  (* no .forEach *)
       end.

(** [showToast(message, type)]; the timer that removes the toast is not
    modelled. *)
Definition showToast (message : ToastMessage) (type : ToastType) (p : Page) : Page :=
  withToasts (toastContainer p ++ [{| toastMessage := message; toastType := type |}]) p.

Definition showError (message : ToastMessage) (p : Page) : Page :=
  showToast message ToastError p.

Definition showLoading (p : Page) : Page := withLoading false p.
Definition hideLoading (p : Page) : Page := withLoading true p.

End UI.

(* ------------------------------------------------------------------ *)
(** ** js/api.js, as the orchestrator sees it *)

Module WeatherAPI.

(** How a promise returned by [getCurrentWeather] or [getForecast] ends. *)
Inductive Settled (A : Type) :=
| Fulfilled (a : A)
| Rejected (e : JsError).
Arguments Fulfilled {A} a.
Arguments Rejected {A} e.

(** Which of the two requests of a lookup settles first. *)
Inductive Race := CurrentFirst | ForecastFirst.

(** [Promise.all([p1, p2])]: fulfilled with both values once both are
    fulfilled, rejected with the reason of the promise that is rejected
    first in time. *)
Definition promiseAll {A B} (race : Race) (p1 : Settled A) (p2 : Settled B)
  : Settled (A * B) :=
  match p1, p2 with
  | Fulfilled a, Fulfilled b => Fulfilled (a, b)
  | Rejected e, Fulfilled _ => Rejected e
  | Fulfilled _, Rejected e => Rejected e
  | Rejected e1, Rejected e2 =>
      match race with
      | CurrentFirst => Rejected e1
      | ForecastFirst => Rejected e2
      end
  end.

(** The messages [fetchData] gives to the errors it throws. *)
Definition cityNotFound : JsString :=
  Str.js "City not found. Please check the spelling and try again.".
Definition invalidApiKey : JsString :=
  Str.js "Invalid API key. Please check your configuration.".
Definition tooManyRequests : JsString :=
  Str.js "Too many requests. Please wait a moment and try again.".
Definition networkError : JsString :=
  Str.js "Network error. Please check your internet connection.".

End WeatherAPI.
Export WeatherAPI.

(* ------------------------------------------------------------------ *)
(** ** js/app.js *)

Module App.

(** *** validateCityInput *)

Record Validation := {
  valid : bool;
  value : JsString;
  error : option JsString
}.

Definition pleaseEnter : JsString := Str.js "Please enter a city name.".
Definition atLeastTwo : JsString := Str.js "City name must be at least 2 characters.".
Definition tooLong : JsString := Str.js "City name is too long.".
Definition onlyLetters : JsString :=
  Str.js "City name can only contain letters, spaces, hyphens, and apostrophes.".

(** The character class of [validPattern]: [[a-zA-ZÀ-ÿ\s\-'.,]]. *)
Definition inValidClass (c : N) : bool :=
  Str.inRange 97 122 c             (* a-z *)
  || Str.inRange 65 90 c           (* A-Z *)
  || Str.inRange 192 255 c         (* U+00C0 - U+00FF *)
  || Str.isWhiteSpace c            (* \s *)
  || (c =? 45)%N                   (* hyphen *)
  || (c =? 39)%N                   (* apostrophe *)
  || (c =? 46)%N                   (* period *)
  || (c =? 44)%N.                  (* comma *)

(** [/^[...]+$/.test(s)] *)
Definition validPattern_test (s : JsString) : bool :=
  match s with
  | [] => false
  | _ => forallb inValidClass s
  end.

Definition validateCityInput (input : JsString) : Validation :=
  let trimmed := Str.trim input in
  if List.length trimmed =? 0 then
    {| valid := false; value := []; error := Some pleaseEnter |}
  else if List.length trimmed <? 2 then
    {| valid := false; value := trimmed; error := Some atLeastTwo |}
  else if 100 <? List.length trimmed then
    {| valid := false; value := trimmed; error := Some tooLong |}
  else if negb (validPattern_test trimmed) then
    {| valid := false; value := trimmed; error := Some onlyLetters |}
  else
    {| valid := true; value := trimmed; error := None |}.

(** *** searchByCity *)

(** The state the application acts on. *)
Record World := {
  page : UI.Page;
  storage : Storage.LocalStorage;
  currentFeelsLikeCelsius : option number;
  cityInput : JsString                   (* cityInput.value *)
}.

Definition withPage (p : UI.Page) (w : World) : World :=
  {| page := p; storage := storage w;
     currentFeelsLikeCelsius := currentFeelsLikeCelsius w;
     cityInput := cityInput w |}.

Definition withStorage (s : Storage.LocalStorage) (w : World) : World :=
  {| page := page w; storage := s;
     currentFeelsLikeCelsius := currentFeelsLikeCelsius w;
     cityInput := cityInput w |}.

Definition withFeelsLike (n : number) (w : World) : World :=
  {| page := page w; storage := storage w;
     currentFeelsLikeCelsius := Some n;
     cityInput := cityInput w |}.

Definition withCityInput (s : JsString) (w : World) : World :=
  {| page := page w; storage := storage w;
     currentFeelsLikeCelsius := currentFeelsLikeCelsius w;
     cityInput := s |}.

(** Statements that change the world and may throw. *)
Definition Eff (A : Type) := World -> World * Completion A.

Definition ret {A} (a : A) : Eff A := fun w => (w, Normal a).

Definition seq {A B} (m : Eff A) (k : A -> Eff B) : Eff B :=
  fun w => match m w with
           | (w', Normal a) => k a w'
           | (w', Throw e) => (w', Throw e)
           end.

(** [try { body } catch (error) { handler(error) } finally { last }] for a
    handler and a last block that do not throw. *)
Definition tryCatchFinally (body : Eff unit) (handler : JsError -> World -> World)
  (last : World -> World) : World -> World :=
  fun w => match body w with
           | (w', Normal _) => last w'
           | (w', Throw e) => last (handler e w')
           end.

Definition onPage (f : UI.Page -> UI.Page) : Eff unit :=
  fun w => (withPage (f (page w)) w, Normal tt).

Definition onPageE (f : UI.Page -> UI.Page * Completion unit) : Eff unit :=
  fun w => let '(p, c) := f (page w) in (withPage p w, c).

(** [error.message] as shown in a toast *)
Definition messageOf (e : JsError) : UI.ToastMessage :=
  match e with
  | Error m => UI.Text m
  | other => UI.MessageOf other
  end.

(** [refreshRecentCitiesDropdown] *)
Definition refreshRecentCitiesDropdown : Eff unit :=
  fun w => onPageE (UI.renderRecentCities (Storage.getRecentCities (storage w))) w.

Section WithUnicode.
Context {U : Str.Unicode}.

(** The [try] block of [searchByCity], from the point where [Promise.all]
    has been fulfilled. *)
Definition showLookup (todayKey : JsString) (currentData : CurrentData)
  (forecastList : list Entry) : Eff unit :=
  seq (fun w => (withFeelsLike (Num.round (main_feels_like currentData)) w, Normal tt))
  (fun _ => seq (onPageE (UI.renderCurrentWeather currentData))
  (fun _ => seq (onPageE (UI.renderForecast forecastList todayKey))
  (fun _ => seq (fun w => match Storage.addRecentCity (name currentData) (storage w) with
                          | Normal s => (withStorage s w, Normal tt)
                          | Throw e => (w, Throw e)
                          end)
  (fun _ => seq refreshRecentCitiesDropdown
  (fun _ => fun w => (withCityInput [] w, Normal tt)))))).

(** [searchByCity(city)].  [current] and [forecast] are the ways the two
    requests end, [race] tells which ends first, [todayKey] is the date of
    the clock when the forecast is rendered. *)
Definition searchByCity (city : JsString) (race : Race)
  (current : Settled CurrentData) (forecast : Settled (list Entry))
  (todayKey : JsString) (w : World) : World :=
  let validation := validateCityInput city in
  if negb (valid validation) then
    match error validation with
    | Some msg => withPage (UI.showError (UI.Text msg) (page w)) w
    | None => w
    end
  else
    let w1 := withPage (UI.showLoading (page w)) w in
    tryCatchFinally
      (fun w => match promiseAll race current forecast with
                | Rejected e => (w, Throw e)
                | Fulfilled (currentData, forecastList) =>
                    showLookup todayKey currentData forecastList w
                end)
      (fun e w => withPage (UI.showError (messageOf e) (page w)) w)
      (fun w => withPage (UI.hideLoading (page w)) w)
      w1.

End WithUnicode.

End App.

(* ------------------------------------------------------------------ *)
(** * Vocabulary of the statements *)

Module Spec.

Import Forecast.

(** *** Days and groups *)

(** The sample is filed under the date key [k]. *)
Definition onDay (k : JsString) (e : Entry) : bool :=
  match dt_txt e with
  | Some s => Str.eqb (dateKeyOf s) k
  | None => false
  end.

(** The day-group of [k]: the samples filed under [k], in input order. *)
Definition dayGroup (k : JsString) (samples : list Entry) : list Entry :=
  filter (onDay k) samples.

(** The distinct elements of a list, in order of first occurrence. *)
Fixpoint firstSeen (ks : list JsString) : list JsString :=
  match ks with
  | [] => []
  | k :: rest => k :: filter (fun x => negb (Str.eqb x k)) (firstSeen rest)
  end.

Definition stamps (samples : list Entry) : list JsString :=
  flat_map (fun e => match dt_txt e with
                     | Some s => [dateKeyOf s]
                     | None => []
                     end) samples.

(** The date keys of the input, in order of first appearance. *)
Definition dateKeys (samples : list Entry) : list JsString :=
  firstSeen (stamps samples).

Definition groupsOf (samples : list Entry) : Obj.t (list Entry) :=
  List.map (fun k => (k, dayGroup k samples)) (dateKeys samples).

(** The date key of an emitted day: that of its representative. *)
Definition dayOf (d : DailyForecast) : option JsString :=
  option_map dateKeyOf (dt_txt (midday d)).

(** A sample the grouping loop can file: it has a timestamp text and the
    date key is not the name of a member of [Object.prototype]. *)
Definition fileable (e : Entry) : bool :=
  match dt_txt e with
  | Some s => negb (Obj.isInherited (dateKeyOf s))
  | None => false
  end.

(** The date keys that get a card: the first five other than today's, in
    order of first appearance. *)
Definition days (todayKey : JsString) (samples : list Entry) : list JsString :=
  firstn 5 (filter (fun k => negb (Str.eqb k todayKey)) (dateKeys samples)).

(** The date keys other than today's. *)
Definition futureDays (todayKey : JsString) (samples : list Entry) : list JsString :=
  filter (fun k => negb (Str.eqb k todayKey)) (dateKeys samples).

(** The summaries of the groups filed under [ks] in [dailyMap], in order. *)
Fixpoint summarizeAll (dailyMap : Obj.t (list Entry)) (ks : list JsString)
  : Completion (list DailyForecast) :=
  match ks with
  | [] => Normal []
  | k :: rest =>
      match Obj.get dailyMap k with
      | Obj.Own entries =>
          d <- summarize entries ;;
          ds <- summarizeAll dailyMap rest ;;
          Normal (d :: ds)
      | Obj.Inherited | Obj.Undefined => Throw TypeError
      end
  end.

(** The running minimum and maximum of the loop of lines 271-276. *)
Definition runningMin (xs : list number) (lo : number) : number :=
  fold_left (fun acc x => if Num.lt x acc then x else acc) xs lo.

Definition runningMax (xs : list number) (hi : number) : number :=
  fold_left (fun acc x => if Num.gt x acc then x else acc) xs hi.

Definition allFinite (xs : list number) : Prop :=
  forall x, In x xs -> exists q, x = Fin q.

Definition minima (entries : list Entry) : list number :=
  List.map (fun e => temp_min (main e)) entries.

Definition maxima (entries : list Entry) : list number :=
  List.map (fun e => temp_max (main e)) entries.

(** *** Calendar dates *)

Definition digit (c : N) : N := (c - 48)%N.

(** [YYYY-MM-DD] as year, month and day. *)
Definition calendarDate (k : JsString) : option (N * N * N) :=
  match k with
  | [y1; y2; y3; y4; h1; m1; m2; h2; d1; d2] =>
      if forallb Str.isDigit [y1; y2; y3; y4; m1; m2; d1; d2]
         && (h1 =? 45)%N && (h2 =? 45)%N
      then Some ((digit y1 * 1000 + digit y2 * 100 + digit y3 * 10 + digit y4)%N,
                 (digit m1 * 10 + digit m2)%N,
                 (digit d1 * 10 + digit d2)%N)
      else None
  | _ => None
  end.

Definition dateLt (a b : N * N * N) : Prop :=
  let '(y1, m1, d1) := a in
  let '(y2, m2, d2) := b in
  (y1 < y2 \/ (y1 = y2 /\ (m1 < m2 \/ (m1 = m2 /\ d1 < d2))))%N.

(** [k1] is a calendar date before the calendar date [k2]. *)
Definition earlier (k1 k2 : JsString) : Prop :=
  match calendarDate k1, calendarDate k2 with
  | Some a, Some b => dateLt a b
  | _, _ => False
  end.

(** The samples come in the order of their dates. *)
Definition chronologicalInput (samples : list Entry) : Prop :=
  StronglySorted (fun k1 k2 => k1 = k2 \/ earlier k1 k2) (stamps samples).

(** The emitted days come by strictly increasing date. *)
Definition chronological (out : list DailyForecast) : Prop :=
  StronglySorted (fun d1 d2 =>
    match dayOf d1, dayOf d2 with
    | Some k1, Some k2 => earlier k1 k2
    | _, _ => False
    end) out.

(** *** Hours *)

(** The hour of day the code reads in the timestamp, when it is a finite
    number. *)
Definition hourOfDay (e : Entry) : option Q :=
  match dt_txt e with
  | Some s => match hourOf s with
              | Normal (Fin h) => Some h
              | _ => None
              end
  | None => None
  end.

(** Distance of the sample's hour from 12:00. *)
Definition noonDistance (e : Entry) : option Q :=
  option_map (fun h => Qabs (h - 12)) (hourOfDay e).

Definition isSome {A} (o : option A) : bool :=
  match o with Some _ => true | None => false end.

(** A sample with a timestamp of the provider's shape: a calendar date, a
    space, and a time that starts with a number. *)
Definition wellTimed (e : Entry) : bool :=
  match dt_txt e with
  | Some s => isSome (calendarDate (dateKeyOf s)) && isSome (hourOfDay e)
  | None => false
  end.

(** The hour of the sample is a clock reading as far as the arithmetic
    of the code goes: its distance from 12 is below [2^53], so that
    [hour - 12] is a double and is computed without rounding. *)
Definition nearNoon (e : Entry) : bool :=
  match noonDistance e with
  | Some d => Qltb d (inject_Z (2 ^ 53))
  | None => false
  end.

Definition finiteBounds (e : Entry) : bool :=
  Num.isFinite (temp_min (main e)) && Num.isFinite (temp_max (main e)).

(** [r] is the first sample of [group] at the least distance from noon. *)
Definition firstClosestToNoon (r : Entry) (group : list Entry) : Prop :=
  exists before after dr,
    group = before ++ r :: after /\
    noonDistance r = Some dr /\
    (forall e, In e before -> exists de, noonDistance e = Some de /\ (dr < de)%Q) /\
    (forall e, In e after -> exists de, noonDistance e = Some de /\ (dr <= de)%Q).

(** [x] is the least of the finite numbers [xs]. *)
Definition leastOf (x : number) (xs : list number) : Prop :=
  In x xs /\ exists m, x = Fin m /\ forall y, In y xs -> exists q, y = Fin q /\ (m <= q)%Q.

Definition greatestOf (x : number) (xs : list number) : Prop :=
  In x xs /\ exists m, x = Fin m /\ forall y, In y xs -> exists q, y = Fin q /\ (q <= m)%Q.

(** What the card of the day [k] holds: the first sample of the day-group
    closest to noon, and the running extremes of the whole group. *)
Definition summaryOf (samples : list Entry) (k : JsString) (d : DailyForecast) : Prop :=
  firstClosestToNoon (midday d) (dayGroup k samples) /\
  tempMin d = runningMin (minima (dayGroup k samples)) Infinity /\
  tempMax d = runningMax (maxima (dayGroup k samples)) NegInfinity.

(** What the card of the day [k] holds whatever the hours read: a sample
    of the day-group, and the running extremes of the whole group. *)
Definition rangeSummary (samples : list Entry) (k : JsString) (d : DailyForecast)
  : Prop :=
  In (midday d) (dayGroup k samples) /\
  tempMin d = runningMin (minima (dayGroup k samples)) Infinity /\
  tempMax d = runningMax (maxima (dayGroup k samples)) NegInfinity.

(** *** Sample payloads for the examples *)

Definition clearSky : Weather :=
  {| condition := Str.js "Clear"; description := Str.js "clear sky";
     icon := Str.js "01d" |}.

(** A sample with the timestamp text [stamp] and the bounds [lo], [hi]. *)
Definition sample (stamp : string) (lo hi : Z) : Entry :=
  {| dt := ofZ 0; dt_txt := Some (Str.js stamp);
     main := {| temp_min := ofZ lo; temp_max := ofZ hi; humidity := ofZ 50 |};
     weather := clearSky; wind_speed := ofZ 3 |}.

(** A sample whose timestamp text is missing. *)
Definition unstamped (lo hi : Z) : Entry :=
  {| dt := ofZ 0; dt_txt := None;
     main := {| temp_min := ofZ lo; temp_max := ofZ hi; humidity := ofZ 50 |};
     weather := clearSky; wind_speed := ofZ 3 |}.

(** The eight samples of a day at 3-hour resolution. *)
Definition threeHourly (date : string) : list Entry :=
  List.map (fun hour => sample (date ++ " " ++ hour ++ ":00:00") 10 20)
    ["00"; "03"; "06"; "09"; "12"; "15"; "18"; "21"]%string.

(** Today and the five days after it, at 3-hour resolution. *)
Definition sixDays : list Entry :=
  flat_map threeHourly
    ["2024-01-01"; "2024-01-02"; "2024-01-03"; "2024-01-04"; "2024-01-05";
     "2024-01-06"]%string.

(** One day with samples at 09:00, 12:00 and 15:00. *)
Definition oneDay : list Entry :=
  [ sample "2024-01-02 09:00:00" 10 20;
    sample "2024-01-02 12:00:00" 8 22;
    sample "2024-01-02 15:00:00" 12 19 ].

(** *** Alerts and themes *)

Inductive AlertState := none | heat_extreme | cold_extreme.

(** The alert state the banner displays. *)
Definition alertStateOf (a : UI.AlertBanner) : AlertState :=
  if UI.alertHidden a then none
  else match UI.alertMessage a with
       | UI.ExtremeHeatWarning _ => heat_extreme
       | UI.ExtremeColdWarning _ => cold_extreme
       | UI.NoAlertText => none
       end.

(** The theme of a backdrop: its [weather-] class tokens. *)
Definition themeOf (b : UI.Backdrop) : list JsString :=
  filter (Str.startsWith (Str.js "weather-")) (UI.bodyClass b).

(** The theme the specification's table gives to a lower-cased condition:
    the ten known conditions have the class named after them, Clear has a
    night variant, everything else has the default. *)
Definition knownConditions : list JsString :=
  List.map Str.js
    [ "clouds"; "rain"; "drizzle"; "thunderstorm"; "snow"; "mist"; "fog";
      "haze"; "smoke" ]%string.

Definition expectedTheme (lower : JsString) (night : bool) : JsString :=
  if Str.eqb (Str.js "clear") lower
  then (if night then Str.js "weather-clear-night" else Str.js "weather-clear")
  else if existsb (fun k => Str.eqb k lower) knownConditions
       then Str.js "weather-" ++ lower
       else Str.js "weather-default".

Definition expectedParticles (lower : JsString) : list UI.Particle :=
  if existsb (fun k => Str.eqb k lower)
       [Str.js "rain"; Str.js "drizzle"; Str.js "thunderstorm"]
  then [UI.RainDrops]
  else if Str.eqb (Str.js "snow") lower then [UI.SnowFlakes] else [].

(** *** Recent cities *)

(** No two entries are equal when compared without regard to case. *)
Definition distinctIgnoringCase {U : Str.Unicode} (cities : list JsString) : Prop :=
  NoDup (List.map Str.toLowerCase cities).

(** The recent-city list read from the store is [cities]. *)
Definition holds (ls : Storage.LocalStorage) (cities : list JsString) : Prop :=
  Storage.getRecentCities ls = VArray (List.map VString cities).

(** The store accepts a write. *)
Definition writable (ls : Storage.LocalStorage) : Prop :=
  Storage.blocked ls = false /\ Storage.full ls = false.

(** The invariant of the recent-city list. *)
Definition recentInvariant {U : Str.Unicode} (cities : list JsString) : Prop :=
  List.length cities <= 5 /\ NoDup (List.map Str.toLowerCase cities).

(** The list the specification asks for: the city first, then the former
    entries that differ from it when case is ignored, five at most. *)
Definition updated {U : Str.Unicode} (trimmed : JsString) (prior : list JsString)
  : list JsString :=
  firstn 5
    (trimmed ::
     filter (fun c => negb (Str.eqb (Str.toLowerCase c) (Str.toLowerCase trimmed)))
       prior).

(** An engine whose tables beyond Latin-1 leave a string as it is.  The
    examples run on Latin-1 strings, for which no table is consulted. *)
Definition latin1Engine : Str.Unicode := {| Str.unicodeLower := fun s => s |}.

(** A store in working order that holds the list [cities]. *)
Definition storeOf (cities : list JsString) : Storage.LocalStorage :=
  {| Storage.blocked := false; Storage.full := false;
     Storage.item := Storage.Json (VArray (List.map VString cities)) |}.

(** *** Lookups *)

(** The world [w'] is the world [w] after a lookup that failed with [e]:
    one error toast with the message of [e] has been added and the loading
    overlay is hidden; the current-conditions card, the forecast cards, the
    backdrop, the alert banner, the recent list, the store, the input box
    and the remembered temperatures are those of [w]. *)
Definition failedWith (e : JsError) (w w' : App.World) : Prop :=
  UI.toastContainer (App.page w') =
    UI.toastContainer (App.page w)
    ++ [{| UI.toastMessage := App.messageOf e; UI.toastType := UI.ToastError |}] /\
  UI.loadingHidden (App.page w') = true /\
  UI.currentCard (App.page w') = UI.currentCard (App.page w) /\
  UI.currentTempCelsius (App.page w') = UI.currentTempCelsius (App.page w) /\
  UI.forecastContainer (App.page w') = UI.forecastContainer (App.page w) /\
  UI.backdrop (App.page w') = UI.backdrop (App.page w) /\
  UI.banner (App.page w') = UI.banner (App.page w) /\
  UI.welcomeHidden (App.page w') = UI.welcomeHidden (App.page w) /\
  UI.weatherHidden (App.page w') = UI.weatherHidden (App.page w) /\
  UI.recentList (App.page w') = UI.recentList (App.page w) /\
  UI.recentHidden (App.page w') = UI.recentHidden (App.page w) /\
  App.storage w' = App.storage w /\
  App.cityInput w' = App.cityInput w /\
  App.currentFeelsLikeCelsius w' = App.currentFeelsLikeCelsius w.

(** The page as [index.html] loads it, over an empty store. *)
Definition freshWorld : App.World :=
  {| App.page :=
       {| UI.backdrop := {| UI.bodyClass := [Str.js "weather-default"];
                            UI.overlays := [] |};
          UI.banner := {| UI.alertMessage := UI.NoAlertText;
                          UI.alertHidden := true;
                          UI.alertBackground := "" |};
          UI.welcomeHidden := false;
          UI.weatherHidden := true;
          UI.currentCard := None;
          UI.currentTempCelsius := None;
          UI.currentUnit := UI.Celsius;
          UI.forecastContainer := [];
          UI.recentList := [];
          UI.recentHidden := true;
          UI.toastContainer := [];
          UI.loadingHidden := true |};
     App.storage := storeOf [];
     App.currentFeelsLikeCelsius := None;
     App.cityInput := Str.js "Paris" |}.

(** Current conditions for Paris: clear sky, 21 degrees. *)
Definition parisNow : CurrentData :=
  {| name := VString (Str.js "Paris");
     sys_country := Str.js "FR";
     current_dt := ofZ 1704196800;
     current_weather := clearSky;
     main_temp := ofZ 21;
     main_feels_like := ofZ 20;
     main_humidity := ofZ 40;
     main_pressure := ofZ 1015;
     current_wind_speed := ofZ 3;
     visibility := VNumber (ofZ 10000) |}.

(** *** Validation *)

Definition asciiLetter (c : N) : bool :=
  Str.inRange 97 122 c || Str.inRange 65 90 c.

(** The letters of the Latin-1 Supplement: [U+00C0..U+00FF] without the
    multiplication and the division sign. *)
Definition latin1Letter (c : N) : bool :=
  Str.inRange 192 255 c && negb (c =? 215)%N && negb (c =? 247)%N.

(** Hyphen, apostrophe, period, comma. *)
Definition punctuation (c : N) : bool :=
  ((c =? 45) || (c =? 39) || (c =? 46) || (c =? 44))%N.

(** The letters of Latin Extended-A, [U+0100..U+017F]: accented Latin
    letters every one of them. *)
Definition latinExtendedLetter (c : N) : bool := Str.inRange 256 383 c.

(** The characters the specification allows, over the Basic Latin,
    Latin-1 Supplement and Latin Extended-A blocks. *)
Definition allowedBySpec (c : N) : bool :=
  asciiLetter c || latin1Letter c || latinExtendedLetter c
  || Str.isWhiteSpace c || punctuation c.

(** The characters the code accepts and the specification allows. *)
Definition plainlyAllowed (c : N) : bool :=
  asciiLetter c || latin1Letter c || Str.isWhiteSpace c || punctuation c.

(** Every character the code turns down: all but the plainly allowed ones
    and the two signs of [U+00C0..U+00FF], so every digit, every other ASCII
    symbol and every character from [U+0100] on that is not white space. *)
Definition refused (c : N) : bool :=
  negb (plainlyAllowed c) && negb (c =? 215)%N && negb (c =? 247)%N.

(** [t] is [input] without its leading and trailing white space. *)
Definition trimmedOf (input t : JsString) : Prop :=
  exists lead trail,
    input = lead ++ t ++ trail /\
    forallb Str.isWhiteSpace lead = true /\
    forallb Str.isWhiteSpace trail = true /\
    (forall c, hd_error t = Some c -> Str.isWhiteSpace c = false) /\
    (forall c, hd_error (rev t) = Some c -> Str.isWhiteSpace c = false).

(** "Lodz" in Polish spelling: L with stroke, o acute, d, z acute. *)
Definition lodz : JsString := [321; 243; 100; 378]%N.

(** "Sao Paulo" with a tilde. *)
Definition saoPaulo : JsString := [83; 227; 111; 32; 80; 97; 117; 108; 111]%N.

Definition rejected (value message : JsString) : App.Validation :=
  {| App.valid := false; App.value := value; App.error := Some message |}.

Definition accepted (value : JsString) : App.Validation :=
  {| App.valid := true; App.value := value; App.error := None |}.

End Spec.

(* ------------------------------------------------------------------ *)
(** ** js/app.js: searchByLocation and the event listeners *)

Module Events.

Import App.

(** Conversions of the language that the embedding does not spell out:
    the string of a value that is not a string, the number of a value that
    is neither a number, a boolean, null nor undefined. *)
Class Engine := {
  toStringOf : JsValue -> JsString;
  toNumberOf : JsValue -> number
}.

(** A value inside a template literal *)
Definition interpolate {E : Engine} (v : JsValue) : JsString :=
  match v with
  | VString s => s
  | other => toStringOf other
  end.

(** ToNumber *)
Definition toNumber {E : Engine} (v : JsValue) : number :=
  match v with
  | VNumber n => n
  | VUndefined => NaN
  | VNull => ofZ 0
  | VBool b => if b then ofZ 1 else ofZ 0
  | other => toNumberOf other
  end.

(** [v.length] *)
Definition lengthOf (v : JsValue) : Completion JsValue :=
  match v with
  | VUndefined | VNull => Throw TypeError
  | VArray items => Normal (VNumber (ofZ (Z.of_nat (List.length items))))
  | VString s => Normal (VNumber (ofZ (Z.of_nat (List.length s))))
  | VObject fields =>
      Normal match Obj.getOwn fields (Str.js "length") with
             | Some x => x
             | None => VUndefined
             end
  | VBool _ | VNumber _ => Normal VUndefined
  end.

(** [cities.length > 0] *)
Definition lengthPositive {E : Engine} (cities : JsValue) : Completion bool :=
  len <- lengthOf cities ;; Normal (Num.gt (toNumber len) (ofZ 0)).

(** [UI.hideRecentCities] *)
Definition hideRecentCities (p : UI.Page) : UI.Page :=
  UI.withRecent (UI.recentList p) true p.

(** [UI.showRecentCities], reading the store *)
Definition showRecentCities {E : Engine} : Eff unit :=
  fun w =>
    match lengthPositive (Storage.getRecentCities (storage w)) with
    | Throw e => (w, Throw e)
    | Normal true =>
        (withPage (UI.withRecent (UI.recentList (page w)) false (page w)) w, Normal tt)
    | Normal false => (w, Normal tt)
    end.

(** The [focus] listener of the input box (lines 748-754) *)
Definition onFocus {E : Engine} : Eff unit :=
  fun w =>
    match lengthPositive (Storage.getRecentCities (storage w)) with
    | Throw e => (w, Throw e)
    | Normal true => seq refreshRecentCitiesDropdown (fun _ => showRecentCities) w
    | Normal false => (w, Normal tt)
    end.

Definition recentSearchesCleared : JsString := Str.js "Recent searches cleared.".

(** The [click] listener of the clear button (lines 766-770) *)
Definition onClearRecent (w : World) : World :=
  let w1 := withStorage (Storage.clearRecentCities (storage w)) w in
  let w2 := withPage (hideRecentCities (page w1)) w1 in
  withPage (UI.showToast (UI.Text recentSearchesCleared) UI.ToastInfo (page w2)) w2.

(** [init] *)
Definition init : Eff unit := refreshRecentCitiesDropdown.

(** *** searchByLocation *)

(** What the browser answers to [navigator.geolocation.getCurrentPosition]:
    no geolocation object at all, a position, or an error with its code. *)
Inductive Geolocation :=
| Unsupported
| Position (latitude longitude : number)
| PositionError (code : N).

Definition notSupported : JsString :=
  Str.js "Geolocation is not supported by your browser.".
Definition accessDenied : JsString :=
  Str.js "Location access denied. Please allow location access in your browser settings.".
Definition unavailable : JsString :=
  Str.js "Location information is unavailable.".
Definition timedOut : JsString :=
  Str.js "Location request timed out. Please try again.".
Definition unknownError : JsString :=
  Str.js "An unknown error occurred while getting your location.".

(** The [switch] of lines 698-710; PERMISSION_DENIED, POSITION_UNAVAILABLE
    and TIMEOUT are 1, 2 and 3. *)
Definition positionErrorMessage (code : N) : JsString :=
  if (code =? 1)%N then accessDenied
  else if (code =? 2)%N then unavailable
  else if (code =? 3)%N then timedOut
  else unknownError.

Section WithEngine.
Context {U : Str.Unicode} {E : Engine}.

(** The [try] block of the position callback, from the point where
    [Promise.all] has been fulfilled (lines 681-689). *)
Definition showLocationLookup (todayKey : JsString) (currentData : CurrentData)
  (forecastList : list Entry) : Eff unit :=
  seq (fun w => (withFeelsLike (Num.round (main_feels_like currentData)) w, Normal tt))
  (fun _ => seq (onPageE (UI.renderCurrentWeather currentData))
  (fun _ => seq (onPageE (UI.renderForecast forecastList todayKey))
  (fun _ => seq (fun w => match Storage.addRecentCity (name currentData) (storage w) with
                          | Normal s => (withStorage s w, Normal tt)
                          | Throw e => (w, Throw e)
                          end)
  (fun _ => seq refreshRecentCitiesDropdown
  (fun _ => onPage (UI.showToast
                      (UI.Text (Str.js "Showing weather for "
                                ++ interpolate (name currentData)))
                      UI.ToastSuccess)))))).

(** [searchByLocation()].  [geo] is the answer of the browser, the other
    arguments are those of [searchByCity]. *)
Definition searchByLocation (geo : Geolocation) (race : Race)
  (current : Settled CurrentData) (forecast : Settled (list Entry))
  (todayKey : JsString) (w : World) : World :=
  match geo with
  | Unsupported => withPage (UI.showError (UI.Text notSupported) (page w)) w
  | PositionError code =>
      let w1 := withPage (UI.showLoading (page w)) w in
      let w2 := withPage (UI.hideLoading (page w1)) w1 in
      withPage (UI.showError (UI.Text (positionErrorMessage code)) (page w2)) w2
  | Position _ _ =>
      let w1 := withPage (UI.showLoading (page w)) w in
      tryCatchFinally
        (fun w => match promiseAll race current forecast with
                  | Rejected e => (w, Throw e)
                  | Fulfilled (currentData, forecastList) =>
                      showLocationLookup todayKey currentData forecastList w
                  end)
        (fun e w => withPage (UI.showError (messageOf e) (page w)) w)
        (fun w => withPage (UI.hideLoading (page w)) w)
        w1
  end.

End WithEngine.

End Events.

(* ------------------------------------------------------------------ *)
(** ** js/api.js: fetchData *)

Module Api.

(** What [fetch] and [response.json()] reject with: a TypeError, whose
    message may or may not contain "fetch", or a SyntaxError. *)
Inductive Raised :=
| RaisedTypeError (aboutFetch : bool)   (* error.message.includes("fetch") *)
| RaisedSyntaxError.

(** How [response.json()] settles on a response whose status is ok. *)
Inductive Json (A : Type) :=
| Parses (a : A)
| JsonFails (r : Raised).
Arguments Parses {A} a.
Arguments JsonFails {A} r.

(** A response as [fetchData] reads it: [json] is how [response.json()]
    settles when the status is ok, [errorData] is what
    [await response.json().catch(() => null)] gives when it is not - the
    parsed body, or [null] when the body does not parse. *)
Record Response (A : Type) := {
  status : N;
  json : Json A;
  errorData : JsValue
}.

Inductive Fetched (A : Type) :=
| FetchRejects (r : Raised)
| FetchResolves (response : Response A).
Arguments FetchRejects {A} r.
Arguments FetchResolves {A} response.

(** How the promise of [fetchData] ends: with the data, with an [Error] it
    created, or with the exception it caught and threw again. *)
Inductive Outcome (A : Type) :=
| Returns (a : A)
| ThrowsError (message : JsString)
| Rethrows (r : Raised).
Arguments Returns {A} a.
Arguments ThrowsError {A} message.
Arguments Rethrows {A} r.

(** [response.ok] *)
Definition ok {A} (response : Response A) : bool :=
  Str.inRange 200 299 (status response).

(** The decimal text of a status code. *)
Definition decimal (n : N) : JsString :=
  Str.js (NilZero.string_of_uint (N.to_uint n)).

Definition failedToFetch (status : N) : JsString :=
  Str.js "Failed to fetch weather data (Error " ++ decimal status ++ Str.js ").".

(** The [catch] block of lines 39-45. *)
Definition caught {A} (r : Raised) : Outcome A :=
  match r with
  | RaisedTypeError true => ThrowsError networkError
  | other => Rethrows other
  end.

(** [errorData?.message]: the own property of a parsed object;
    [undefined] on [null], and on arrays, texts, numbers and booleans, none
    of which has or inherits a property of that name. *)
Definition messageOf (errorData : JsValue) : JsValue :=
  match errorData with
  | VObject fields =>
      match Obj.getOwn fields (Str.js "message") with
      | Some v => v
      | None => VUndefined
      end
  | _ => VUndefined
  end.

(** [fetchData(endpoint)], as a function of what [fetch] does.  The
    message of [new Error(v)] is the string of [v]; the conversion of a
    parsed value is taken to return, a body such as
    [{"message": {"toString": 0, "valueOf": 0}}], on which it throws, being
    left out. *)
Definition fetchData {E : Events.Engine} {A} (fetched : Fetched A) : Outcome A :=
  match fetched with
  | FetchRejects r => caught r
  | FetchResolves response =>
      if negb (ok response) then
        if (status response =? 404)%N then ThrowsError cityNotFound
        else if (status response =? 401)%N then ThrowsError invalidApiKey
        else if (status response =? 429)%N then ThrowsError tooManyRequests
        else
          let message := messageOf (errorData response) in
          ThrowsError (if truthy message then Events.interpolate message
                       else failedToFetch (status response))
      else
        match json response with
        | Parses a => Returns a
        | JsonFails r => caught r
        end
  end.

End Api.

(* ------------------------------------------------------------------ *)
(** ** js/ui.js: updateBackground on the text of the class attribute *)

(** [UI.updateBackground] acts on the class tokens of the body.  The code
    acts on the text of the attribute: it splits [className] at spaces,
    where the tokens of an attribute are separated by any ASCII white
    space, and [classList.add] writes the attribute back token by token.
    This module follows the text. *)
Module ClassAttr.

(** ASCII white space of the DOM standard: TAB, LF, FF, CR, SPACE. *)
Definition isAsciiWhitespace (c : N) : bool :=
  ((c =? 9) || (c =? 10) || (c =? 12) || (c =? 13) || (c =? 32))%N.

(** The pieces of a text between the units that satisfy [p]: never the
    empty list.  [Str.split sep] is [splitOn (fun c => c =? sep)]. *)
Fixpoint splitOn (p : N -> bool) (s : JsString) : list JsString :=
  match s with
  | [] => [[]]
  | c :: s' =>
      if p c then [] :: splitOn p s'
      else match splitOn p s' with
           | piece :: rest => (c :: piece) :: rest
           | [] => [[c]]
           end
  end.

(** [pieces.join(sep)] for a one-unit separator *)
Fixpoint join (sep : N) (pieces : list JsString) : JsString :=
  match pieces with
  | [] => []
  | piece :: rest =>
      match rest with
      | [] => piece
      | _ :: _ => piece ++ sep :: join sep rest
      end
  end.

Definition nonEmpty (t : JsString) : bool :=
  match t with [] => false | _ :: _ => true end.

(** The ordered set parser of the DOM standard: the text is split on
    ASCII white space, a token that occurs again is dropped. *)
Definition tokensOf (text : JsString) : list JsString :=
  Spec.firstSeen (filter nonEmpty (splitOn isAsciiWhitespace text)).

(** [element.classList.add(token)] for a token that is valid, as a
    function on the text of the attribute: the token goes last unless it is
    there, and the attribute becomes the tokens joined by single spaces. *)
Definition classListAdd (token : JsString) (text : JsString) : JsString :=
  let tokens := tokensOf text in
  join 32 (if existsb (Str.eqb token) tokens then tokens else tokens ++ [token]).

(** [document.body.className] and the particle overlays of the document. *)
Record Body := {
  className : JsString;
  overlays : list UI.Particle
}.

Section WithUnicode.
Context {U : Str.Unicode}.

(** [updateBackground(condition, icon)], lines 430-470. *)
Definition updateBackground (condition icon : JsString) (b : Body)
  : Body * Completion unit :=
  let isNight := UI.isNightIcon icon in
  let cleared :=
    join 32
      (filter (fun cls => negb (Str.startsWith (Str.js "weather-") cls))
         (Str.split 32 (className b))) in
  let conditionLower := Str.toLowerCase condition in
  match Obj.get (UI.classMap isNight) conditionLower with
  | Obj.Inherited =>
      ({| className := cleared; overlays := [] |}, Throw InvalidCharacterError)
  | found =>
      let weatherClass :=
        match found with
        | Obj.Own cls => cls
        | _ => Str.js "weather-default"
        end in
      let rain :=
        if existsb (Str.eqb conditionLower)
             [Str.js "rain"; Str.js "drizzle"; Str.js "thunderstorm"]
        then [UI.RainDrops] else [] in
      let snow :=
        if Str.eqb conditionLower (Str.js "snow") then [UI.SnowFlakes] else [] in
      ({| className := classListAdd weatherClass cleared;
          overlays := rain ++ snow |}, Normal tt)
  end.

End WithUnicode.

End ClassAttr.

(* ------------------------------------------------------------------ *)
(** * Vocabulary of the further statements *)

Module More.

Import Forecast Spec.

(** The sample has a timestamp text that starts with a calendar date. *)
Definition dated (e : Entry) : bool :=
  match dt_txt e with
  | Some s => isSome (calendarDate (dateKeyOf s))
  | None => false
  end.

(** The sample is filed under one of the date keys [ks]. *)
Definition onOneOf (ks : list JsString) (e : Entry) : bool :=
  existsb (fun k => onDay k e) ks.

(** The samples of the days that get a card. *)
Definition selected (todayKey : JsString) (samples : list Entry) : list Entry :=
  filter (onOneOf (days todayKey samples)) samples.

(** The class is no weather theme. *)
Definition notTheme (cls : JsString) : bool :=
  negb (Str.startsWith (Str.js "weather-") cls).

(** The tokens of the text are separated by spaces, not by tabs, line
    feeds, form feeds or carriage returns. *)
Definition spaced (text : JsString) : bool :=
  forallb (fun c => negb (ClassAttr.isAsciiWhitespace c) || (c =? 32)%N) text.

(** The theme class a call of [updateBackground] adds: none when the call
    throws. *)
Definition themeTokens {U : Str.Unicode} (condition icon : JsString)
  : list JsString :=
  match Obj.get (UI.classMap (UI.isNightIcon icon)) (Str.toLowerCase condition) with
  | Obj.Inherited => []
  | Obj.Own cls => [cls]
  | Obj.Undefined => [Str.js "weather-default"]
  end.

(** The text has no ASCII white space. *)
Definition wsFree (t : JsString) : bool :=
  forallb (fun c => negb (ClassAttr.isAsciiWhitespace c)) t.

(** A token list as [classList] writes it: no token twice, none empty,
    none with white space. *)
Definition canonical (tokens : list JsString) : Prop :=
  NoDup tokens /\
  forall t, In t tokens -> ClassAttr.nonEmpty t = true /\ wsFree t = true.

(** The colour the cold warning gives to the banner. *)
Definition coldBlue : string := "rgba(37, 99, 235, 0.95)".

(** The page with its toasts set aside. *)
Definition withoutToasts (p : UI.Page) : UI.Page := UI.withToasts [] p.

Definition errorToast (e : JsError) : UI.Toast :=
  {| UI.toastMessage := App.messageOf e; UI.toastType := UI.ToastError |}.

(** An engine for the examples, whose conversions are never consulted on
    strings and numbers. *)
Definition plainEngine : Events.Engine :=
  {| Events.toStringOf := fun _ => []; Events.toNumberOf := fun _ => NaN |}.

(** A store whose item is [item]. *)
Definition storeWith (item : Storage.Item) (blocked full : bool) : Storage.LocalStorage :=
  {| Storage.blocked := blocked; Storage.full := full; Storage.item := item |}.

(** The stored value is an array of strings. *)
Definition cityArray (v : JsValue) : Prop :=
  exists cities : list JsString, v = VArray (List.map VString cities).

(** A statement that shows no toast and leaves the input box and the
    loading overlay alone. *)
Definition quiet {A} (m : App.Eff A) : Prop :=
  forall w,
    UI.toastContainer (App.page (fst (m w))) = UI.toastContainer (App.page w) /\
    UI.loadingHidden (App.page (fst (m w))) = UI.loadingHidden (App.page w) /\
    App.cityInput (fst (m w)) = App.cityInput w.

(** A statement that does not open the dropdown of the recent cities. *)
Definition keepsClosed {A} (m : App.Eff A) : Prop :=
  forall w,
    UI.recentHidden (App.page w) = true ->
    UI.recentHidden (App.page (fst (m w))) = true.

(** Two worlds that differ by their toasts and their input box at most. *)
Definition sameDisplay (w1 w2 : App.World) : Prop :=
  withoutToasts (App.page w1) = withoutToasts (App.page w2) /\
  App.storage w1 = App.storage w2 /\
  App.currentFeelsLikeCelsius w1 = App.currentFeelsLikeCelsius w2.

(** The toast of a successful lookup by location. *)
Definition showingWeatherFor {E : Events.Engine} (v : JsValue) : UI.Toast :=
  {| UI.toastMessage := UI.Text (Str.js "Showing weather for " ++ Events.interpolate v);
     UI.toastType := UI.ToastSuccess |}.

(** The body of a refused response carries no message, or a text. *)
Definition plainMessage (v : JsValue) : Prop :=
  truthy v = false \/ exists s, v = VString s.

(** The messages of a refused input. *)
Definition validationMessages : list JsString :=
  [App.pleaseEnter; App.atLeastTwo; App.tooLong; App.onlyLetters].

End More.

(* ------------------------------------------------------------------ *)
(** * Facts about strings and numbers *)

Module StrFacts.

Lemma eqb_eq (a b : JsString) : Str.eqb a b = true <-> a = b.
Proof.
  unfold Str.eqb. destruct (list_eq_dec N.eq_dec a b); split; congruence.
Qed.

Lemma eqb_neq (a b : JsString) : Str.eqb a b = false <-> a <> b.
Proof.
  unfold Str.eqb. destruct (list_eq_dec N.eq_dec a b); split; congruence.
Qed.

Lemma eqb_refl (a : JsString) : Str.eqb a a = true.
Proof. now apply eqb_eq. Qed.

Lemma eqb_sym (a b : JsString) : Str.eqb a b = Str.eqb b a.
Proof.
  destruct (Str.eqb b a) eqn:E.
  - apply eqb_eq in E. subst. apply eqb_refl.
  - apply eqb_neq in E. apply eqb_neq. congruence.
Qed.

End StrFacts.

Module NumFacts.

Lemma Qltb_lt (a b : Q) : Num.Qltb a b = true <-> (a < b)%Q.
Proof.
  unfold Num.Qltb. rewrite negb_true_iff. split; intros H.
  - apply Qnot_le_lt. intros Hle. apply Qle_bool_iff in Hle. congruence.
  - destruct (Qle_bool b a) eqn:E; [|reflexivity].
    apply Qle_bool_iff in E. exfalso. apply (Qlt_not_le _ _ H E).
Qed.

Lemma Qltb_ge (a b : Q) : Num.Qltb a b = false <-> (b <= a)%Q.
Proof.
  unfold Num.Qltb. rewrite negb_false_iff. apply Qle_bool_iff.
Qed.

End NumFacts.

(* ------------------------------------------------------------------ *)
(** * The alert evaluator *)

Section Alert.

Import UI Spec.

Lemma alert_of_finite (q : Q) (a : AlertBanner) :
  alertStateOf (checkWeatherAlert (Fin q) a) =
    if Num.Qltb 40 q then heat_extreme
    else if Num.Qltb q (-20) then cold_extreme else none.
Proof.
  unfold checkWeatherAlert, alertStateOf, Num.gt, Num.lt, ofZ. simpl.
  change (inject_Z 40) with 40%Q. change (inject_Z (-20)) with (-20)%Q.
  destruct (Num.Qltb 40 q); [reflexivity|].
  destruct (Num.Qltb q (-20)); reflexivity.
Qed.

(** C7.  [checkWeatherAlert] is a total function of the temperature and
    of the banner it finds.  On a finite temperature it shows the heat
    warning exactly above 40, the cold warning exactly below -20, and hides
    the banner exactly in between, both bounds included; NaN hides the
    banner; so [evaluate(41)] is heat-extreme, [evaluate(-21)] cold-extreme,
    and 20, 40 and -20 give none. *)
Theorem checkWeatherAlert_thresholds :
  (forall q a, alertStateOf (checkWeatherAlert (Fin q) a) = heat_extreme <-> (40 < q)%Q) /\
  (forall q a, alertStateOf (checkWeatherAlert (Fin q) a) = cold_extreme <-> (q < -20)%Q) /\
  (forall q a, alertStateOf (checkWeatherAlert (Fin q) a) = none <-> (-20 <= q <= 40)%Q) /\
  (forall a, alertStateOf (checkWeatherAlert NaN a) = none) /\
  (forall a, alertStateOf (checkWeatherAlert Infinity a) = heat_extreme) /\
  (forall a, alertStateOf (checkWeatherAlert NegInfinity a) = cold_extreme) /\
  (forall a, alertStateOf (checkWeatherAlert (ofZ 41) a) = heat_extreme
             /\ alertStateOf (checkWeatherAlert (ofZ (-21)) a) = cold_extreme
             /\ alertStateOf (checkWeatherAlert (ofZ 20) a) = none
             /\ alertStateOf (checkWeatherAlert (ofZ 40) a) = none
             /\ alertStateOf (checkWeatherAlert (ofZ (-20)) a) = none).
Proof.
  repeat split; try reflexivity; intros.
  - rewrite alert_of_finite in H.
    destruct (Num.Qltb 40 q) eqn:E; [now apply NumFacts.Qltb_lt|].
    destruct (Num.Qltb q (-20)); discriminate.
  - rewrite alert_of_finite. apply NumFacts.Qltb_lt in H. now rewrite H.
  - rewrite alert_of_finite in H.
    destruct (Num.Qltb 40 q) eqn:E; [discriminate|].
    destruct (Num.Qltb q (-20)) eqn:E'; [now apply NumFacts.Qltb_lt|discriminate].
  - rewrite alert_of_finite.
    destruct (Num.Qltb 40 q) eqn:E.
    + apply NumFacts.Qltb_lt in E. lra.
    + apply NumFacts.Qltb_lt in H. now rewrite H.
  - rewrite alert_of_finite in H.
    destruct (Num.Qltb 40 q) eqn:E; [discriminate|].
    destruct (Num.Qltb q (-20)) eqn:E'; [discriminate|].
    now apply NumFacts.Qltb_ge in E'.
  - rewrite alert_of_finite in H.
    destruct (Num.Qltb 40 q) eqn:E; [discriminate|].
    now apply NumFacts.Qltb_ge in E.
  - rewrite alert_of_finite. destruct H as [H1 H2].
    apply NumFacts.Qltb_ge in H1, H2. now rewrite H2, H1.
Qed.

End Alert.

(* ------------------------------------------------------------------ *)
(** * The condition classifier *)

Section Classifier.

Context {U : Str.Unicode}.
Import UI Spec.

Lemma theme_after_add (cls : JsString) (classes : list JsString) :
  Str.startsWith (Str.js "weather-") cls = true ->
  filter (Str.startsWith (Str.js "weather-"))
    (classListAdd cls
       (filter (fun c => negb (Str.startsWith (Str.js "weather-") c)) classes))
  = [cls].
Proof.
  intros Hcls. unfold classListAdd.
  set (kept := filter _ classes).
  assert (Hkept : forall c, In c kept -> Str.startsWith (Str.js "weather-") c = false).
  { intros c Hc. apply filter_In in Hc. destruct Hc as [_ Hc].
    now apply negb_true_iff in Hc. }
  assert (Hnone : filter (Str.startsWith (Str.js "weather-")) kept = []).
  { clearbody kept. induction kept as [|c kept IH]; [reflexivity|].
    cbn [filter]. rewrite (Hkept c (or_introl eq_refl)).
    apply IH. intros c' Hc'. apply Hkept. now right. }
  destruct (existsb (Str.eqb cls) kept) eqn:E.
  - apply existsb_exists in E. destruct E as [c [Hc Heq]].
    apply StrFacts.eqb_eq in Heq. subst c.
    rewrite (Hkept cls Hc) in Hcls. discriminate.
  - rewrite filter_app, Hnone. cbn [filter app]. now rewrite Hcls.
Qed.

Lemma classMap_lookup (lower : JsString) (night : bool) :
  Obj.isInherited lower = false ->
  match Obj.get (classMap night) lower with
  | Obj.Own cls => cls = expectedTheme lower night
  | Obj.Undefined => expectedTheme lower night = Str.js "weather-default"
  | Obj.Inherited => False
  end.
Proof.
  intros Hinh. unfold Obj.get, classMap, expectedTheme, knownConditions.
  cbn [Obj.getOwn List.map existsb].
  repeat match goal with
  | |- context [Str.eqb (Str.js ?s) lower] =>
      let E := fresh "E" in
      destruct (Str.eqb (Str.js s) lower) eqn:E;
      [ apply StrFacts.eqb_eq in E; subst lower; destruct night; reflexivity | ]
  end.
  rewrite Hinh. reflexivity.
Qed.

(** Outside the names inherited from [Object.prototype] the classifier
    does what the table says: it returns, leaves exactly one theme class -
    the night variant only for Clear - and creates the rain overlay for
    rain, drizzle and thunderstorm, the snow overlay for snow, none
    otherwise. *)
Lemma updateBackground_classifies (condition icon : JsString) (b : Backdrop) :
  let lower := Str.toLowerCase condition in
  Obj.isInherited lower = false ->
  exists b',
    updateBackground condition icon b = (b', Normal tt) /\
    themeOf b' = [expectedTheme lower (isNightIcon icon)] /\
    overlays b' = expectedParticles lower.
Proof.
  intros lower Hinh. unfold updateBackground. fold lower.
  pose proof (classMap_lookup lower (isNightIcon icon) Hinh) as Hget.
  assert (Hstarts : Str.startsWith (Str.js "weather-")
                      (expectedTheme lower (isNightIcon icon)) = true).
  { unfold expectedTheme.
    destruct (Str.eqb (Str.js "clear") lower);
      [destruct (isNightIcon icon); reflexivity|].
    destruct (existsb _ knownConditions); reflexivity. }
  assert (Hover :
    (if existsb (Str.eqb lower) [Str.js "rain"; Str.js "drizzle"; Str.js "thunderstorm"]
     then [RainDrops] else [])
    ++ (if Str.eqb lower (Str.js "snow") then [SnowFlakes] else [])
    = expectedParticles lower).
  { unfold expectedParticles. cbn [existsb].
    rewrite !(StrFacts.eqb_sym lower).
    repeat match goal with
    | |- context [Str.eqb (Str.js ?s) lower] =>
        let E := fresh "E" in
        destruct (Str.eqb (Str.js s) lower) eqn:E;
        [ apply StrFacts.eqb_eq in E; subst lower; rewrite <- E; reflexivity | ]
    end.
    reflexivity. }
  destruct (Obj.get (classMap (isNightIcon icon)) lower) as [cls| |] eqn:G.
  - subst cls. eexists. split; [reflexivity|]. split; [|exact Hover].
    unfold themeOf. cbn [bodyClass]. now apply theme_after_add.
  - contradiction.
  - eexists. split; [reflexivity|]. split; [|exact Hover].
    unfold themeOf. cbn [bodyClass]. rewrite <- Hget.
    now apply theme_after_add.
Qed.

(** C8, at the input where the code departs from it.  The lower-cased
    condition [constructor] is a property every object literal inherits:
    [classMap[conditionLower]] is then the function [Object], the fallback
    of [||] is not taken, and [classList.add] throws.  The old theme is
    already removed, no theme is set and no overlay is created. *)
Theorem updateBackground_constructor_throws (b : Backdrop) :
  let '(b', outcome) := updateBackground (Str.js "constructor") (Str.js "01d") b in
  outcome = Throw InvalidCharacterError /\ themeOf b' = [] /\ overlays b' = [].
Proof.
  unfold updateBackground.
  change (Str.toLowerCase (Str.js "constructor")) with (Str.js "constructor").
  change (Obj.get (classMap (isNightIcon (Str.js "01d"))) (Str.js "constructor"))
    with (@Obj.Inherited JsString).
  split; [reflexivity|]. split; [|reflexivity].
  unfold themeOf. cbn [bodyClass].
  induction (bodyClass b) as [|c cs IH]; [reflexivity|].
  cbn [filter]. destruct (Str.startsWith (Str.js "weather-") c) eqn:E.
  - cbn [negb]. exact IH.
  - cbn [negb filter]. rewrite E. exact IH.
Qed.

End Classifier.

(* ------------------------------------------------------------------ *)
(** * The recent-city list *)

Section RecentCities.

Context {U : Str.Unicode}.
Import Storage Spec.

Lemma trimStart_nil_of_trim_nil (s : JsString) :
  s = [] -> Str.trim s = [].
Proof. intros ->. reflexivity. Qed.

Lemma dropCity_strings (trimmed : JsString) (prior : list JsString) :
  dropCity trimmed (List.map VString prior) =
  Normal (filter (fun c => negb (Str.eqb (Str.toLowerCase c) (Str.toLowerCase trimmed)))
            prior).
Proof.
  induction prior as [|c prior IH]; [reflexivity|].
  cbn [List.map dropCity filter]. rewrite IH. cbn [bind].
  destruct (Str.eqb (Str.toLowerCase c) (Str.toLowerCase trimmed)); reflexivity.
Qed.

Lemma NoDup_map_filter {A B} (f : A -> B) (p : A -> bool) (l : list A) :
  NoDup (List.map f l) -> NoDup (List.map f (filter p l)).
Proof.
  induction l as [|a l IH]; intros H; [constructor|].
  cbn [List.map] in H. inversion H as [|? ? Hnotin Hnodup]; subst.
  cbn [filter]. destruct (p a); [|now apply IH].
  cbn [List.map]. constructor; [|now apply IH].
  intros Hin. apply Hnotin. apply in_map_iff in Hin.
  destruct Hin as [x [Hx Hin]]. apply filter_In in Hin.
  apply in_map_iff. exists x. tauto.
Qed.

Lemma In_firstn {A} (n : nat) (l : list A) (x : A) :
  In x (firstn n l) -> In x l.
Proof.
  revert l. induction n as [|n IH]; intros [|a l] H; try contradiction.
  cbn [firstn] in H. destruct H as [H|H]; [now left|right; now apply IH].
Qed.

Lemma NoDup_firstn {A} (n : nat) (l : list A) :
  NoDup l -> NoDup (firstn n l).
Proof.
  revert l. induction n as [|n IH]; intros l H; [constructor|].
  destruct l as [|a l]; [constructor|].
  inversion H; subst. cbn [firstn]. constructor; [|now apply IH].
  intros Hin. apply In_firstn in Hin. contradiction.
Qed.

Lemma updated_distinct (trimmed : JsString) (prior : list JsString) :
  distinctIgnoringCase prior -> distinctIgnoringCase (updated trimmed prior).
Proof.
  unfold distinctIgnoringCase, updated. intros H.
  rewrite <- firstn_map. apply NoDup_firstn.
  cbn [List.map]. constructor; [|now apply NoDup_map_filter].
  intros Hin. apply in_map_iff in Hin. destruct Hin as [c [Heq Hin]].
  apply filter_In in Hin. destruct Hin as [_ Hne].
  apply negb_true_iff, StrFacts.eqb_neq in Hne. contradiction.
Qed.

Lemma addRecentCity_ignores_blank_string (s : JsString) (ls : LocalStorage) :
  Str.trim s = [] -> addRecentCity (VString s) ls = Normal ls.
Proof.
  intros Htrim. unfold addRecentCity. rewrite Htrim. cbn [List.length Nat.eqb].
  destruct (negb (truthy (VString s))); reflexivity.
Qed.

Lemma addRecentCity_writes (s : JsString) (prior : list JsString) (ls : LocalStorage) :
  Str.trim s <> [] ->
  holds ls prior ->
  writable ls ->
  addRecentCity (VString s) ls =
  Normal {| blocked := false; full := false;
            item := Json (VArray (List.map VString (updated (Str.trim s) prior))) |}.
Proof.
  intros Htrim Hholds [Hblocked Hfull]. unfold addRecentCity.
  destruct s as [|c s]; [now elim Htrim|]. cbn [truthy negb].
  destruct (Str.trim (c :: s)) as [|t ts] eqn:Et; [now elim Htrim|].
  cbn [List.length Nat.eqb].
  unfold holds in Hholds. rewrite Hholds.
  rewrite dropCity_strings. cbn [bind].
  unfold saveCities. rewrite Hblocked, Hfull. cbn [orb].
  unfold updated, MAX_CITIES.
  set (kept := filter _ prior).
  cbn [List.length].
  destruct (5 <? S (List.length kept)) eqn:E; [reflexivity|].
  apply Nat.ltb_ge in E. now rewrite firstn_all2.
Qed.

(** C9, in the form the code satisfies.  A city with a non-blank name is added to a store that
    accepts the write and from which the list [prior] is read.  The list
    read afterwards is the trimmed city followed by the entries of [prior]
    that differ from it when case is ignored, cut to five: it has at most
    five entries, the city comes first, and it has no two entries equal
    under case-insensitive comparison provided [prior] had none. *)
Theorem addRecentCity_invariant (s : JsString) (prior : list JsString)
  (ls : LocalStorage) :
  Str.trim s <> [] ->
  holds ls prior ->
  writable ls ->
  exists ls' cities,
    addRecentCity (VString s) ls = Normal ls' /\
    holds ls' cities /\
    cities = updated (Str.trim s) prior /\
    List.length cities <= 5 /\
    hd_error cities = Some (Str.trim s) /\
    (distinctIgnoringCase prior -> distinctIgnoringCase cities).
Proof.
  intros Htrim Hholds Hwritable.
  eexists. exists (updated (Str.trim s) prior).
  split; [apply addRecentCity_writes; eassumption|].
  split; [reflexivity|]. split; [reflexivity|].
  split; [apply firstn_le_length|]. split; [reflexivity|].
  apply updated_distinct.
Qed.

Lemma saveCities_refused (cities : list JsString) (ls : LocalStorage) :
  blocked ls || full ls = true -> saveCities cities ls = ls.
Proof. unfold saveCities. now intros ->. Qed.

(** What a call that returns does to the store: nothing, or the write of
    the updated list. *)
Lemma addRecentCity_cases (city : JsValue) (prior : list JsString)
  (ls ls' : LocalStorage) :
  holds ls prior ->
  addRecentCity city ls = Normal ls' ->
  ls' = ls \/
  exists s, city = VString s /\ holds ls' (updated (Str.trim s) prior).
Proof.
  intros Hholds Hadd.
  destruct city as [| | | |s| |]; try (left; now injection Hadd as <-).
  destruct (list_eq_dec N.eq_dec (Str.trim s) []) as [Hblank|Hname].
  - left. rewrite addRecentCity_ignores_blank_string in Hadd by assumption.
    now injection Hadd as <-.
  - destruct (blocked ls || full ls) eqn:E.
    + left. unfold addRecentCity in Hadd.
      destruct (negb (truthy (VString s))); [now injection Hadd as <-|].
      destruct (List.length (Str.trim s) =? 0); [now injection Hadd as <-|].
      unfold holds in Hholds. rewrite Hholds, dropCity_strings in Hadd.
      cbn [bind] in Hadd. rewrite saveCities_refused in Hadd by assumption.
      now injection Hadd as <-.
    + right. exists s. split; [reflexivity|].
      apply orb_false_iff in E.
      rewrite (@addRecentCity_writes s prior ls Hname Hholds E) in Hadd.
      injection Hadd as <-. reflexivity.
Qed.

(** The invariant is kept by every call that returns, whatever the city
    and whatever the state of the store: a call that adds nothing or
    whose write is refused leaves the list as it was. *)
Lemma addRecentCity_keeps_recentInvariant (city : JsValue) (prior : list JsString)
  (ls ls' : LocalStorage) :
  holds ls prior ->
  recentInvariant prior ->
  addRecentCity city ls = Normal ls' ->
  exists cities, holds ls' cities /\ recentInvariant cities.
Proof.
  intros Hholds Hinv Hadd.
  destruct (@addRecentCity_cases city prior ls ls' Hholds Hadd) as [->|[s [_ Hnew]]].
  - now exists prior.
  - exists (updated (Str.trim s) prior). split; [exact Hnew|].
    split; [apply firstn_le_length|]. apply updated_distinct. apply Hinv.
Qed.

(** C10.  A city that is not a string, or whose trimmed form is empty,
    leaves the store exactly as it was, whatever the store holds and
    whatever state it is in. *)
Theorem addRecentCity_ignores_blank (city : JsValue) (ls : LocalStorage) :
  (forall s, city <> VString s) \/ (exists s, city = VString s /\ Str.trim s = []) ->
  addRecentCity city ls = Normal ls.
Proof.
  intros [Hnot | [s [-> Htrim]]].
  - destruct city; try reflexivity. now elim (Hnot s).
  - now apply addRecentCity_ignores_blank_string.
Qed.

End RecentCities.

(** Adding "Paris", then "paris", then "London" to an empty store leaves
    ["London"; "paris"]. *)
Example recent_cities_paris_london (U : Str.Unicode) :
  (s1 <- Storage.addRecentCity (VString (Str.js "Paris")) (Spec.storeOf []) ;;
   s2 <- Storage.addRecentCity (VString (Str.js "paris")) s1 ;;
   Storage.addRecentCity (VString (Str.js "London")) s2)
  = Normal (Spec.storeOf [Str.js "London"; Str.js "paris"]).
Proof. reflexivity. Qed.

(** C9 at work: "London" added to the list ["paris"]. *)
Lemma addRecentCity_invariant_witness :
  Str.trim (Str.js "London") <> [] /\
  Spec.holds (Spec.storeOf [Str.js "paris"]) [Str.js "paris"] /\
  Spec.writable (Spec.storeOf [Str.js "paris"]) /\
  exists ls' cities,
    Storage.addRecentCity (U := Spec.latin1Engine) (VString (Str.js "London"))
      (Spec.storeOf [Str.js "paris"]) = Normal ls' /\
    Spec.holds ls' cities /\
    cities = Spec.updated (U := Spec.latin1Engine) (Str.trim (Str.js "London")) [Str.js "paris"] /\
    List.length cities <= 5 /\
    hd_error cities = Some (Str.trim (Str.js "London")) /\
    (Spec.distinctIgnoringCase (U := Spec.latin1Engine) [Str.js "paris"] ->
     Spec.distinctIgnoringCase (U := Spec.latin1Engine) cities).
Proof.
  assert (H1 : Str.trim (Str.js "London") <> []) by discriminate.
  assert (H2 : Spec.holds (Spec.storeOf [Str.js "paris"]) [Str.js "paris"])
    by reflexivity.
  assert (H3 : Spec.writable (Spec.storeOf [Str.js "paris"]))
    by (split; reflexivity).
  split; [exact H1|]. split; [exact H2|]. split; [exact H3|].
  exact (addRecentCity_invariant (U := Spec.latin1Engine) (Str.js "London") H1 H2 H3).
Defined.

(** C9 does not hold as the specification states it, on a stored list that
    already has two entries equal when case is ignored: they both stay. *)
Lemma addRecentCity_keeps_stored_duplicates :
  Storage.addRecentCity (U := Spec.latin1Engine) (VString (Str.js "b"))
    (Spec.storeOf [Str.js "a"; Str.js "A"])
  = Normal (Spec.storeOf [Str.js "b"; Str.js "a"; Str.js "A"])
  /\ ~ Spec.distinctIgnoringCase (U := Spec.latin1Engine)
         [Str.js "b"; Str.js "a"; Str.js "A"].
Proof.
  split; [reflexivity|].
  unfold Spec.distinctIgnoringCase. intros H.
  inversion H as [|? ? _ H']; subst.
  inversion H' as [|? ? Hnotin _]; subst.
  apply Hnotin. left. reflexivity.
Qed.

(** A store that is full swallows the write: the list stays as it was and
    the city is not added. *)
Example addRecentCity_write_refused :
  Storage.addRecentCity (U := Spec.latin1Engine) (VString (Str.js "London"))
    {| Storage.blocked := false; Storage.full := true;
       Storage.item := Storage.Json (VArray [VString (Str.js "Paris")]) |}
  = Normal {| Storage.blocked := false; Storage.full := true;
              Storage.item := Storage.Json (VArray [VString (Str.js "Paris")]) |}.
Proof. reflexivity. Qed.

(** A stored item that is not an array of strings makes the call throw. *)
Example addRecentCity_on_foreign_item :
  Storage.addRecentCity (U := Spec.latin1Engine) (VString (Str.js "London"))
    {| Storage.blocked := false; Storage.full := false;
       Storage.item := Storage.Json (VObject []) |}
  = Throw TypeError.
Proof. reflexivity. Qed.

(** C10 at work: a number, and a string of spaces. *)
Lemma addRecentCity_ignores_blank_witness :
  ((forall s, VNumber (ofZ 5) <> VString s) \/
   (exists s, VNumber (ofZ 5) = VString s /\ Str.trim s = [])) /\
  Storage.addRecentCity (U := Spec.latin1Engine) (VNumber (ofZ 5))
    (Spec.storeOf [Str.js "Paris"]) = Normal (Spec.storeOf [Str.js "Paris"]) /\
  Storage.addRecentCity (U := Spec.latin1Engine) (VString (Str.js "   "))
    (Spec.storeOf [Str.js "Paris"]) = Normal (Spec.storeOf [Str.js "Paris"]).
Proof.
  assert (H : (forall s, VNumber (ofZ 5) <> VString s) \/
              (exists s, VNumber (ofZ 5) = VString s /\ Str.trim s = []))
    by (left; intros s; discriminate).
  split; [exact H|]. split.
  - exact (addRecentCity_ignores_blank (U := Spec.latin1Engine) _ H).
  - apply (addRecentCity_ignores_blank (U := Spec.latin1Engine)).
    right. exists (Str.js "   "). split; reflexivity.
Defined.

(* ------------------------------------------------------------------ *)
(** * The input validator *)

Section Validator.

Import App Spec.

Lemma trimStart_split (s : JsString) :
  exists lead,
    s = lead ++ Str.trimStart s /\
    forallb Str.isWhiteSpace lead = true /\
    (forall c, hd_error (Str.trimStart s) = Some c -> Str.isWhiteSpace c = false).
Proof.
  induction s as [|c s [lead [Hs [Hlead Hhd]]]].
  - exists []. repeat split. intros c H. discriminate.
  - cbn [Str.trimStart]. destruct (Str.isWhiteSpace c) eqn:E.
    + exists (c :: lead). cbn [app forallb]. rewrite E, Hlead.
      split; [now f_equal|]. split; [reflexivity|exact Hhd].
    + exists []. repeat split. intros c' H. cbn in H. congruence.
Qed.

Lemma forallb_rev {A} (p : A -> bool) (l : list A) :
  forallb p (rev l) = forallb p l.
Proof.
  induction l as [|a l IH]; [reflexivity|].
  cbn [rev forallb]. rewrite forallb_app, IH. cbn [forallb].
  rewrite andb_true_r. apply andb_comm.
Qed.

Lemma hd_error_app {A} (l l' : list A) (a : A) :
  hd_error l = Some a -> hd_error (l ++ l') = Some a.
Proof. destruct l; [discriminate|]. trivial. Qed.

Lemma trim_trimmedOf (input : JsString) : trimmedOf input (Str.trim input).
Proof.
  unfold trimmedOf, Str.trim, Str.trimEnd.
  destruct (trimStart_split input) as [lead [Hin [Hlead Hhd]]].
  destruct (trimStart_split (rev (Str.trimStart input))) as [tail [Hrev [Htail Hlast]]].
  set (t := Str.trimStart (rev (Str.trimStart input))) in *.
  assert (Hmid : Str.trimStart input = rev t ++ rev tail).
  { rewrite <- rev_app_distr, <- Hrev. now rewrite rev_involutive. }
  exists lead, (rev tail). split; [now rewrite <- Hmid|].
  split; [exact Hlead|]. split; [now rewrite forallb_rev|]. split.
  - intros c Hc. apply Hhd. rewrite Hmid. now apply hd_error_app.
  - intros c Hc. apply Hlast. now rewrite rev_involutive in Hc.
Qed.

Lemma refused_iff (c : N) : refused c = true <-> inValidClass c = false.
Proof.
  unfold refused, plainlyAllowed, inValidClass, asciiLetter, latin1Letter, punctuation.
  assert (H215 : (c =? 215)%N = true -> Str.inRange 192 255 c = true)
    by (intros H; apply N.eqb_eq in H; now subst).
  assert (H247 : (c =? 247)%N = true -> Str.inRange 192 255 c = true)
    by (intros H; apply N.eqb_eq in H; now subst).
  destruct (Str.inRange 192 255 c), (c =? 215)%N, (c =? 247)%N;
    try (discriminate (H215 eq_refl)); try (discriminate (H247 eq_refl));
    destruct (Str.inRange 97 122 c), (Str.inRange 65 90 c), (Str.isWhiteSpace c),
      (c =? 45)%N, (c =? 39)%N, (c =? 46)%N, (c =? 44)%N;
    cbn; split; congruence.
Qed.

Lemma plainlyAllowed_valid (c : N) : plainlyAllowed c = true -> inValidClass c = true.
Proof.
  unfold plainlyAllowed, inValidClass, asciiLetter, latin1Letter, punctuation.
  destruct (Str.inRange 97 122 c), (Str.inRange 65 90 c), (Str.inRange 192 255 c),
    (Str.isWhiteSpace c), (c =? 45)%N, (c =? 39)%N, (c =? 46)%N, (c =? 44)%N,
    (c =? 215)%N, (c =? 247)%N; cbn; congruence.
Qed.


End Validator.



(** The range [U+00C0..U+00FF] of the pattern also lets the multiplication
    and the division sign through. *)
Example validateCityInput_accepts_signs :
  App.validateCityInput [215; 247]%N = Spec.accepted [215; 247]%N.
Proof. reflexivity. Qed.

(* ------------------------------------------------------------------ *)
(** * The fetch orchestrator *)

Section Orchestrator.

Context {U : Str.Unicode}.
Import App Spec.

Lemma searchByCity_rejected (city : JsString) (race : Race)
  (current : Settled CurrentData) (forecast : Settled (list Entry))
  (todayKey : JsString) (w : World) (e : JsError) :
  valid (validateCityInput city) = true ->
  promiseAll race current forecast = Rejected e ->
  failedWith e w (searchByCity city race current forecast todayKey w).
Proof.
  intros Hvalid Hall. unfold searchByCity, tryCatchFinally.
  rewrite Hvalid, Hall. cbn [negb].
  unfold failedWith. cbn. repeat split; reflexivity.
Qed.

(** C4, in the form the code satisfies.  Once the city has passed validation, a lookup in which a
    retrieval is rejected fails as a whole: exactly one error toast is
    added, the loading overlay is hidden, and nothing of the half that
    succeeded is rendered or stored.  The error shown is that of the
    retrieval that failed when only one fails - so the current-conditions
    error when the forecast succeeds - and, when both fail, that of the
    retrieval that was rejected first. *)
Theorem searchByCity_fails_as_a_whole (city : JsString) (race : Race)
  (todayKey : JsString) (w : World) :
  valid (validateCityInput city) = true ->
  (forall e forecastList,
     failedWith e w
       (searchByCity city race (Rejected e) (Fulfilled forecastList) todayKey w)) /\
  (forall currentData e,
     failedWith e w
       (searchByCity city race (Fulfilled currentData) (Rejected e) todayKey w)) /\
  (forall e1 e2,
     failedWith (match race with CurrentFirst => e1 | ForecastFirst => e2 end) w
       (searchByCity city race (Rejected e1) (Rejected e2) todayKey w)).
Proof.
  intros Hvalid. split; [|split]; intros.
  - now apply searchByCity_rejected.
  - now apply searchByCity_rejected.
  - apply searchByCity_rejected; [assumption|]. now destruct race.
Qed.

End Orchestrator.

(** C4 at work: "Paris" is looked up, the current conditions are
    rejected for a wrong key while the forecast arrives. *)
Lemma searchByCity_fails_as_a_whole_witness :
  App.valid (App.validateCityInput (Str.js "Paris")) = true /\
  forall forecastList,
    Spec.failedWith (Error invalidApiKey) Spec.freshWorld
      (App.searchByCity (U := Spec.latin1Engine) (Str.js "Paris") ForecastFirst
         (Rejected (Error invalidApiKey)) (Fulfilled forecastList)
         (Str.js "2024-01-01") Spec.freshWorld).
Proof.
  assert (H : App.valid (App.validateCityInput (Str.js "Paris")) = true) by reflexivity.
  split; [exact H|]. intros forecastList.
  apply (@searchByCity_fails_as_a_whole Spec.latin1Engine (Str.js "Paris")
           ForecastFirst (Str.js "2024-01-01") Spec.freshWorld H).
Defined.

(** A lookup whose two retrievals succeed: the card, the forecast and the
    recent list are filled, no toast is shown, the input box is emptied. *)
Example searchByCity_success :
  let w' := App.searchByCity (U := Spec.latin1Engine) (Str.js " Paris ") CurrentFirst
              (Fulfilled Spec.parisNow) (Fulfilled Spec.oneDay)
              (Str.js "2024-01-01") Spec.freshWorld in
  UI.currentCard (App.page w') = Some Spec.parisNow /\
  UI.forecastContainer (App.page w') =
    [ {| midday := Spec.sample "2024-01-02 12:00:00" 8 22;
         tempMin := ofZ 8; tempMax := ofZ 22 |} ] /\
  UI.bodyClass (UI.backdrop (App.page w')) = [Str.js "weather-clear"] /\
  UI.alertHidden (UI.banner (App.page w')) = true /\
  UI.recentList (App.page w') = [VString (Str.js "Paris")] /\
  App.storage w' = Spec.storeOf [Str.js "Paris"] /\
  UI.toastContainer (App.page w') = [] /\
  UI.loadingHidden (App.page w') = true /\
  App.cityInput w' = [].
Proof. vm_compute. repeat split. Qed.

(** Outside the scope of C4: when both retrievals succeed and the forecast
    payload has a sample without timestamp, the current conditions stay on
    the page while the forecast fails. *)
Example searchByCity_malformed_forecast :
  let w' := App.searchByCity (U := Spec.latin1Engine) (Str.js "Paris") CurrentFirst
              (Fulfilled Spec.parisNow) (Fulfilled [Spec.unstamped 8 22])
              (Str.js "2024-01-01") Spec.freshWorld in
  UI.currentCard (App.page w') = Some Spec.parisNow /\
  UI.forecastContainer (App.page w') = [] /\
  UI.toastContainer (App.page w') =
    [{| UI.toastMessage := UI.MessageOf TypeError; UI.toastType := UI.ToastError |}] /\
  App.storage w' = Spec.storeOf [] /\
  UI.loadingHidden (App.page w') = true.
Proof. vm_compute. repeat split. Qed.

(** C4 does not hold as the specification states it when both retrievals
    fail and the forecast is the first to be rejected: the toast carries the
    error of the forecast, not that of the current conditions. *)
Lemma searchByCity_reports_first_rejection :
  let w' := App.searchByCity (U := Spec.latin1Engine) (Str.js "Paris") ForecastFirst
              (Rejected (Error tooManyRequests)) (Rejected (Error cityNotFound))
              (Str.js "2024-01-01") Spec.freshWorld in
  UI.toastContainer (App.page w') =
    [{| UI.toastMessage := UI.Text cityNotFound; UI.toastType := UI.ToastError |}]
  /\ ~ Spec.failedWith (Error tooManyRequests) Spec.freshWorld w'.
Proof.
  split; [reflexivity|].
  intros [Htoast _]. cbn in Htoast. discriminate Htoast.
Qed.

(* ------------------------------------------------------------------ *)
(** * The forecast aggregator *)

(** ** Grouping by date *)

Section Grouping.

Import Forecast Spec.

Lemma bind_normal {A} (c : Completion A) : (x <- c ;; Normal x) = c.
Proof. now destruct c. Qed.

Lemma firstSeen_In (ks : list JsString) (x : JsString) :
  In x (firstSeen ks) <-> In x ks.
Proof.
  induction ks as [|k ks IH]; [reflexivity|].
  cbn [firstSeen]. split.
  - intros [H|H]; [now left|]. apply filter_In in H. right. now apply IH.
  - intros [H|H]; [now left|].
    destruct (Str.eqb x k) eqn:E.
    + apply StrFacts.eqb_eq in E. now left.
    + right. apply filter_In. split; [now apply IH|]. now rewrite E.
Qed.

Lemma existsb_eqb_In (k : JsString) (ks : list JsString) :
  existsb (Str.eqb k) ks = true <-> In k ks.
Proof.
  rewrite existsb_exists. split.
  - intros [x [Hx E]]. apply StrFacts.eqb_eq in E. now subst.
  - intros H. exists k. split; [assumption|apply StrFacts.eqb_refl].
Qed.

Lemma existsb_eqb_notIn (k : JsString) (ks : list JsString) :
  existsb (Str.eqb k) ks = false <-> ~ In k ks.
Proof.
  rewrite <- existsb_eqb_In. now destruct (existsb (Str.eqb k) ks).
Qed.

Lemma firstSeen_snoc (ks : list JsString) (k : JsString) :
  firstSeen (ks ++ [k]) =
  if existsb (Str.eqb k) ks then firstSeen ks else firstSeen ks ++ [k].
Proof.
  induction ks as [|a ks IH]; [reflexivity|].
  cbn [app firstSeen existsb]. rewrite IH.
  destruct (Str.eqb k a) eqn:Eka; cbn [orb].
  - destruct (existsb (Str.eqb k) ks); [reflexivity|].
    rewrite filter_app. cbn [filter]. rewrite Eka. cbn [negb].
    now rewrite app_nil_r.
  - destruct (existsb (Str.eqb k) ks); [reflexivity|].
    rewrite filter_app. cbn [filter]. rewrite Eka. reflexivity.
Qed.

Lemma stamps_snoc (l : list Entry) (e : Entry) :
  stamps (l ++ [e]) =
  stamps l ++ match dt_txt e with Some s => [dateKeyOf s] | None => [] end.
Proof.
  unfold stamps. rewrite flat_map_app. cbn [flat_map]. now rewrite app_nil_r.
Qed.

Lemma dayGroup_snoc (k : JsString) (l : list Entry) (e : Entry) :
  dayGroup k (l ++ [e]) = dayGroup k l ++ (if onDay k e then [e] else []).
Proof. unfold dayGroup. rewrite filter_app. reflexivity. Qed.

Lemma dayGroup_nil_of_unseen (k : JsString) (l : list Entry) :
  ~ In k (stamps l) -> dayGroup k l = [].
Proof.
  induction l as [|e l IH]; intros H; [reflexivity|].
  unfold dayGroup, stamps in *. cbn [filter flat_map] in *.
  unfold onDay. destruct (dt_txt e) as [s|].
  - destruct (Str.eqb (dateKeyOf s) k) eqn:E.
    + apply StrFacts.eqb_eq in E. exfalso. apply H. left. exact E.
    + apply IH. intros Hin. apply H. right. exact Hin.
  - apply IH. exact H.
Qed.

(** Lookup and update in an object whose values are given by a function
    of the key. *)
Lemma getOwn_tabulate {V} (g : JsString -> V) (ks : list JsString) (k : JsString) :
  Obj.getOwn (List.map (fun k' => (k', g k')) ks) k =
  if existsb (Str.eqb k) ks then Some (g k) else None.
Proof.
  induction ks as [|a ks IH]; [reflexivity|].
  cbn [List.map Obj.getOwn existsb]. rewrite (StrFacts.eqb_sym k a).
  destruct (Str.eqb a k) eqn:E; [|exact IH].
  apply StrFacts.eqb_eq in E. now subst.
Qed.

Lemma set_tabulate_absent {V} (g : JsString -> V) (ks : list JsString)
  (k : JsString) (v : V) :
  ~ In k ks ->
  Obj.set (List.map (fun k' => (k', g k')) ks) k v =
  List.map (fun k' => (k', g k')) ks ++ [(k, v)].
Proof.
  induction ks as [|a ks IH]; intros H; [reflexivity|].
  cbn [List.map Obj.set app].
  destruct (Str.eqb a k) eqn:E.
  - apply StrFacts.eqb_eq in E. exfalso. apply H. now left.
  - rewrite IH; [reflexivity|]. intros Hin. apply H. now right.
Qed.

Lemma set_tabulate_present {V} (g : JsString -> V) (ks : list JsString)
  (k : JsString) (v : V) :
  NoDup ks ->
  Obj.set (List.map (fun k' => (k', g k')) ks) k v =
  List.map (fun k' => (k', if Str.eqb k' k then v else g k')) ks
  ++ (if existsb (Str.eqb k) ks then [] else [(k, v)]).
Proof.
  induction ks as [|a ks IH]; intros Hnd; [reflexivity|].
  inversion Hnd as [|? ? Hnotin Hnd']; subst.
  cbn [List.map Obj.set existsb app]. rewrite (StrFacts.eqb_sym k a).
  destruct (Str.eqb a k) eqn:E; cbn [orb].
  - apply StrFacts.eqb_eq in E. subst a. rewrite app_nil_r. f_equal.
    apply map_ext_in. intros k' Hk'.
    destruct (Str.eqb k' k) eqn:E'; [|reflexivity].
    apply StrFacts.eqb_eq in E'. subst k'. contradiction.
  - now rewrite IH.
Qed.

Lemma firstSeen_NoDup (ks : list JsString) : NoDup (firstSeen ks).
Proof.
  induction ks as [|k ks IH]; [constructor|].
  cbn [firstSeen]. constructor.
  - intros H. apply filter_In in H. destruct H as [_ H].
    now rewrite StrFacts.eqb_refl in H.
  - now apply NoDup_filter.
Qed.

Lemma existsb_firstSeen (k : JsString) (ks : list JsString) :
  existsb (Str.eqb k) (firstSeen ks) = existsb (Str.eqb k) ks.
Proof.
  destruct (existsb (Str.eqb k) ks) eqn:E.
  - apply existsb_eqb_In. apply firstSeen_In. now apply existsb_eqb_In.
  - apply existsb_eqb_notIn. rewrite firstSeen_In. now apply existsb_eqb_notIn.
Qed.

Lemma dateKeys_In (l : list Entry) (k : JsString) :
  In k (dateKeys l) <-> In k (stamps l).
Proof. apply firstSeen_In. Qed.

Lemma stamps_In (l : list Entry) (k : JsString) :
  In k (stamps l) <-> exists e, In e l /\ onDay k e = true.
Proof.
  unfold stamps. rewrite in_flat_map. split.
  - intros [e [He Hk]]. exists e. split; [assumption|].
    unfold onDay. destruct (dt_txt e) as [s|]; [|contradiction].
    destruct Hk as [Hk|[]]. subst k. apply StrFacts.eqb_refl.
  - intros [e [He Hk]]. exists e. split; [assumption|].
    unfold onDay in Hk. destruct (dt_txt e) as [s|]; [|discriminate].
    apply StrFacts.eqb_eq in Hk. now left.
Qed.

(** One turn of the grouping loop files the sample into its group. *)
Lemma groupStep_groupsOf (l : list Entry) (e : Entry) :
  forallb fileable l = true ->
  groupStep (groupsOf l) e =
  if fileable e then Normal (groupsOf (l ++ [e])) else Throw TypeError.
Proof.
  intros Hl. unfold groupStep, fileable.
  destruct (dt_txt e) as [s|] eqn:Es; [|reflexivity].
  set (k := dateKeyOf s).
  assert (Hgroups : forall k', dayGroup k' (l ++ [e]) =
            dayGroup k' l ++ (if Str.eqb k k' then [e] else [])).
  { intros k'. rewrite dayGroup_snoc. unfold onDay. rewrite Es. reflexivity. }
  unfold Obj.get, groupsOf at 1. rewrite getOwn_tabulate.
  destruct (existsb (Str.eqb k) (dateKeys l)) eqn:Eseen.
  - (* the date has been seen: the entry is pushed on its group *)
    assert (Hk : Obj.isInherited k = false).
    { apply existsb_eqb_In, dateKeys_In, stamps_In in Eseen.
      destruct Eseen as [e' [He' Hon]].
      rewrite forallb_forall in Hl. specialize (Hl e' He').
      unfold fileable in Hl. unfold onDay in Hon.
      destruct (dt_txt e') as [s'|]; [|discriminate].
      apply StrFacts.eqb_eq in Hon. rewrite Hon in Hl.
      now apply negb_true_iff in Hl. }
    rewrite Hk. cbn [negb]. f_equal.
    unfold groupsOf at 1. rewrite set_tabulate_present by apply firstSeen_NoDup.
    rewrite Eseen, app_nil_r.
    unfold groupsOf, dateKeys. rewrite stamps_snoc, Es, firstSeen_snoc.
    unfold dateKeys in Eseen. rewrite existsb_firstSeen in Eseen.
    fold k. rewrite Eseen.
    apply map_ext. intros k'. rewrite Hgroups, (StrFacts.eqb_sym k k').
    destruct (Str.eqb k' k) eqn:E; [|now rewrite app_nil_r].
    apply StrFacts.eqb_eq in E. now subst k'.
  - (* a new date: a group is created for it *)
    destruct (Obj.isInherited k); [reflexivity|]. cbn [negb]. f_equal.
    assert (Hunseen : ~ In k (dateKeys l)) by now apply existsb_eqb_notIn.
    unfold groupsOf at 1. rewrite set_tabulate_absent by assumption.
    unfold groupsOf, dateKeys. rewrite stamps_snoc, Es, firstSeen_snoc.
    unfold dateKeys in Eseen. rewrite existsb_firstSeen in Eseen.
    fold k. rewrite Eseen.
    rewrite map_app. cbn [List.map]. f_equal.
    + apply map_ext_in. intros k' Hk'. rewrite Hgroups.
      destruct (Str.eqb k k') eqn:E; [|now rewrite app_nil_r].
      apply StrFacts.eqb_eq in E. subst k'. contradiction.
    + rewrite Hgroups, StrFacts.eqb_refl.
      rewrite dayGroup_nil_of_unseen; [reflexivity|].
      intros Hin. apply Hunseen. now apply dateKeys_In.
Qed.

(** The grouping loop files every sample, or throws a TypeError at the first
    sample that has no timestamp text or whose date key names a member of
    [Object.prototype]. *)
Lemma groupByDate_groupsOf (l1 l2 : list Entry) :
  forallb fileable l1 = true ->
  groupByDate (groupsOf l1) l2 =
  if forallb fileable l2 then Normal (groupsOf (l1 ++ l2)) else Throw TypeError.
Proof.
  revert l1. induction l2 as [|e l2 IH]; intros l1 Hl1.
  - cbn. now rewrite app_nil_r.
  - cbn [groupByDate forallb]. rewrite groupStep_groupsOf by assumption.
    destruct (fileable e) eqn:Ee; [|reflexivity]. cbn [bind andb].
    rewrite IH.
    + now rewrite <- app_assoc.
    + rewrite forallb_app, Hl1. cbn. now rewrite Ee.
Qed.

End Grouping.

(** ** The loop over the days *)

Section Days.

Import Forecast Spec.

Lemma forEachDay_summarizeAll (todayKey : JsString) (dailyMap : Obj.t (list Entry))
  (ks : list JsString) (acc : list DailyForecast) :
  forEachDay todayKey dailyMap ks acc =
  (ds <- summarizeAll dailyMap
           (firstn (5 - List.length acc)
              (filter (fun k => negb (Str.eqb k todayKey)) ks)) ;;
   Normal (acc ++ ds)).
Proof.
  revert acc. induction ks as [|k ks IH]; intros acc.
  - cbn [forEachDay filter]. rewrite firstn_nil. cbn. now rewrite app_nil_r.
  - cbn [forEachDay filter]. unfold dayStep.
    destruct (Str.eqb k todayKey) eqn:Etoday; cbn [negb bind]; [apply IH|].
    destruct (5 <=? List.length acc) eqn:Efull; cbn [bind].
    + rewrite IH. apply Nat.leb_le in Efull.
      replace (5 - List.length acc) with 0 by lia. reflexivity.
    + apply Nat.leb_gt in Efull.
      destruct (5 - List.length acc) as [|n] eqn:En; [lia|].
      cbn [firstn summarizeAll].
      destruct (Obj.get dailyMap k) as [entries| |]; try reflexivity.
      destruct (summarize entries) as [d|err]; [|reflexivity]. cbn [bind].
      rewrite IH. rewrite length_app. cbn [List.length].
      replace (5 - (List.length acc + 1)) with n by lia.
      destruct (summarizeAll dailyMap _) as [ds|err]; [|reflexivity].
      cbn [bind]. now rewrite <- app_assoc.
Qed.

(** *** Object.keys *)

Lemma insertIndex_In (i : N) (k : JsString) (l : list (N * JsString)) (x : N * JsString) :
  In x (Obj.insertIndex i k l) <-> x = (i, k) \/ In x l.
Proof.
  induction l as [|[j k'] l IH]; cbn [Obj.insertIndex].
  - cbn. intuition.
  - destruct (i <=? j)%N; cbn [In]; [intuition|]. rewrite IH. intuition.
Qed.

Lemma indexKeys_In (ks : list JsString) (x : N * JsString) :
  In x (Obj.indexKeys ks) -> In (snd x) ks.
Proof.
  induction ks as [|k ks IH]; [trivial|].
  cbn [Obj.indexKeys]. destruct (Obj.arrayIndex k) as [i|].
  - intros H. apply insertIndex_In in H. destruct H as [->|H]; [now left|].
    right. now apply IH.
  - intros H. right. now apply IH.
Qed.

Lemma keys_In {V} (o : Obj.t V) (k : JsString) :
  In k (Obj.keys o) -> In k (List.map fst o).
Proof.
  unfold Obj.keys. intros H. apply in_app_or in H. destruct H as [H|H].
  - apply in_map_iff in H. destruct H as [x [<- Hx]]. now apply indexKeys_In.
  - now apply filter_In in H.
Qed.

Lemma keys_named {V} (o : Obj.t V) :
  forallb Obj.isNamed (List.map fst o) = true ->
  Obj.keys o = List.map fst o.
Proof.
  unfold Obj.keys. generalize (List.map fst o). intros ks H.
  induction ks as [|k ks IH]; [reflexivity|].
  cbn [forallb] in H. apply andb_true_iff in H. destruct H as [Hk Hks].
  cbn [Obj.indexKeys filter]. rewrite Hk.
  unfold Obj.isNamed in Hk. destruct (Obj.arrayIndex k); [discriminate|].
  specialize (IH Hks).
  destruct (Obj.indexKeys ks) as [|x xs].
  - cbn [List.map app] in *. now f_equal.
  - exfalso. cbn [List.map app] in IH.
    assert (Hlen : List.length (snd x :: List.map snd xs ++ filter Obj.isNamed ks)
                   = List.length ks) by now rewrite IH.
    assert (Hfil : List.length (filter Obj.isNamed ks) <= List.length ks)
      by apply filter_length_le.
    cbn [List.length] in Hlen. rewrite length_app in Hlen. 
    assert (Hall : filter Obj.isNamed ks = ks).
    { clear - Hks. induction ks as [|a ks IH]; [reflexivity|].
      cbn [forallb] in Hks. apply andb_true_iff in Hks. destruct Hks as [Ha Hks].
      cbn [filter]. rewrite Ha. f_equal. now apply IH. }
    rewrite Hall in Hlen. lia.
Qed.

Lemma groupsOf_keys (l : list Entry) : List.map fst (groupsOf l) = dateKeys l.
Proof.
  unfold groupsOf. rewrite map_map. cbn [fst]. apply map_id.
Qed.

Lemma groupsOf_get (l : list Entry) (k : JsString) :
  In k (dateKeys l) -> Obj.get (groupsOf l) k = Obj.Own (dayGroup k l).
Proof.
  intros H. unfold Obj.get, groupsOf. rewrite getOwn_tabulate.
  apply existsb_eqb_In in H. now rewrite H.
Qed.

(** The aggregation as a whole: a TypeError when a sample cannot be filed,
    otherwise the summaries of the first five groups of [Object.keys] that
    are not today's. *)
Lemma aggregate_summarizeAll (samples : list Entry) (todayKey : JsString) :
  aggregate samples todayKey =
  if forallb fileable samples
  then summarizeAll (groupsOf samples)
         (firstn 5 (filter (fun k => negb (Str.eqb k todayKey))
                      (Obj.keys (groupsOf samples))))
  else Throw TypeError.
Proof.
  unfold aggregate.
  change (@nil (JsString * list Entry)) with (groupsOf []).
  rewrite groupByDate_groupsOf by reflexivity. cbn [app].
  destruct (forallb fileable samples); [|reflexivity]. cbn [bind].
  rewrite forEachDay_summarizeAll. cbn [List.length app].
  apply bind_normal.
Qed.

(** What [summarizeAll] returns is, key by key, the summary of the whole
    day-group of the key. *)
Lemma summarizeAll_groups (l : list Entry) (ks : list JsString)
  (out : list DailyForecast) :
  (forall k, In k ks -> In k (dateKeys l)) ->
  summarizeAll (groupsOf l) ks = Normal out ->
  Forall2 (fun k d => summarize (dayGroup k l) = Normal d) ks out.
Proof.
  revert out. induction ks as [|k ks IH]; intros out Hks H.
  - cbn in H. injection H as <-. constructor.
  - cbn [summarizeAll] in H.
    rewrite groupsOf_get in H by (apply Hks; now left).
    destruct (summarize (dayGroup k l)) as [d|] eqn:Ed; [|discriminate].
    cbn [bind] in H.
    destruct (summarizeAll (groupsOf l) ks) as [ds|] eqn:Eds; [|discriminate].
    cbn [bind] in H. injection H as <-. constructor; [exact Ed|].
    apply IH; [|reflexivity]. intros k' Hk'. apply Hks. now right.
Qed.

Lemma summarizeAll_total (l : list Entry) (ks : list JsString) :
  (forall k, In k ks -> In k (dateKeys l)) ->
  (forall k, In k ks -> isNormal (summarize (dayGroup k l)) = true) ->
  exists out, summarizeAll (groupsOf l) ks = Normal out.
Proof.
  induction ks as [|k ks IH]; intros Hks Hnormal.
  - now exists [].
  - cbn [summarizeAll]. rewrite groupsOf_get by (apply Hks; now left).
    specialize (Hnormal k (or_introl eq_refl)) as Hk.
    destruct (summarize (dayGroup k l)) as [d|]; [|discriminate]. cbn [bind].
    destruct IH as [ds Hds].
    + intros k' Hk'. apply Hks. now right.
    + intros k' Hk'. apply Hnormal. now right.
    + rewrite Hds. cbn [bind]. now exists (d :: ds).
Qed.

End Days.

(** ** The summary of one day *)

Section Summary.

Import Forecast Spec.

Lemma ofInteger_small (z : Z) :
  (Z.abs z < 2 ^ 53)%Z -> ofInteger z = ofZ z.
Proof.
  intros Hz. unfold ofInteger.
  assert (Hlog : (Z.log2 (Z.abs z) - 52 <= 0)%Z).
  { destruct (Z.eq_dec (Z.abs z) 0) as [->|Hne]; [cbn; lia|].
    assert (Hpos : (0 < Z.abs z)%Z) by lia.
    apply (Z.log2_lt_pow2 _ 53 Hpos) in Hz. lia. }
  apply Z.leb_le in Hlog. now rewrite Hlog.
Qed.

Lemma ofInteger_integer (z : Z) (h : Q) :
  ofInteger z = Fin h -> exists z', h = inject_Z z'.
Proof.
  unfold ofInteger, ofZ.
  destruct (_ <=? 0)%Z; [intros H; injection H as <-; now eexists|].
  destruct (2 ^ 1024 <=? _)%Z;
    [destruct (z <? 0)%Z; discriminate|].
  intros H; injection H as <-; now eexists.
Qed.

(** A finite result of [parseInt] is an integer. *)
Lemma parseInt_integer (s : JsString) (h : Q) :
  parseInt s = Fin h -> exists z, h = inject_Z z.
Proof.
  unfold parseInt.
  destruct (match Str.trimStart s with
            | 45%N :: rest => (true, rest)
            | 43%N :: rest => (false, rest)
            | _ => (false, Str.trimStart s)
            end) as [negative body].
  destruct (Str.takeDigits body) as [|c ds]; [discriminate|].
  apply ofInteger_integer.
Qed.

(** The difference of two integers is computed exactly as long as it has
    no more than 53 bits. *)
Lemma subFin_exact (z b : Z) :
  (Z.abs (z - b) < 2 ^ 53)%Z ->
  subFin (Fin (inject_Z z)) (inject_Z b) = ofZ (z - b).
Proof.
  intros Hz. unfold subFin, nearest.
  assert (Heq : (inject_Z z - inject_Z b == inject_Z (z - b))%Q).
  { unfold Z.sub, Qminus. rewrite inject_Z_plus, inject_Z_opp. reflexivity. }
  assert (Hfloor : Qfloor (inject_Z z - inject_Z b) = (z - b)%Z).
  { rewrite (Qfloor_comp _ _ Heq). apply Qfloor_Z. }
  rewrite Hfloor.
  assert (Hint : Qeq_bool (inject_Z z - inject_Z b) (inject_Z (z - b)) = true)
    by now apply Qeq_bool_iff.
  rewrite Hint. now apply ofInteger_small.
Qed.

Lemma lt_Qeq_l (a a' : Q) (m : number) :
  (a == a')%Q -> Num.lt (Fin a) m = Num.lt (Fin a') m.
Proof.
  intros H. destruct m as [| |b|]; try reflexivity.
  cbn [Num.lt]. unfold Num.Qltb. f_equal.
  destruct (Qle_bool b a) eqn:E, (Qle_bool b a') eqn:E'; try reflexivity.
  - apply Qle_bool_iff in E. rewrite H in E. apply Qle_bool_iff in E. congruence.
  - apply Qle_bool_iff in E'. rewrite <- H in E'. apply Qle_bool_iff in E'. congruence.
Qed.

(** For a sample whose hour is near noon, the difference the loop computes
    is the distance of the hour from 12. *)
Lemma noonDistance_diff (e : Entry) :
  nearNoon e = true ->
  exists s h de de',
    dt_txt e = Some s /\ hourOf s = Normal (Fin h) /\
    noonDistance e = Some de /\
    Num.abs (subFin (Fin h) 12) = Fin de' /\ (de' == de)%Q.
Proof.
  unfold nearNoon, noonDistance, hourOfDay.
  destruct (dt_txt e) as [s|]; [|discriminate].
  destruct (hourOf s) as [[| |h|]|] eqn:Eh; try discriminate.
  cbn [option_map]. intros Hnear. apply NumFacts.Qltb_lt in Hnear.
  assert (Hint : exists z, h = inject_Z z).
  { unfold hourOf in Eh. destruct (nth_error _ 1) as [time|]; [|discriminate].
    injection Eh as Eh. now apply parseInt_integer in Eh. }
  destruct Hint as [z ->].
  assert (Heq : (inject_Z z - 12 == inject_Z (z - 12))%Q).
  { unfold Z.sub, Qminus. rewrite inject_Z_plus, inject_Z_opp. reflexivity. }
  assert (Hz : (Z.abs (z - 12) < 2 ^ 53)%Z).
  { rewrite Heq in Hnear.
    change (Qabs (inject_Z (z - 12))) with (inject_Z (Z.abs (z - 12))) in Hnear.
    now rewrite <- Zlt_Qlt in Hnear. }
  exists s, (inject_Z z), (Qabs (inject_Z z - 12)), (Qabs (inject_Z (z - 12))).
  split; [reflexivity|]. split; [exact Eh|]. split; [reflexivity|].
  split.
  - change 12%Q with (inject_Z 12). rewrite (subFin_exact z 12 Hz). reflexivity.
  - now rewrite Heq.
Qed.

Lemma lt_Fin (a b : Q) : Num.lt (Fin a) (Fin b) = Num.Qltb a b.
Proof. reflexivity. Qed.

(** The loop of lines 259-268 returns as soon as every entry has a time
    to read, whatever the hours are. *)
Lemma closestToNoon_total (entries : list Entry) (midday : Entry) (minDiff : number) :
  (forall e, In e entries -> exists de, noonDistance e = Some de) ->
  exists r, closestToNoon entries midday minDiff = Normal r.
Proof.
  revert midday minDiff. induction entries as [|e rest IH]; intros midday minDiff Hall.
  - now exists midday.
  - destruct (Hall e (or_introl eq_refl)) as [de Hde].
    unfold noonDistance, hourOfDay in Hde.
    cbn [closestToNoon]. destruct (dt_txt e) as [s|]; [|discriminate].
    destruct (hourOf s) as [hour|]; [|discriminate]. cbn [bind].
    destruct (Num.lt _ minDiff); apply IH; intros e' He'; apply Hall; now right.
Qed.

Lemma nearNoon_distance (e : Entry) :
  nearNoon e = true -> exists de, noonDistance e = Some de.
Proof.
  unfold nearNoon. destruct (noonDistance e) as [de|]; [now exists de|discriminate].
Qed.

(** The state of the loop of lines 259-268 after a run over [entries]
    whose hours are near noon: either nothing came closer than [minDiff]
    and [midday] stays, or the result is the first entry at the least
    distance. *)
Lemma closestToNoon_inv (entries : list Entry) (midday : Entry) (minDiff : number) :
  (forall e, In e entries -> nearNoon e = true) ->
  exists r,
    closestToNoon entries midday minDiff = Normal r /\
    ((r = midday /\
      forall e de, In e entries -> noonDistance e = Some de ->
                   Num.lt (Fin de) minDiff = false)
     \/
     (exists before after dr,
        entries = before ++ r :: after /\
        noonDistance r = Some dr /\
        Num.lt (Fin dr) minDiff = true /\
        (forall e, In e before -> exists de, noonDistance e = Some de /\ (dr < de)%Q) /\
        (forall e, In e after -> exists de, noonDistance e = Some de /\ (dr <= de)%Q))).
Proof.
  revert midday minDiff. induction entries as [|e rest IH]; intros midday minDiff Hall.
  - exists midday. split; [reflexivity|]. left. split; [reflexivity|].
    intros e de [].
  - destruct (noonDistance_diff e (Hall e (or_introl eq_refl)))
      as (s & h & de & de' & Es & Eh & Hde & Ediff & Heq).
    assert (Hnear : forall e', In e' rest -> nearNoon e' = true)
      by (intros e' He'; apply Hall; now right).
    assert (Hrest : forall e', In e' rest -> exists de', noonDistance e' = Some de')
      by (intros e' He'; now apply nearNoon_distance, Hnear).
    cbn [closestToNoon]. rewrite Es, Eh. cbn [bind]. rewrite Ediff.
    rewrite (lt_Qeq_l minDiff Heq).
    destruct (Num.lt (Fin de) minDiff) eqn:Elt.
    + (* [e] comes closer *)
      destruct (IH e (Fin de') Hnear) as [r [Hr Hcases]].
      exists r. split; [exact Hr|]. right.
      destruct Hcases as [[-> Hnone] | [before [after [dr [Hsplit [Hdr [Hlt [Hb Ha]]]]]]]].
      * exists [], rest, de. split; [reflexivity|]. split; [exact Hde|].
        split; [exact Elt|]. split; [intros ? []|].
        intros e' He'. destruct (Hrest e' He') as [de'' Hde''].
        exists de''. split; [exact Hde''|].
        specialize (Hnone e' de'' He' Hde''). rewrite lt_Fin in Hnone.
        apply NumFacts.Qltb_ge in Hnone. now rewrite <- Heq.
      * exists (e :: before), after, dr. rewrite Hsplit.
        split; [reflexivity|]. split; [exact Hdr|].
        rewrite lt_Fin in Hlt. apply NumFacts.Qltb_lt in Hlt. rewrite Heq in Hlt.
        split.
        { destruct minDiff as [| |m|]; try discriminate; [|reflexivity].
          rewrite lt_Fin in Elt |- *. apply NumFacts.Qltb_lt in Elt.
          apply NumFacts.Qltb_lt. lra. }
        split; [|exact Ha].
        intros e' [<-|He']; [now exists de|now apply Hb].
    + (* [e] does not come closer *)
      destruct (IH midday minDiff Hnear) as [r [Hr Hcases]].
      exists r. split; [exact Hr|].
      destruct Hcases as [[-> Hnone] | [before [after [dr [Hsplit [Hdr [Hlt [Hb Ha]]]]]]]].
      * left. split; [reflexivity|].
        intros e' de'' [<-|He'] Hde''; [|now apply (Hnone e')].
        rewrite Hde in Hde''. injection Hde'' as <-. exact Elt.
      * right. exists (e :: before), after, dr. rewrite Hsplit.
        split; [reflexivity|]. split; [exact Hdr|]. split; [exact Hlt|].
        split; [|exact Ha].
        intros e' [<-|He']; [|now apply Hb].
        exists de. split; [exact Hde|].
        destruct minDiff as [| |m|]; try discriminate.
        rewrite lt_Fin in Elt, Hlt.
        apply NumFacts.Qltb_ge in Elt. apply NumFacts.Qltb_lt in Hlt. lra.
Qed.

Lemma closestToNoon_In (entries : list Entry) (midday r : Entry) (minDiff : number) :
  closestToNoon entries midday minDiff = Normal r -> r = midday \/ In r entries.
Proof.
  revert midday minDiff. induction entries as [|e rest IH]; intros midday minDiff H.
  - cbn in H. injection H as <-. now left.
  - cbn [closestToNoon] in H.
    destruct (dt_txt e) as [s|]; [|discriminate].
    destruct (hourOf s) as [hour|]; [|discriminate]. cbn [bind] in H.
    destruct (Num.lt _ minDiff); apply IH in H.
    + destruct H as [->|H]; right; [now left|now right].
    + destruct H as [->|H]; [now left|right; now right].
Qed.

(** The representative of a summary is a sample of the group. *)
Lemma summarize_In (entries : list Entry) (d : DailyForecast) :
  summarize entries = Normal d -> In (Payload.midday d) entries.
Proof.
  unfold summarize. destruct entries as [|first rest]; [discriminate|].
  destruct (closestToNoon (first :: rest) first Infinity) as [r|] eqn:E; [|discriminate].
  cbn [bind]. destruct (extremes _ _ _) as [lo hi]. intros H. injection H as <-.
  cbn [Payload.midday]. apply closestToNoon_In in E. destruct E as [->|E]; [now left|exact E].
Qed.

Lemma extremes_running (entries : list Entry) (lo hi : number) :
  extremes entries lo hi =
  (runningMin (minima entries) lo, runningMax (maxima entries) hi).
Proof.
  revert lo hi. induction entries as [|e rest IH]; intros lo hi; [reflexivity|].
  cbn [extremes]. rewrite IH. reflexivity.
Qed.

Lemma runningMin_inv (xs : list number) (lo : number) :
  allFinite xs ->
  let r := runningMin xs lo in
  ((r = lo /\ forall q, In (Fin q) xs -> Num.lt (Fin q) lo = false)
   \/ (In r xs /\ Num.lt r lo = true))
  /\ forall q, In (Fin q) xs -> Num.lt (Fin q) r = false.
Proof.
  revert lo. induction xs as [|x xs IH]; intros lo Hfin.
  - cbn. split; [left; split; [reflexivity|intros q []]|intros q []].
  - destruct (Hfin x (or_introl eq_refl)) as [qx ->].
    assert (Hfin' : allFinite xs) by (intros y Hy; apply Hfin; now right).
    cbn [runningMin fold_left].
    destruct (Num.lt (Fin qx) lo) eqn:Elt.
    + destruct (IH (Fin qx) Hfin') as [Hcases Hleast].
      unfold runningMin in *.
      set (r := fold_left _ xs (Fin qx)) in *. cbn zeta in *.
      assert (Hqx : Num.lt (Fin qx) r = false).
      { destruct Hcases as [[-> _]|[Hin Hlt]].
        - rewrite lt_Fin. apply NumFacts.Qltb_ge. lra.
        - destruct (Hfin' r Hin) as [qr Hqr]. rewrite Hqr in *.
          rewrite lt_Fin in *. apply NumFacts.Qltb_lt in Hlt.
          apply NumFacts.Qltb_ge. lra. }
      split.
      * right. destruct Hcases as [[-> _]|[Hin Hlt]]; [split; [now left|exact Elt]|].
        split; [now right|].
        destruct (Hfin' r Hin) as [qr Hqr]. rewrite Hqr in *.
        destruct lo as [| |l|]; try discriminate; [|reflexivity].
        rewrite lt_Fin in *. apply NumFacts.Qltb_lt in Hlt, Elt.
        apply NumFacts.Qltb_lt. lra.
      * intros q [Hq|Hq]; [injection Hq as <-; exact Hqx|now apply Hleast].
    + destruct (IH lo Hfin') as [Hcases Hleast].
      unfold runningMin in *.
      set (r := fold_left _ xs lo) in *. cbn zeta in *.
      split.
      * destruct Hcases as [[Hr Hnone]|[Hin Hlt]].
        { left. split; [exact Hr|].
          intros q [Hq|Hq]; [injection Hq as <-; exact Elt|now apply Hnone]. }
        { right. split; [now right|exact Hlt]. }
      * intros q [Hq|Hq]; [|now apply Hleast]. injection Hq as <-.
        destruct Hcases as [[-> _]|[Hin Hlt]]; [exact Elt|].
        destruct (Hfin' r Hin) as [qr Hqr]. rewrite Hqr in *.
        destruct lo as [| |l|]; try discriminate.
        rewrite lt_Fin in *. apply NumFacts.Qltb_lt in Hlt.
        apply NumFacts.Qltb_ge in Elt. apply NumFacts.Qltb_ge. lra.
Qed.

Lemma runningMax_inv (xs : list number) (hi : number) :
  allFinite xs ->
  let r := runningMax xs hi in
  ((r = hi /\ forall q, In (Fin q) xs -> Num.lt hi (Fin q) = false)
   \/ (In r xs /\ Num.lt hi r = true))
  /\ forall q, In (Fin q) xs -> Num.lt r (Fin q) = false.
Proof.
  revert hi. induction xs as [|x xs IH]; intros hi Hfin.
  - cbn. split; [left; split; [reflexivity|intros q []]|intros q []].
  - destruct (Hfin x (or_introl eq_refl)) as [qx ->].
    assert (Hfin' : allFinite xs) by (intros y Hy; apply Hfin; now right).
    cbn [runningMax fold_left].
    change (Num.gt (Fin qx) hi) with (Num.lt hi (Fin qx)).
    destruct (Num.lt hi (Fin qx)) eqn:Elt.
    + destruct (IH (Fin qx) Hfin') as [Hcases Hmost].
      unfold runningMax in *.
      set (r := fold_left _ xs (Fin qx)) in *. cbn zeta in *.
      assert (Hqx : Num.lt r (Fin qx) = false).
      { destruct Hcases as [[-> _]|[Hin Hlt]].
        - rewrite lt_Fin. apply NumFacts.Qltb_ge. lra.
        - destruct (Hfin' r Hin) as [qr Hqr]. rewrite Hqr in *.
          rewrite lt_Fin in *. apply NumFacts.Qltb_lt in Hlt.
          apply NumFacts.Qltb_ge. lra. }
      split.
      * right. destruct Hcases as [[-> _]|[Hin Hlt]]; [split; [now left|exact Elt]|].
        split; [now right|].
        destruct (Hfin' r Hin) as [qr Hqr]. rewrite Hqr in *.
        destruct hi as [| |h|]; try discriminate; [reflexivity|].
        rewrite lt_Fin in *. apply NumFacts.Qltb_lt in Hlt, Elt.
        apply NumFacts.Qltb_lt. lra.
      * intros q [Hq|Hq]; [injection Hq as <-; exact Hqx|now apply Hmost].
    + destruct (IH hi Hfin') as [Hcases Hmost].
      unfold runningMax in *.
      set (r := fold_left _ xs hi) in *. cbn zeta in *.
      split.
      * destruct Hcases as [[Hr Hnone]|[Hin Hlt]].
        { left. split; [exact Hr|].
          intros q [Hq|Hq]; [injection Hq as <-; exact Elt|now apply Hnone]. }
        { right. split; [now right|exact Hlt]. }
      * intros q [Hq|Hq]; [|now apply Hmost]. injection Hq as <-.
        destruct Hcases as [[-> _]|[Hin Hlt]]; [exact Elt|].
        destruct (Hfin' r Hin) as [qr Hqr]. rewrite Hqr in *.
        destruct hi as [| |h|]; try discriminate.
        rewrite lt_Fin in *. apply NumFacts.Qltb_lt in Hlt.
        apply NumFacts.Qltb_ge in Elt. apply NumFacts.Qltb_ge. lra.
Qed.

Lemma runningMin_least (xs : list number) :
  xs <> [] -> allFinite xs -> leastOf (runningMin xs Infinity) xs.
Proof.
  intros Hne Hfin.
  destruct (runningMin_inv Infinity Hfin) as [Hcases Hleast]. cbn zeta in *.
  assert (Hin : In (runningMin xs Infinity) xs).
  { destruct Hcases as [[_ Hnone]|[Hin _]]; [|exact Hin].
    destruct xs as [|x xs]; [now elim Hne|].
    destruct (Hfin x (or_introl eq_refl)) as [q ->].
    specialize (Hnone q (or_introl eq_refl)). discriminate. }
  split; [exact Hin|].
  destruct (Hfin _ Hin) as [m Hm]. exists m. split; [exact Hm|].
  intros y Hy. destruct (Hfin y Hy) as [q ->]. exists q. split; [reflexivity|].
  specialize (Hleast q Hy). rewrite Hm, lt_Fin in Hleast.
  now apply NumFacts.Qltb_ge in Hleast.
Qed.

Lemma runningMax_greatest (xs : list number) :
  xs <> [] -> allFinite xs -> greatestOf (runningMax xs NegInfinity) xs.
Proof.
  intros Hne Hfin.
  destruct (runningMax_inv NegInfinity Hfin) as [Hcases Hmost]. cbn zeta in *.
  assert (Hin : In (runningMax xs NegInfinity) xs).
  { destruct Hcases as [[_ Hnone]|[Hin _]]; [|exact Hin].
    destruct xs as [|x xs]; [now elim Hne|].
    destruct (Hfin x (or_introl eq_refl)) as [q ->].
    specialize (Hnone q (or_introl eq_refl)). discriminate. }
  split; [exact Hin|].
  destruct (Hfin _ Hin) as [m Hm]. exists m. split; [exact Hm|].
  intros y Hy. destruct (Hfin y Hy) as [q ->]. exists q. split; [reflexivity|].
  specialize (Hmost q Hy). rewrite Hm, lt_Fin in Hmost.
  now apply NumFacts.Qltb_ge in Hmost.
Qed.

(** The summary of a group whose samples all have an hour: a sample of
    the group and the running extremes. *)
Lemma summarize_ranged (entries : list Entry) :
  entries <> [] ->
  (forall e, In e entries -> exists de, noonDistance e = Some de) ->
  exists r,
    summarize entries =
      Normal {| midday := r;
                tempMin := runningMin (minima entries) Infinity;
                tempMax := runningMax (maxima entries) NegInfinity |}
    /\ In r entries.
Proof.
  intros Hne Hall. destruct entries as [|first rest]; [now elim Hne|].
  unfold summarize.
  destruct (closestToNoon_total (first :: rest) first Infinity Hall) as [r Hr].
  exists r. rewrite Hr. cbn [bind]. rewrite extremes_running.
  split; [reflexivity|].
  apply closestToNoon_In in Hr. destruct Hr as [->|Hr]; [now left|exact Hr].
Qed.

(** The summary of a group whose hours are near noon. *)
Lemma summarize_timed (entries : list Entry) :
  entries <> [] ->
  (forall e, In e entries -> nearNoon e = true) ->
  exists r,
    summarize entries =
      Normal {| midday := r;
                tempMin := runningMin (minima entries) Infinity;
                tempMax := runningMax (maxima entries) NegInfinity |}
    /\ firstClosestToNoon r entries.
Proof.
  intros Hne Hall. destruct entries as [|first rest]; [now elim Hne|].
  unfold summarize.
  destruct (closestToNoon_inv (first :: rest) first Infinity Hall) as [r [Hr Hcases]].
  exists r. rewrite Hr. cbn [bind]. rewrite extremes_running.
  split; [reflexivity|].
  destruct Hcases as [[_ Hnone] | [before [after [dr [Hsplit [Hdr [_ [Hb Ha]]]]]]]].
  - destruct (nearNoon_distance first (Hall first (or_introl eq_refl))) as [de Hde].
    specialize (Hnone first de (or_introl eq_refl) Hde). discriminate.
  - now exists before, after, dr.
Qed.

End Summary.

(** ** Samples with the provider's timestamps *)

Section WellTimed.

Import Forecast Spec.

Lemma calendarDate_shape (k : JsString) (d : N * N * N) :
  calendarDate k = Some d ->
  exists y1 y2 y3 y4 m1 m2 d1 d2,
    k = [y1; y2; y3; y4; 45%N; m1; m2; 45%N; d1; d2] /\ Str.isDigit y1 = true.
Proof.
  unfold calendarDate. intros H.
  destruct k as [|y1 [|y2 [|y3 [|y4 [|h1 [|m1 [|m2 [|h2 [|d1 [|d2 [|]]]]]]]]]]];
    try discriminate.
  destruct (forallb Str.isDigit [y1; y2; y3; y4; m1; m2; d1; d2]) eqn:Ed;
    [|discriminate].
  destruct (h1 =? 45)%N eqn:E1; [|discriminate].
  destruct (h2 =? 45)%N eqn:E2; [|discriminate].
  apply N.eqb_eq in E1, E2. subst.
  cbn [forallb] in Ed. apply andb_true_iff in Ed. destruct Ed as [Ed _].
  now exists y1, y2, y3, y4, m1, m2, d1, d2.
Qed.

Lemma calendarDate_not_inherited (k : JsString) (d : N * N * N) :
  calendarDate k = Some d -> Obj.isInherited k = false.
Proof.
  intros H. destruct (Obj.isInherited k) eqn:E; [|reflexivity].
  unfold Obj.isInherited in E. apply existsb_eqb_In in E.
  cbn in E.
  repeat (destruct E as [E|E]; [subst k; discriminate H|]).
  contradiction.
Qed.

Lemma arrayIndex_digits (k : JsString) (i : N) :
  Obj.arrayIndex k = Some i -> forallb Str.isDigit k = true.
Proof.
  unfold Obj.arrayIndex. destruct k as [|c rest]; [discriminate|].
  destruct (forallb Str.isDigit (c :: rest)); [reflexivity|discriminate].
Qed.

Lemma calendarDate_named (k : JsString) (d : N * N * N) :
  calendarDate k = Some d -> Obj.isNamed k = true.
Proof.
  intros H. unfold Obj.isNamed.
  destruct (Obj.arrayIndex k) as [i|] eqn:E; [|reflexivity].
  apply arrayIndex_digits in E.
  destruct (calendarDate_shape k H) as (y1 & y2 & y3 & y4 & m1 & m2 & d1 & d2 & -> & _).
  rewrite forallb_forall in E.
  specialize (E 45%N). cbn in E. discriminate E. tauto.
Qed.

Lemma wellTimed_fileable (e : Entry) : wellTimed e = true -> fileable e = true.
Proof.
  unfold wellTimed, fileable. destruct (dt_txt e) as [s|]; [|discriminate].
  intros H. apply andb_true_iff in H. destruct H as [H _].
  destruct (calendarDate (dateKeyOf s)) as [d|] eqn:E; [|discriminate].
  now rewrite (calendarDate_not_inherited _ E).
Qed.

Lemma wellTimed_distance (e : Entry) :
  wellTimed e = true -> exists de, noonDistance e = Some de.
Proof.
  unfold wellTimed, noonDistance. destruct (dt_txt e) as [s|]; [|discriminate].
  intros H. apply andb_true_iff in H. destruct H as [_ H].
  destruct (hourOfDay e) as [h|]; [|discriminate].
  now exists (Qabs (h - 12)).
Qed.

Lemma wellTimed_date (e : Entry) (k : JsString) :
  wellTimed e = true -> onDay k e = true -> exists d, calendarDate k = Some d.
Proof.
  unfold wellTimed, onDay. destruct (dt_txt e) as [s|]; [|discriminate].
  intros H Hk. apply StrFacts.eqb_eq in Hk. subst k.
  apply andb_true_iff in H. destruct H as [H _].
  destruct (calendarDate (dateKeyOf s)) as [d|]; [now exists d|discriminate].
Qed.

Variable samples : list Entry.
Hypothesis timed : forallb wellTimed samples = true.

Lemma timed_fileable : forallb fileable samples = true.
Proof.
  apply forallb_forall. intros e He. apply wellTimed_fileable.
  rewrite forallb_forall in timed. now apply timed.
Qed.

Lemma timed_dateKeys (k : JsString) :
  In k (dateKeys samples) -> exists d, calendarDate k = Some d.
Proof.
  intros H. apply dateKeys_In, stamps_In in H. destruct H as [e [He Hon]].
  rewrite forallb_forall in timed. eapply wellTimed_date; eauto.
Qed.

Lemma timed_keys : Obj.keys (groupsOf samples) = dateKeys samples.
Proof.
  rewrite keys_named; rewrite groupsOf_keys; [reflexivity|].
  apply forallb_forall. intros k Hk.
  destruct (timed_dateKeys k Hk) as [d Hd]. exact (calendarDate_named k Hd).
Qed.

Lemma days_In (todayKey k : JsString) :
  In k (days todayKey samples) -> In k (dateKeys samples) /\ k <> todayKey.
Proof.
  unfold days. intros H. apply In_firstn in H. apply filter_In in H.
  destruct H as [H Hne]. split; [exact H|].
  now apply negb_true_iff, StrFacts.eqb_neq in Hne.
Qed.

Lemma dayGroup_In (k : JsString) (e : Entry) :
  In e (dayGroup k samples) <-> In e samples /\ onDay k e = true.
Proof. apply filter_In. Qed.

Lemma dayGroup_nonempty (k : JsString) :
  In k (dateKeys samples) -> dayGroup k samples <> [].
Proof.
  intros H Hnil. apply dateKeys_In, stamps_In in H. destruct H as [e He].
  apply dayGroup_In in He. rewrite Hnil in He. contradiction.
Qed.

Lemma summarize_day (k : JsString) :
  In k (dateKeys samples) ->
  exists d, summarize (dayGroup k samples) = Normal d /\ rangeSummary samples k d.
Proof.
  intros Hk.
  destruct (@summarize_ranged (dayGroup k samples)) as [r [Hr Hin]].
  - now apply dayGroup_nonempty.
  - intros e He. apply dayGroup_In in He. destruct He as [He _].
    apply wellTimed_distance. rewrite forallb_forall in timed. now apply timed.
  - eexists. split; [exact Hr|]. now repeat split.
Qed.

Hypothesis clocked : forallb nearNoon samples = true.

Lemma summarize_clocked_day (k : JsString) :
  In k (dateKeys samples) ->
  exists d, summarize (dayGroup k samples) = Normal d /\ summaryOf samples k d.
Proof.
  intros Hk.
  destruct (@summarize_timed (dayGroup k samples)) as [r [Hr Hclosest]].
  - now apply dayGroup_nonempty.
  - intros e He. apply dayGroup_In in He. destruct He as [He _].
    rewrite forallb_forall in clocked. now apply clocked.
  - eexists. split; [exact Hr|]. now repeat split.
Qed.

(** On samples with the provider's timestamps the aggregation returns,
    with one card for each of the first five dates other than today's, in
    order of first appearance; each card has what the summary of its
    day-group has. *)
Lemma aggregate_with (P : JsString -> DailyForecast -> Prop) (todayKey : JsString) :
  (forall k, In k (dateKeys samples) ->
     exists d, summarize (dayGroup k samples) = Normal d /\ P k d) ->
  exists out,
    aggregate samples todayKey = Normal out /\
    Forall2 P (days todayKey samples) out.
Proof.
  intros Hday.
  rewrite aggregate_summarizeAll, timed_fileable, timed_keys.
  fold (days todayKey samples).
  assert (Hdays : forall k, In k (days todayKey samples) -> In k (dateKeys samples))
    by (intros k Hk; now apply (days_In todayKey)).
  destruct (@summarizeAll_total samples (days todayKey samples) Hdays) as [out Hout].
  { intros k Hk. destruct (Hday k (Hdays k Hk)) as [d [Hd _]].
    now rewrite Hd. }
  exists out. split; [exact Hout|].
  pose proof (summarizeAll_groups samples _ Hdays Hout) as Hgroups.
  clear Hout. revert Hdays Hgroups.
  generalize (days todayKey samples). intros ks Hks Hgroups.
  induction Hgroups as [|k d ks out Hd Hrest IH]; constructor.
  - destruct (Hday k (Hks k (or_introl eq_refl))) as [d' [Hd' Hsum]].
    rewrite Hd in Hd'. injection Hd' as <-. exact Hsum.
  - apply IH. intros k' Hk'. apply Hks. now right.
Qed.

End WellTimed.

(** ** The claims about the aggregation *)

Section Aggregation.

Import Forecast Spec.

Lemma Forall2_In_r {A B} (R : A -> B -> Prop) (xs : list A) (ys : list B) (y : B) :
  Forall2 R xs ys -> In y ys -> exists x, In x xs /\ R x y.
Proof.
  induction 1 as [|x y' xs ys Hxy _ IH]; intros Hin; [contradiction|].
  destruct Hin as [<-|Hin].
  - exists x. split; [now left|assumption].
  - destruct (IH Hin) as [x' [Hx' Hr]]. exists x'. split; [now right|assumption].
Qed.

Lemma rangeSummary_dayOf (samples : list Entry) (k : JsString) (d : DailyForecast) :
  rangeSummary samples k d -> dayOf d = Some k.
Proof.
  intros [Hin _].
  apply filter_In in Hin. destruct Hin as [_ Hon].
  unfold onDay in Hon. unfold dayOf.
  destruct (dt_txt (midday d)) as [s|]; [|discriminate].
  apply StrFacts.eqb_eq in Hon. cbn. now f_equal.
Qed.

Lemma summaryOf_dayOf (samples : list Entry) (k : JsString) (d : DailyForecast) :
  summaryOf samples k d -> dayOf d = Some k.
Proof.
  intros [(before & after & dr & Hsplit & _) Hrange].
  apply (@rangeSummary_dayOf samples). split; [|exact Hrange].
  rewrite Hsplit. apply in_elt.
Qed.

(** On samples with the provider's timestamps every one of the first five
    dates other than today's gets its card, whatever the hours read. *)
Lemma aggregate_timed (samples : list Entry) (todayKey : JsString) :
  forallb wellTimed samples = true ->
  exists out,
    aggregate samples todayKey = Normal out /\
    Forall2 (rangeSummary samples) (days todayKey samples) out.
Proof.
  intros Htimed.
  apply (@aggregate_with samples Htimed (rangeSummary samples) todayKey).
  intros k Hk. exact (@summarize_day samples Htimed k Hk).
Qed.


Lemma finite_minima (samples : list Entry) (k : JsString) :
  forallb finiteBounds samples = true ->
  allFinite (minima (dayGroup k samples)) /\ allFinite (maxima (dayGroup k samples)).
Proof.
  intros Hfin. rewrite forallb_forall in Hfin.
  split; intros x Hx; apply in_map_iff in Hx; destruct Hx as [e [<- He]];
    apply filter_In in He; destruct He as [He _]; specialize (Hfin e He);
    unfold finiteBounds in Hfin; apply andb_true_iff in Hfin;
    destruct Hfin as [Hlo Hhi].
  - destruct (temp_min (main e)) as [| |q|]; try discriminate. now exists q.
  - destruct (temp_max (main e)) as [| |q|]; try discriminate. now exists q.
Qed.

(** C2.  When every sample carries a timestamp of the provider's shape
    and finite temperature bounds, the aggregation returns one entry for
    each of the first five dates other than today's, in their order; the
    minimum of each entry is the least [temp_min] of the samples of that
    date's group and its maximum the greatest [temp_max] of the group -
    both are functions of the group alone, the representative plays no
    part - and a group of one sample yields that sample's own bounds. *)
Theorem daily_extremes_over_the_group (samples : list Entry) (todayKey : JsString) :
  forallb wellTimed samples = true ->
  forallb finiteBounds samples = true ->
  exists out,
    aggregate samples todayKey = Normal out /\
    Forall2 (fun k d =>
               dayOf d = Some k /\
               leastOf (tempMin d) (minima (dayGroup k samples)) /\
               greatestOf (tempMax d) (maxima (dayGroup k samples)) /\
               (forall e, dayGroup k samples = [e] ->
                          tempMin d = temp_min (main e) /\
                          tempMax d = temp_max (main e)))
      (days todayKey samples) out.
Proof.
  intros Htimed Hfin.
  destruct (aggregate_timed samples todayKey Htimed) as [out [Hout Hdays]].
  exists out. split; [exact Hout|].
  refine (Forall2_impl _ _ Hdays). intros k d Hsum.
  split; [now apply (rangeSummary_dayOf Hsum)|].
  destruct Hsum as (Hin & Hmin & Hmax).
  destruct (@finite_minima samples k Hfin) as [Hlo Hhi].
  assert (Hne : dayGroup k samples <> []).
  { intros Hnil. rewrite Hnil in Hin. contradiction. }
  split; [|split].
  - rewrite Hmin. apply runningMin_least; [|exact Hlo].
    unfold minima. intros Hnil. apply map_eq_nil in Hnil. contradiction.
  - rewrite Hmax. apply runningMax_greatest; [|exact Hhi].
    unfold maxima. intros Hnil. apply map_eq_nil in Hnil. contradiction.
  - intros e He. rewrite Hmin, Hmax, He.
    destruct (Hlo (temp_min (main e))) as [qlo Hqlo];
      [rewrite He; now left|].
    destruct (Hhi (temp_max (main e))) as [qhi Hqhi];
      [rewrite He; now left|].
    cbn. rewrite Hqlo, Hqhi. split; reflexivity.
Qed.

(** Whenever the aggregation returns, its entries are the summaries of
    whole day-groups of at most five dates other than today's. *)
Lemma aggregate_returns_groups (samples : list Entry) (todayKey : JsString)
  (out : list DailyForecast) :
  aggregate samples todayKey = Normal out ->
  forallb fileable samples = true /\
  List.length out <= 5 /\
  forall d, In d out ->
    exists k, k <> todayKey /\ In k (dateKeys samples) /\
              summarize (dayGroup k samples) = Normal d.
Proof.
  rewrite aggregate_summarizeAll. intros Hout.
  destruct (forallb fileable samples) eqn:E; [|discriminate].
  split; [reflexivity|].
  set (ks := firstn 5 _) in Hout.
  assert (Hks : forall k, In k ks -> In k (dateKeys samples) /\ k <> todayKey).
  { intros k Hk. unfold ks in Hk. apply In_firstn in Hk.
    apply filter_In in Hk. destruct Hk as [Hk Hne].
    apply keys_In in Hk. rewrite groupsOf_keys in Hk. split; [exact Hk|].
    now apply negb_true_iff, StrFacts.eqb_neq in Hne. }
  assert (Hgroups := @summarizeAll_groups samples ks out
                       (fun k Hk => proj1 (Hks k Hk)) Hout).
  split.
  - rewrite <- (Forall2_length Hgroups). unfold ks. apply firstn_le_length.
  - intros d Hd.
    destruct (@Forall2_In_r _ _ _ _ _ _ Hgroups Hd) as [k [Hk Hsum]].
    exists k. destruct (Hks k Hk) as [Hin Hne]. now repeat split.
Qed.

Lemma summarize_dayOf (samples : list Entry) (k : JsString) (d : DailyForecast) :
  summarize (dayGroup k samples) = Normal d -> dayOf d = Some k.
Proof.
  intros H. apply summarize_In in H. apply filter_In in H. destruct H as [_ Hon].
  unfold onDay in Hon. unfold dayOf.
  destruct (dt_txt (midday d)) as [s|]; [|discriminate].
  apply StrFacts.eqb_eq in Hon. cbn. now f_equal.
Qed.

Lemma StronglySorted_filter {A} (R : A -> A -> Prop) (p : A -> bool) (l : list A) :
  StronglySorted R l -> StronglySorted R (filter p l).
Proof.
  induction 1 as [|a l Hl IH Hall]; [constructor|].
  cbn [filter]. destruct (p a); [|exact IH].
  constructor; [exact IH|].
  rewrite Forall_forall in *. intros x Hx. apply filter_In in Hx. now apply Hall.
Qed.

Lemma StronglySorted_firstn {A} (R : A -> A -> Prop) (n : nat) (l : list A) :
  StronglySorted R l -> StronglySorted R (firstn n l).
Proof.
  intros H. revert n. induction H as [|a l Hl IH Hall]; intros n.
  - rewrite firstn_nil. constructor.
  - destruct n as [|n]; [constructor|]. cbn [firstn].
    constructor; [apply IH|].
    rewrite Forall_forall in *. intros x Hx. apply Hall. now apply In_firstn in Hx.
Qed.

Lemma firstSeen_sorted (R : JsString -> JsString -> Prop) (ks : list JsString) :
  StronglySorted (fun a b => a = b \/ R a b) ks ->
  StronglySorted R (firstSeen ks).
Proof.
  induction 1 as [|k ks Hks IH Hall]; [constructor|].
  cbn [firstSeen]. constructor; [now apply StronglySorted_filter|].
  rewrite Forall_forall in *. intros x Hx. apply filter_In in Hx.
  destruct Hx as [Hx Hne]. rewrite firstSeen_In in Hx.
  apply negb_true_iff, StrFacts.eqb_neq in Hne.
  destruct (Hall x Hx) as [Heq|Hr]; [congruence|exact Hr].
Qed.

(** C3, in the form the code satisfies.  Whenever the aggregation returns
    it returns five entries at most, none of them dated today.  When every
    sample carries a timestamp of the provider's shape it does return, with
    one entry for each of the first five dates other than today's, in the
    order in which the dates first appear in the input: exactly as many
    entries as there are other dates when these are fewer than five, and in
    chronological order whenever the samples come in that order. *)
Theorem aggregate_days (samples : list Entry) (todayKey : JsString) :
  (forall out, aggregate samples todayKey = Normal out ->
     List.length out <= 5 /\
     forall d, In d out -> dayOf d <> Some todayKey) /\
  (forallb wellTimed samples = true ->
   exists out,
     aggregate samples todayKey = Normal out /\
     List.map dayOf out = List.map Some (days todayKey samples) /\
     List.length out = Nat.min 5 (List.length (futureDays todayKey samples)) /\
     (chronologicalInput samples -> chronological out)).
Proof.
  split.
  - intros out Hout.
    destruct (aggregate_returns_groups samples todayKey Hout) as (_ & Hlen & Hgroups).
    split; [exact Hlen|]. intros d Hd Htoday.
    destruct (Hgroups d Hd) as (k & Hne & _ & Hsum).
    rewrite (summarize_dayOf samples k Hsum) in Htoday.
    injection Htoday as ->. now apply Hne.
  - intros Htimed.
    destruct (aggregate_timed samples todayKey Htimed) as [out [Hout Hdays]].
    exists out. split; [exact Hout|].
    assert (Hkeys : Forall2 (fun k d => dayOf d = Some k) (days todayKey samples) out).
    { clear Hout. induction Hdays as [|k d ks out' Hsum _ IH]; constructor.
      - now apply (rangeSummary_dayOf Hsum).
      - exact IH. }
    split; [|split].
    + clear Hdays Hout. induction Hkeys as [|k d ks out' Hk _ IH]; [reflexivity|].
      cbn [List.map]. now rewrite Hk, IH.
    + rewrite <- (Forall2_length Hkeys). unfold days, futureDays. apply length_firstn.
    + intros Hsorted. unfold chronologicalInput in Hsorted. unfold chronological.
      assert (Hks : StronglySorted earlier (days todayKey samples)).
      { unfold days, dateKeys. apply StronglySorted_firstn, StronglySorted_filter.
        now apply firstSeen_sorted. }
      clear Hdays Hout. revert Hks.
      induction Hkeys as [|k d ks out' Hk Hrest IH]; intros Hks; [constructor|].
      inversion Hks as [|? ? Hks' Hall]; subst. constructor; [now apply IH|].
      rewrite Forall_forall in *. intros d' Hd'.
      destruct (@Forall2_In_r _ _ _ _ _ _ Hrest Hd') as [k' [Hk' Hday']].
      rewrite Hk, Hday'. now apply Hall.
Qed.

(** C6, in the form the code satisfies.  A sample without timestamp text is not set aside: the
    whole aggregation ends with a TypeError.  When the aggregation returns,
    every sample has a timestamp text, and every entry is the summary of
    the whole group of a date other than today's, that is of all the
    samples whose timestamp text starts with that date before its first
    space, however the rest of the text reads. *)
Theorem aggregate_excludes_no_sample (samples : list Entry) (todayKey : JsString) :
  ((exists e, In e samples /\ dt_txt e = None) ->
   aggregate samples todayKey = Throw TypeError) /\
  (forall out, aggregate samples todayKey = Normal out ->
     (forall e, In e samples -> dt_txt e <> None) /\
     (forall d, In d out ->
        exists k, k <> todayKey /\ summarize (dayGroup k samples) = Normal d)).
Proof.
  split.
  - intros [e [He Hnone]]. rewrite aggregate_summarizeAll.
    destruct (forallb fileable samples) eqn:E; [|reflexivity].
    rewrite forallb_forall in E. specialize (E e He).
    unfold fileable in E. rewrite Hnone in E. discriminate.
  - intros out Hout.
    destruct (aggregate_returns_groups samples todayKey Hout) as (Hfile & _ & Hgroups).
    split.
    + intros e He Hnone. rewrite forallb_forall in Hfile. specialize (Hfile e He).
      unfold fileable in Hfile. rewrite Hnone in Hfile. discriminate.
    + intros d Hd. destruct (Hgroups d Hd) as (k & Hne & _ & Hsum). now exists k.
Qed.

End Aggregation.

(** ** The aggregation at work *)

(** A day with samples at 09:00, 12:00 and 15:00, minima 10, 8, 12 and
    maxima 20, 22, 19: the 12:00 sample stands for the day, with minimum 8
    and maximum 22. *)
Example aggregate_oneDay :
  Forecast.aggregate Spec.oneDay (Str.js "2024-01-01") =
  Normal [ {| midday := Spec.sample "2024-01-02 12:00:00" 8 22;
              tempMin := ofZ 8; tempMax := ofZ 22 |} ].
Proof. vm_compute. reflexivity. Qed.

(** Why C1 asks for hours near noon: [hour - 12] is a double.  The hours
    [-2^60] and [2^60] are at the distances [2^60 + 12] and [2^60 - 12]
    from 12; both differences round to [2^60], and the loop keeps the first
    sample although the second is nearer. *)
Example aggregate_rounds_far_hours :
  let first := Spec.sample "2024-01-02 -1152921504606846976:00:00" 1 2 in
  let second := Spec.sample "2024-01-02 1152921504606846976:00:00" 3 4 in
  Spec.noonDistance first = Some (Qabs (inject_Z (- 2 ^ 60) - 12)) /\
  Spec.noonDistance second = Some (Qabs (inject_Z (2 ^ 60) - 12)) /\
  Forecast.aggregate [first; second] (Str.js "2024-01-01") =
  Normal [ {| midday := first; tempMin := ofZ 1; tempMax := ofZ 4 |} ].
Proof. vm_compute. repeat split. Qed.


(** C2 at work, on the same day. *)
Lemma daily_extremes_over_the_group_witness :
  forallb Spec.wellTimed Spec.oneDay = true /\
  forallb Spec.finiteBounds Spec.oneDay = true /\
  Spec.days (Str.js "2024-01-01") Spec.oneDay = [Str.js "2024-01-02"] /\
  exists out,
    Forecast.aggregate Spec.oneDay (Str.js "2024-01-01") = Normal out /\
    Forall2 (fun k d =>
               Spec.dayOf d = Some k /\
               Spec.leastOf (tempMin d) (Spec.minima (Spec.dayGroup k Spec.oneDay)) /\
               Spec.greatestOf (tempMax d) (Spec.maxima (Spec.dayGroup k Spec.oneDay)) /\
               (forall e, Spec.dayGroup k Spec.oneDay = [e] ->
                          tempMin d = temp_min (main e) /\
                          tempMax d = temp_max (main e)))
      (Spec.days (Str.js "2024-01-01") Spec.oneDay) out.
Proof.
  assert (H1 : forallb Spec.wellTimed Spec.oneDay = true) by (vm_compute; reflexivity).
  assert (H2 : forallb Spec.finiteBounds Spec.oneDay = true) by (vm_compute; reflexivity).
  split; [exact H1|]. split; [exact H2|]. split; [vm_compute; reflexivity|].
  exact (@daily_extremes_over_the_group Spec.oneDay (Str.js "2024-01-01") H1 H2).
Defined.

(** A day with a single sample has that sample's bounds. *)
Example aggregate_single_sample :
  Forecast.aggregate [Spec.sample "2024-01-02 03:00:00" (-4) 7] (Str.js "2024-01-01") =
  Normal [ {| midday := Spec.sample "2024-01-02 03:00:00" (-4) 7;
              tempMin := ofZ (-4); tempMax := ofZ 7 |} ].
Proof. vm_compute. reflexivity. Qed.

(** The samples of [sixDays] come in the order of their dates. *)
Lemma sixDays_chronological : Spec.chronologicalInput Spec.sixDays.
Proof.
  unfold Spec.chronologicalInput.
  let l := eval vm_compute in (Spec.stamps Spec.sixDays) in
  change (Spec.stamps Spec.sixDays) with l.
  repeat (apply SSorted_cons;
          [|repeat (apply Forall_cons;
                    [first [ left; reflexivity
                           | right; vm_compute; intuition (auto; congruence) ]|]);
            apply Forall_nil]).
  apply SSorted_nil.
Qed.

(** C3 at work: today and five more days at 3-hour resolution give
    exactly five entries, none of them dated today, in chronological
    order. *)
Lemma aggregate_days_witness :
  forallb Spec.wellTimed Spec.sixDays = true /\
  exists out,
    Forecast.aggregate Spec.sixDays (Str.js "2024-01-01") = Normal out /\
    List.map Spec.dayOf out =
      List.map (fun s => Some (Str.js s))
        ["2024-01-02"; "2024-01-03"; "2024-01-04"; "2024-01-05"; "2024-01-06"]%string /\
    (forall d, In d out -> Spec.dayOf d <> Some (Str.js "2024-01-01")) /\
    List.length out = 5 /\
    Spec.chronological out.
Proof.
  assert (H : forallb Spec.wellTimed Spec.sixDays = true) by (vm_compute; reflexivity).
  split; [exact H|].
  destruct (@aggregate_days Spec.sixDays (Str.js "2024-01-01")) as [Hany Htimed].
  destruct (Htimed H) as (out & Hout & Hkeys & Hlen & Hchrono).
  exists out. split; [exact Hout|]. split; [exact Hkeys|].
  split; [exact (proj2 (Hany out Hout))|].
  split; [exact Hlen|]. exact (Hchrono sixDays_chronological).
Defined.

(** With two future days only, two entries are emitted. *)
Example aggregate_fewer_days :
  match Forecast.aggregate
          (Spec.threeHourly "2024-01-01" ++ Spec.threeHourly "2024-01-02"
           ++ Spec.threeHourly "2024-01-03") (Str.js "2024-01-01") with
  | Normal out => List.map Spec.dayOf out =
                  [Some (Str.js "2024-01-02"); Some (Str.js "2024-01-03")]
  | Throw _ => False
  end.
Proof. vm_compute. reflexivity. Qed.

(** C3 does not hold as the specification states it, on samples that do not
    come in the order of their dates: the entries keep the order of first
    appearance. *)
Lemma aggregate_keeps_input_order :
  exists out,
    Forecast.aggregate
      [Spec.sample "2024-01-03 12:00:00" 10 20; Spec.sample "2024-01-02 12:00:00" 10 20]
      (Str.js "2024-01-01") = Normal out /\
    List.map Spec.dayOf out = [Some (Str.js "2024-01-03"); Some (Str.js "2024-01-02")] /\
    ~ Spec.chronological out.
Proof.
  eexists. split; [vm_compute; reflexivity|]. split; [reflexivity|].
  intros H. inversion H as [|? ? _ Hall]; subst.
  inversion Hall as [|? ? Hearlier _]; subst.
  vm_compute in Hearlier. intuition congruence.
Qed.

(** C6 at work: a sample without timestamp between two good ones
    aborts the aggregation; a sample whose time does not parse stays in the
    group its day is summarised from. *)
Lemma aggregate_excludes_no_sample_witness :
  ((exists e, In e [Spec.sample "2024-01-02 09:00:00" 10 20; Spec.unstamped 8 22;
                    Spec.sample "2024-01-02 15:00:00" 12 19]
              /\ dt_txt e = None) /\
   Forecast.aggregate
     [Spec.sample "2024-01-02 09:00:00" 10 20; Spec.unstamped 8 22;
      Spec.sample "2024-01-02 15:00:00" 12 19] (Str.js "2024-01-01")
   = Throw TypeError) /\
  (forall d,
     In d [ {| midday := Spec.sample "2024-01-02 09:00:00" 10 20;
               tempMin := ofZ 5; tempMax := ofZ 25 |} ] ->
     exists k,
       k <> Str.js "2024-01-01" /\
       Forecast.summarize
         (Spec.dayGroup k [Spec.sample "2024-01-02 09:00:00" 10 20;
                           Spec.sample "2024-01-02 noon" 5 25]) = Normal d).
Proof.
  split.
  - assert (H : exists e,
              In e [Spec.sample "2024-01-02 09:00:00" 10 20; Spec.unstamped 8 22;
                    Spec.sample "2024-01-02 15:00:00" 12 19]
              /\ dt_txt e = None).
    { exists (Spec.unstamped 8 22). split; [right; left; reflexivity|reflexivity]. }
    split; [exact H|].
    exact (proj1 (@aggregate_excludes_no_sample _ (Str.js "2024-01-01")) H).
  - apply (proj2 (@aggregate_excludes_no_sample
                    [Spec.sample "2024-01-02 09:00:00" 10 20;
                     Spec.sample "2024-01-02 noon" 5 25] (Str.js "2024-01-01"))).
    vm_compute. reflexivity.
Defined.

(** C6 does not hold as the specification states it, on a sample without
    timestamp: the aggregation is aborted, whereas the two samples that
    remain would give a summary. *)
Lemma aggregate_aborts_on_missing_timestamp :
  Forecast.aggregate
    [Spec.sample "2024-01-02 09:00:00" 10 20; Spec.unstamped 8 22;
     Spec.sample "2024-01-02 15:00:00" 12 19] (Str.js "2024-01-01")
  = Throw TypeError
  /\ Forecast.aggregate
       [Spec.sample "2024-01-02 09:00:00" 10 20;
        Spec.sample "2024-01-02 15:00:00" 12 19] (Str.js "2024-01-01")
     = Normal [ {| midday := Spec.sample "2024-01-02 09:00:00" 10 20;
                   tempMin := ofZ 10; tempMax := ofZ 20 |} ].
Proof. split; vm_compute; reflexivity. Qed.

(** A timestamp whose time does not parse is not set aside either: the
    sample counts in the extremes of its day. *)
Example aggregate_keeps_malformed_time :
  Forecast.aggregate
    [Spec.sample "2024-01-02 09:00:00" 10 20; Spec.sample "2024-01-02 noon" 5 25]
    (Str.js "2024-01-01")
  = Normal [ {| midday := Spec.sample "2024-01-02 09:00:00" 10 20;
                tempMin := ofZ 5; tempMax := ofZ 25 |} ].
Proof. vm_compute. reflexivity. Qed.

(** A timestamp without a time aborts the aggregation when its day is
    summarised. *)
Example aggregate_aborts_on_missing_time :
  Forecast.aggregate
    [Spec.sample "2024-01-02 09:00:00" 10 20; Spec.sample "2024-01-02" 5 25]
    (Str.js "2024-01-01")
  = Throw TypeError.
Proof. vm_compute. reflexivity. Qed.

(* ------------------------------------------------------------------ *)
(** * Further properties of the recent-city store *)

Section StoreMore.

Context {U : Str.Unicode}.
Import Storage Spec More.

Lemma filter_firstn_all {A} (p : A -> bool) (n : nat) (l : list A) :
  (forall x, In x l -> p x = true) -> filter p (firstn n l) = firstn n l.
Proof.
  revert l. induction n as [|n IH]; intros [|a l] H; try reflexivity.
  cbn [firstn filter]. rewrite (H a (or_introl eq_refl)). f_equal.
  apply IH. intros x Hx. apply H. now right.
Qed.

Lemma updated_again (t1 t2 : JsString) (prior : list JsString) :
  Str.toLowerCase t1 = Str.toLowerCase t2 ->
  updated t2 (updated t1 prior) = updated t2 prior.
Proof.
  intros Hsame. unfold updated. rewrite Hsame.
  set (p := fun c => negb (Str.eqb (Str.toLowerCase c) (Str.toLowerCase t2))).
  set (F := filter p prior).
  assert (Hp : p t1 = false)
    by (unfold p; now rewrite Hsame, StrFacts.eqb_refl).
  assert (HF : filter p (firstn 4 F) = firstn 4 F).
  { apply filter_firstn_all. intros x Hx. unfold F in Hx. now apply filter_In in Hx. }
  change (firstn 5 (t1 :: F)) with (t1 :: firstn 4 F).
  cbn [filter]. rewrite Hp, HF.
  change (firstn 5 (t2 :: firstn 4 F)) with (t2 :: firstn 4 (firstn 4 F)).
  change (firstn 5 (t2 :: F)) with (t2 :: firstn 4 F).
  f_equal. rewrite firstn_firstn. reflexivity.
Qed.

Lemma written_holds (cities : list JsString) :
  holds {| blocked := false; full := false;
           item := Json (VArray (List.map VString cities)) |} cities
  /\ writable {| blocked := false; full := false;
                 item := Json (VArray (List.map VString cities)) |}.
Proof. repeat split. Qed.

(** X1.  A city added again, in whatever letter case, replaces its former
    entry: adding [s1] and then [s2], two names that differ by case and
    surrounding white space only, leaves the store as adding [s2] alone
    does.  In particular adding the same city twice is adding it once. *)
Theorem addRecentCity_again (s1 s2 : JsString) (prior : list JsString)
  (ls : LocalStorage) :
  Str.trim s1 <> [] ->
  Str.trim s2 <> [] ->
  Str.toLowerCase (Str.trim s1) = Str.toLowerCase (Str.trim s2) ->
  holds ls prior ->
  writable ls ->
  (ls1 <- addRecentCity (VString s1) ls ;; addRecentCity (VString s2) ls1)
  = addRecentCity (VString s2) ls.
Proof.
  intros H1 H2 Hsame Hholds Hwritable.
  rewrite (@addRecentCity_writes U s1 prior ls H1 Hholds Hwritable). cbn [bind].
  destruct (written_holds (updated (Str.trim s1) prior)) as [Hholds1 Hwritable1].
  rewrite (@addRecentCity_writes U s2 _ _ H2 Hholds1 Hwritable1).
  rewrite (@addRecentCity_writes U s2 prior ls H2 Hholds Hwritable).
  now rewrite updated_again.
Qed.

Lemma dropCity_outcome (trimmed : JsString) (stored : list JsValue) :
  match dropCity trimmed stored with
  | Normal _ => exists cities, stored = List.map VString cities
  | Throw e => e = TypeError /\ ~ exists cities, stored = List.map VString cities
  end.
Proof.
  induction stored as [|v stored IH].
  - cbn. now exists [].
  - assert (Hother : (forall c, v <> VString c) ->
                     ~ exists cities, v :: stored = List.map VString cities).
    { intros Hv [[|c cities] Heq]; [discriminate|].
      cbn in Heq. injection Heq as Heq _. now apply (Hv c). }
    destruct v as [| | | |c| |]; cbn [dropCity];
      try (split; [reflexivity|apply Hother; intros c; discriminate]).
    destruct (dropCity trimmed stored) as [kept|e]; cbn [bind].
    + destruct IH as [cities ->]. now exists (c :: cities).
    + destruct IH as [-> Hnot]. split; [reflexivity|].
      intros [[|c' cities] Heq]; [discriminate|].
      cbn in Heq. injection Heq as _ Heq. apply Hnot. now exists cities.
Qed.

(** X2.  [addRecentCity] throws exactly when a non-blank city meets a
    stored item that parses to something other than an array of strings,
    and what it throws is a TypeError: the shape of what [JSON.parse]
    returns is never checked. *)
Theorem addRecentCity_throws_iff (city : JsValue) (ls : LocalStorage) (e : JsError) :
  addRecentCity city ls = Throw e <->
  e = TypeError /\
  (exists s, city = VString s /\ Str.trim s <> []) /\
  ~ cityArray (getRecentCities ls).
Proof.
  split.
  - intros H. destruct city as [| | | |s| |]; try discriminate.
    unfold addRecentCity in H.
    destruct (negb (truthy (VString s))); [discriminate|].
    destruct (Str.trim s) as [|c t] eqn:Et; [discriminate|].
    cbn [List.length Nat.eqb] in H.
    assert (Hs : exists s', VString s = VString s' /\ Str.trim s' <> [])
      by (exists s; split; [reflexivity|rewrite Et; discriminate]).
    destruct (getRecentCities ls) as [| | | | |stored|] eqn:Eg;
      try (injection H as <-; split; [reflexivity|]; split; [exact Hs|];
           intros [cities Hc]; discriminate).
    pose proof (dropCity_outcome (c :: t) stored) as Hdrop.
    destruct (dropCity (c :: t) stored) as [kept|e']; [discriminate|].
    cbn [bind] in H. injection H as <-. destruct Hdrop as [-> Hnot].
    split; [reflexivity|]. split; [exact Hs|].
    intros [cities Hc]. injection Hc as ->. apply Hnot. now exists cities.
  - intros (-> & [s [-> Htrim]] & Hnot). unfold addRecentCity.
    destruct s as [|c0 s0]; [now elim Htrim|]. cbn [truthy negb].
    destruct (Str.trim (c0 :: s0)) as [|c t] eqn:Et; [now elim Htrim|].
    cbn [List.length Nat.eqb].
    destruct (getRecentCities ls) as [| | | | |stored|] eqn:Eg; try reflexivity.
    pose proof (dropCity_outcome (c :: t) stored) as Hdrop.
    destruct (dropCity (c :: t) stored) as [kept|e'].
    + exfalso. apply Hnot. destruct Hdrop as [cities ->]. now exists cities.
    + destruct Hdrop as [-> _]. reflexivity.
Qed.

(** X3.  When [localStorage] cannot be accessed the recent list reads as
    empty and adding a city does nothing at all: no exception, no change. *)
Theorem addRecentCity_blocked (city : JsValue) (ls : LocalStorage) :
  blocked ls = true ->
  getRecentCities ls = VArray [] /\
  addRecentCity city ls = Normal ls /\
  clearRecentCities ls = ls.
Proof.
  intros Hblocked.
  assert (Hget : getRecentCities ls = VArray [])
    by (unfold getRecentCities; now rewrite Hblocked).
  split; [exact Hget|]. split.
  - unfold addRecentCity. destruct city as [| | | |s| |]; try reflexivity.
    destruct (negb (truthy (VString s))); [reflexivity|].
    destruct (List.length (Str.trim s) =? 0); [reflexivity|].
    rewrite Hget. cbn [dropCity bind].
    apply f_equal. apply saveCities_refused. now rewrite Hblocked.
  - unfold clearRecentCities. now rewrite Hblocked.
Qed.

End StoreMore.

(** X1 at work: "Paris" then " paris " on a store that holds ["London"]. *)
Lemma addRecentCity_again_witness :
  Str.trim (Str.js "Paris") <> [] /\
  Str.trim (Str.js " paris ") <> [] /\
  Str.toLowerCase (U := Spec.latin1Engine) (Str.trim (Str.js "Paris"))
    = Str.toLowerCase (U := Spec.latin1Engine) (Str.trim (Str.js " paris ")) /\
  Spec.holds (Spec.storeOf [Str.js "London"]) [Str.js "London"] /\
  Spec.writable (Spec.storeOf [Str.js "London"]) /\
  (ls1 <- Storage.addRecentCity (U := Spec.latin1Engine) (VString (Str.js "Paris"))
            (Spec.storeOf [Str.js "London"]) ;;
   Storage.addRecentCity (U := Spec.latin1Engine) (VString (Str.js " paris ")) ls1)
  = Normal (Spec.storeOf [Str.js "paris"; Str.js "London"]).
Proof.
  assert (H1 : Str.trim (Str.js "Paris") <> []) by discriminate.
  assert (H2 : Str.trim (Str.js " paris ") <> []) by discriminate.
  assert (H3 : Str.toLowerCase (U := Spec.latin1Engine) (Str.trim (Str.js "Paris"))
               = Str.toLowerCase (U := Spec.latin1Engine) (Str.trim (Str.js " paris ")))
    by reflexivity.
  assert (H4 : Spec.holds (Spec.storeOf [Str.js "London"]) [Str.js "London"])
    by reflexivity.
  assert (H5 : Spec.writable (Spec.storeOf [Str.js "London"])) by (split; reflexivity).
  repeat (split; [assumption|]).
  rewrite (@addRecentCity_again Spec.latin1Engine (Str.js "Paris") (Str.js " paris ")
             [Str.js "London"] (Spec.storeOf [Str.js "London"]) H1 H2 H3 H4 H5).
  reflexivity.
Defined.

(** X3 at work: a blocked store that still holds a list. *)
Lemma addRecentCity_blocked_witness :
  Storage.blocked (More.storeWith (Storage.Json (VArray [VString (Str.js "Paris")])) true false)
    = true /\
  Storage.addRecentCity (U := Spec.latin1Engine) (VString (Str.js "London"))
    (More.storeWith (Storage.Json (VArray [VString (Str.js "Paris")])) true false)
  = Normal (More.storeWith (Storage.Json (VArray [VString (Str.js "Paris")])) true false).
Proof.
  split; [reflexivity|].
  exact (proj1 (proj2 (@addRecentCity_blocked Spec.latin1Engine
                         (VString (Str.js "London"))
                         (More.storeWith
                            (Storage.Json (VArray [VString (Str.js "Paris")])) true false)
                         eq_refl))).
Defined.

(* ------------------------------------------------------------------ *)
(** * Further properties of the input validator *)

Section ValidatorMore.

Import App Spec.

Lemma trimStart_fixed (t : JsString) :
  (forall c, hd_error t = Some c -> Str.isWhiteSpace c = false) ->
  Str.trimStart t = t.
Proof.
  destruct t as [|c t]; [reflexivity|]. intros H. cbn [Str.trimStart].
  now rewrite (H c eq_refl).
Qed.

Lemma trim_idempotent (s : JsString) : Str.trim (Str.trim s) = Str.trim s.
Proof.
  destruct (trim_trimmedOf s) as (lead & trail & _ & _ & _ & Hhd & Hlast).
  set (t := Str.trim s) in *. unfold Str.trim at 1, Str.trimEnd.
  rewrite (trimStart_fixed t Hhd), (trimStart_fixed (rev t) Hlast).
  apply rev_involutive.
Qed.

(** X4.  Validation is idempotent: the value a validation returns,
    validated again, gives the very same result - the same verdict, the
    same value, the same message. *)
Theorem validateCityInput_idempotent (input : JsString) :
  validateCityInput (value (validateCityInput input)) = validateCityInput input.
Proof.
  assert (Hvalue : value (validateCityInput input) = Str.trim input).
  { unfold validateCityInput.
    destruct (Str.trim input) as [|c t]; [reflexivity|].
    cbn [List.length Nat.eqb].
    destruct (S (List.length t) <? 2); [reflexivity|].
    destruct (100 <? S (List.length t)); [reflexivity|].
    destruct (negb (validPattern_test (c :: t))); reflexivity. }
  rewrite Hvalue. unfold validateCityInput. now rewrite trim_idempotent.
Qed.

End ValidatorMore.

(* ------------------------------------------------------------------ *)
(** * Further properties of the forecast aggregation *)

Section AggregationMore.

Import Forecast Spec More.

(** *** The keys of an object come without repetition *)

Lemma indexKeys_index (ks : list JsString) (x : N * JsString) :
  In x (Obj.indexKeys ks) -> Obj.arrayIndex (snd x) = Some (fst x).
Proof.
  induction ks as [|k ks IH]; [contradiction|].
  cbn [Obj.indexKeys]. destruct (Obj.arrayIndex k) as [i|] eqn:E; [|exact IH].
  intros H. apply insertIndex_In in H. destruct H as [->|H]; [exact E|now apply IH].
Qed.

Lemma insertIndex_NoDup (i : N) (k : JsString) (l : list (N * JsString)) :
  NoDup (List.map snd l) -> ~ In k (List.map snd l) ->
  NoDup (List.map snd (Obj.insertIndex i k l)).
Proof.
  induction l as [|[j k'] l IH]; intros Hnd Hnotin.
  - cbn. constructor; [intros []|constructor].
  - cbn [Obj.insertIndex]. destruct (i <=? j)%N.
    + cbn [List.map snd]. constructor; assumption.
    + cbn [List.map snd] in *. inversion Hnd as [|? ? Hk' Hnd']; subst.
      constructor.
      * intros Hin. apply in_map_iff in Hin. destruct Hin as [x [Hx Hin]].
        apply insertIndex_In in Hin. destruct Hin as [->|Hin].
        { cbn in Hx. subst k'. apply Hnotin. now left. }
        { apply Hk'. apply in_map_iff. now exists x. }
      * apply IH; [assumption|]. intros Hin. apply Hnotin. now right.
Qed.

Lemma indexKeys_NoDup (ks : list JsString) :
  NoDup ks -> NoDup (List.map snd (Obj.indexKeys ks)).
Proof.
  induction 1 as [|k ks Hnotin Hnd IH]; [constructor|].
  cbn [Obj.indexKeys]. destruct (Obj.arrayIndex k) as [i|]; [|exact IH].
  apply insertIndex_NoDup; [exact IH|].
  intros Hin. apply in_map_iff in Hin. destruct Hin as [x [<- Hx]].
  apply Hnotin. now apply indexKeys_In.
Qed.

Lemma keys_NoDup {V} (o : Obj.t V) :
  NoDup (List.map fst o) -> NoDup (Obj.keys o).
Proof.
  intros Hnd. unfold Obj.keys. apply NoDup_app.
  - now apply indexKeys_NoDup.
  - now apply NoDup_filter.
  - intros k Hidx Hnamed. apply in_map_iff in Hidx. destruct Hidx as [x [<- Hx]].
    apply indexKeys_index in Hx. apply filter_In in Hnamed.
    destruct Hnamed as [_ Hnamed]. unfold Obj.isNamed in Hnamed.
    rewrite Hx in Hnamed. discriminate.
Qed.

Lemma NoDup_map_Some {A} (l : list A) : NoDup l -> NoDup (List.map Some l).
Proof.
  induction 1 as [|a l Hnotin Hnd IH]; [constructor|].
  cbn [List.map]. constructor; [|exact IH].
  intros Hin. apply in_map_iff in Hin. destruct Hin as [x [Hx Hin]].
  injection Hx as ->. contradiction.
Qed.

(** Whenever the aggregation returns, its entries are, in order, the
    summaries of the whole day-groups of distinct dates other than
    today's. *)
Lemma aggregate_returns_days (samples : list Entry) (todayKey : JsString)
  (out : list DailyForecast) :
  aggregate samples todayKey = Normal out ->
  exists ks,
    NoDup ks /\
    (forall k, In k ks -> In k (dateKeys samples) /\ k <> todayKey) /\
    Forall2 (fun k d => summarize (dayGroup k samples) = Normal d) ks out.
Proof.
  rewrite aggregate_summarizeAll. intros Hout.
  destruct (forallb fileable samples); [|discriminate].
  set (ks := firstn 5 _) in Hout. exists ks.
  assert (Hks : forall k, In k ks -> In k (dateKeys samples) /\ k <> todayKey).
  { intros k Hk. unfold ks in Hk. apply In_firstn in Hk.
    apply filter_In in Hk. destruct Hk as [Hk Hne].
    apply keys_In in Hk. rewrite groupsOf_keys in Hk. split; [exact Hk|].
    now apply negb_true_iff, StrFacts.eqb_neq in Hne. }
  split; [|split; [exact Hks|]].
  - unfold ks. apply NoDup_firstn, NoDup_filter, keys_NoDup.
    rewrite groupsOf_keys. apply firstSeen_NoDup.
  - exact (@summarizeAll_groups samples ks out (fun k Hk => proj1 (Hks k Hk)) Hout).
Qed.

Lemma Forall2_map_dayOf (samples : list Entry) (ks : list JsString)
  (out : list DailyForecast) :
  Forall2 (fun k d => summarize (dayGroup k samples) = Normal d) ks out ->
  List.map dayOf out = List.map Some ks.
Proof.
  induction 1 as [|k d ks out Hd _ IH]; [reflexivity|].
  cbn [List.map]. now rewrite IH, (summarize_dayOf samples k Hd).
Qed.

(** X5.  Whenever the aggregation returns, no two of its entries bear the
    same date, and the representative of every entry is one of the samples
    it was given. *)
Theorem aggregate_one_entry_per_date (samples : list Entry) (todayKey : JsString)
  (out : list DailyForecast) :
  aggregate samples todayKey = Normal out ->
  NoDup (List.map dayOf out) /\
  forall d, In d out -> In (midday d) samples.
Proof.
  intros Hout.
  destruct (@aggregate_returns_days _ _ _ Hout) as (ks & Hnd & _ & Hdays).
  split.
  - rewrite (@Forall2_map_dayOf _ _ _ Hdays). now apply NoDup_map_Some.
  - intros d Hd.
    destruct (@Forall2_In_r _ _ _ _ _ _ Hdays Hd) as [k [_ Hsum]].
    apply summarize_In in Hsum. now apply filter_In in Hsum.
Qed.

Lemma filter_none {A} (p : A -> bool) (l : list A) :
  (forall x, In x l -> p x = false) -> filter p l = [].
Proof.
  induction l as [|a l IH]; intros H; [reflexivity|].
  cbn [filter]. rewrite (H a (or_introl eq_refl)). apply IH.
  intros x Hx. apply H. now right.
Qed.

(** X6.  Samples dated today are never read beyond their date: an input
    all of whose samples are filed under today's date - the empty input
    among them - aggregates to no entry, without error, even when the time
    of a timestamp is missing or does not parse. *)
Theorem aggregate_today_only (samples : list Entry) (todayKey : JsString) :
  forallb fileable samples = true ->
  (forall e, In e samples -> onDay todayKey e = true) ->
  aggregate samples todayKey = Normal [].
Proof.
  intros Hfile Htoday. rewrite aggregate_summarizeAll, Hfile.
  rewrite filter_none; [reflexivity|].
  intros k Hk. apply keys_In in Hk. rewrite groupsOf_keys in Hk.
  apply dateKeys_In, stamps_In in Hk. destruct Hk as [e [He Hon]].
  specialize (Htoday e He). unfold onDay in *.
  destruct (dt_txt e) as [s|]; [|discriminate].
  apply StrFacts.eqb_eq in Hon, Htoday. subst.
  now rewrite StrFacts.eqb_refl.
Qed.

(** *** The result depends on the selected days only *)

Lemma filter_filter_weaker {A} (p q : A -> bool) (l : list A) :
  (forall x, In x l -> p x = true -> q x = true) ->
  filter p (filter q l) = filter p l.
Proof.
  induction l as [|a l IH]; intros H; [reflexivity|].
  assert (Hl : forall x, In x l -> p x = true -> q x = true)
    by (intros x Hx; apply H; now right).
  cbn [filter]. destruct (q a) eqn:Eq.
  - cbn [filter]. destruct (p a); [f_equal|]; now apply IH.
  - destruct (p a) eqn:Ep; [|now apply IH].
    rewrite (H a (or_introl eq_refl) Ep) in Eq. discriminate.
Qed.

Lemma filter_comm {A} (p q : A -> bool) (l : list A) :
  filter p (filter q l) = filter q (filter p l).
Proof.
  induction l as [|a l IH]; [reflexivity|].
  cbn [filter]. destruct (q a) eqn:Eq, (p a) eqn:Ep; cbn [filter];
    rewrite ?Eq, ?Ep, IH; reflexivity.
Qed.

Lemma firstSeen_filter (p : JsString -> bool) (ks : list JsString) :
  firstSeen (filter p ks) = filter p (firstSeen ks).
Proof.
  induction ks as [|k ks IH]; [reflexivity|].
  cbn [filter firstSeen]. destruct (p k) eqn:Ep.
  - cbn [firstSeen]. rewrite IH. f_equal. apply filter_comm.
  - rewrite IH. symmetry. apply filter_filter_weaker.
    intros x _ Hx. apply negb_true_iff, StrFacts.eqb_neq.
    intros ->. rewrite Hx in Ep. discriminate.
Qed.

Lemma filter_firstn_NoDup (n : nat) (ks : list JsString) :
  NoDup ks ->
  filter (fun x => existsb (Str.eqb x) (firstn n ks)) ks = firstn n ks.
Proof.
  revert ks. induction n as [|n IH]; intros ks Hnd.
  - cbn [firstn existsb]. now apply filter_none.
  - destruct ks as [|k ks]; [reflexivity|].
    inversion Hnd as [|? ? Hnotin Hnd']; subst.
    cbn [firstn filter existsb]. rewrite StrFacts.eqb_refl. cbn [orb]. f_equal.
    transitivity (filter (fun x => existsb (Str.eqb x) (firstn n ks)) ks);
      [|now apply IH].
    apply filter_ext_in.
    intros x Hx. destruct (Str.eqb x k) eqn:E; [|reflexivity].
    apply StrFacts.eqb_eq in E. subst x. contradiction.
Qed.

Lemma onOneOf_stamp (ks : list JsString) (e : Entry) (s : JsString) :
  dt_txt e = Some s -> onOneOf ks e = existsb (Str.eqb (dateKeyOf s)) ks.
Proof.
  intros Hs. unfold onOneOf. induction ks as [|k ks IH]; [reflexivity|].
  cbn [existsb]. rewrite IH. unfold onDay. now rewrite Hs.
Qed.

Lemma stamps_filter (ks : list JsString) (samples : list Entry) :
  stamps (filter (onOneOf ks) samples) =
  filter (fun k => existsb (Str.eqb k) ks) (stamps samples).
Proof.
  induction samples as [|e samples IH]; [reflexivity|].
  cbn [filter]. unfold stamps in *. cbn [flat_map].
  destruct (dt_txt e) as [s|] eqn:Es.
  - rewrite (onOneOf_stamp ks e Es). cbn [app filter].
    destruct (existsb (Str.eqb (dateKeyOf s)) ks).
    + cbn [flat_map]. rewrite Es, IH. reflexivity.
    + exact IH.
  - assert (Hno : onOneOf ks e = false).
    { unfold onOneOf. apply not_true_is_false. intros H.
      apply existsb_exists in H. destruct H as [k [_ Hk]].
      unfold onDay in Hk. rewrite Es in Hk. discriminate. }
    rewrite Hno. exact IH.
Qed.

Lemma dated_fileable (samples : list Entry) :
  forallb dated samples = true -> forallb fileable samples = true.
Proof.
  intros H. rewrite forallb_forall in *. intros e He. specialize (H e He).
  unfold dated in H. unfold fileable. destruct (dt_txt e) as [s|]; [|discriminate].
  destruct (calendarDate (dateKeyOf s)) as [d|] eqn:E; [|discriminate].
  now rewrite (calendarDate_not_inherited _ E).
Qed.

Lemma dated_keys (samples : list Entry) :
  forallb dated samples = true ->
  Obj.keys (groupsOf samples) = dateKeys samples.
Proof.
  intros H. rewrite keys_named; rewrite groupsOf_keys; [reflexivity|].
  apply forallb_forall. intros k Hk.
  apply dateKeys_In, stamps_In in Hk. destruct Hk as [e [He Hon]].
  rewrite forallb_forall in H. specialize (H e He).
  unfold dated in H. unfold onDay in Hon.
  destruct (dt_txt e) as [s|]; [|discriminate].
  apply StrFacts.eqb_eq in Hon. subst k.
  destruct (calendarDate (dateKeyOf s)) as [d|] eqn:E; [|discriminate].
  exact (calendarDate_named _ E).
Qed.

Lemma summarizeAll_ext (m1 m2 : Obj.t (list Entry)) (ks : list JsString) :
  (forall k, In k ks -> Obj.get m1 k = Obj.get m2 k) ->
  summarizeAll m1 ks = summarizeAll m2 ks.
Proof.
  induction ks as [|k ks IH]; intros H; [reflexivity|].
  cbn [summarizeAll]. rewrite (H k (or_introl eq_refl)), IH; [reflexivity|].
  intros k' Hk'. apply H. now right.
Qed.

Lemma forallb_filter {A} (p q : A -> bool) (l : list A) :
  forallb p l = true -> forallb p (filter q l) = true.
Proof.
  intros H. rewrite forallb_forall in *. intros x Hx.
  apply filter_In in Hx. now apply H.
Qed.

Lemma selected_dateKeys (samples : list Entry) (todayKey : JsString) :
  filter (fun k => negb (Str.eqb k todayKey)) (dateKeys (selected todayKey samples))
  = days todayKey samples.
Proof.
  unfold selected, dateKeys. rewrite stamps_filter, firstSeen_filter, filter_comm.
  unfold days, dateKeys. apply filter_firstn_NoDup.
  apply NoDup_filter, firstSeen_NoDup.
Qed.

(** X7.  The forecast depends on the samples of the days that get a card
    and on no other: on samples whose timestamps start with a calendar
    date, leaving out today's samples and those of the dates after the
    fifth changes nothing to the result, be it the entries or the
    exception. *)
Theorem aggregate_selected (samples : list Entry) (todayKey : JsString) :
  forallb dated samples = true ->
  aggregate (selected todayKey samples) todayKey = aggregate samples todayKey.
Proof.
  intros Hdated.
  assert (Hdated' : forallb dated (selected todayKey samples) = true)
    by now apply forallb_filter.
  rewrite !aggregate_summarizeAll.
  rewrite (dated_fileable _ Hdated), (dated_fileable _ Hdated').
  rewrite (dated_keys _ Hdated), (dated_keys _ Hdated').
  rewrite selected_dateKeys. fold (days todayKey samples).
  assert (Hlen : firstn 5 (days todayKey samples) = days todayKey samples).
  { apply firstn_all2. unfold days. apply firstn_le_length. }
  rewrite Hlen. apply summarizeAll_ext. intros k Hk.
  assert (Hin : In k (dateKeys samples)).
  { unfold days in Hk. apply In_firstn in Hk. now apply filter_In in Hk. }
  assert (Hgroup : dayGroup k (selected todayKey samples) = dayGroup k samples).
  { unfold dayGroup, selected. apply filter_filter_weaker.
    intros e _ He. unfold onOneOf. apply existsb_exists. now exists k. }
  assert (Hin' : In k (dateKeys (selected todayKey samples))).
  { apply dateKeys_In, stamps_In. apply dateKeys_In, stamps_In in Hin.
    destruct Hin as [e [He Hon]]. exists e. split; [|exact Hon].
    unfold selected. apply filter_In. split; [exact He|].
    unfold onOneOf. apply existsb_exists. now exists k. }
  now rewrite (groupsOf_get _ k Hin'), (groupsOf_get _ k Hin), Hgroup.
Qed.

Lemma summarize_extremes (entries : list Entry) (d : DailyForecast) :
  summarize entries = Normal d ->
  entries <> [] /\
  tempMin d = runningMin (minima entries) Infinity /\
  tempMax d = runningMax (maxima entries) NegInfinity.
Proof.
  unfold summarize. destruct entries as [|first rest]; [discriminate|].
  destruct (closestToNoon (first :: rest) first Infinity) as [r|]; [|discriminate].
  cbn [bind]. rewrite extremes_running. intros H. injection H as <-.
  split; [discriminate|]. split; reflexivity.
Qed.

(** X8.  Whenever the aggregation returns on samples with finite bounds,
    the range shown for a day encloses the bounds of the sample that
    stands for the day: the day's minimum is at most the representative's
    [temp_min], the day's maximum at least its [temp_max]. *)
Theorem aggregate_range_encloses_representative (samples : list Entry)
  (todayKey : JsString) (out : list DailyForecast) :
  aggregate samples todayKey = Normal out ->
  forallb finiteBounds samples = true ->
  forall d, In d out ->
    exists lo hi rlo rhi,
      tempMin d = Fin lo /\ tempMax d = Fin hi /\
      temp_min (main (midday d)) = Fin rlo /\
      temp_max (main (midday d)) = Fin rhi /\
      (lo <= rlo)%Q /\ (rhi <= hi)%Q.
Proof.
  intros Hout Hfin d Hd.
  destruct (@aggregate_returns_days _ _ _ Hout) as (ks & _ & _ & Hdays).
  destruct (@Forall2_In_r _ _ _ _ _ _ Hdays Hd) as [k [_ Hsum]].
  destruct (@summarize_extremes _ _ Hsum) as (Hne & Hmin & Hmax).
  pose proof (summarize_In _ Hsum) as Hrep.
  destruct (@finite_minima samples k Hfin) as [Hlo Hhi].
  destruct (@runningMin_least (minima (dayGroup k samples))) as (_ & lo & Elo & Hleast);
    [unfold minima; intros Hnil; apply map_eq_nil in Hnil; contradiction|exact Hlo|].
  destruct (@runningMax_greatest (maxima (dayGroup k samples))) as (_ & hi & Ehi & Hmost);
    [unfold maxima; intros Hnil; apply map_eq_nil in Hnil; contradiction|exact Hhi|].
  destruct (Hleast (temp_min (main (midday d)))) as (rlo & Erlo & Hle);
    [apply in_map_iff; now exists (midday d)|].
  destruct (Hmost (temp_max (main (midday d)))) as (rhi & Erhi & Hge);
    [apply in_map_iff; now exists (midday d)|].
  exists lo, hi, rlo, rhi. rewrite Hmin, Hmax. now repeat split.
Qed.

End AggregationMore.

(** X5 at work, on today and five more days of samples. *)
Lemma aggregate_one_entry_per_date_witness :
  exists out,
    Forecast.aggregate Spec.sixDays (Str.js "2024-01-01") = Normal out /\
    NoDup (List.map Spec.dayOf out) /\
    forall d, In d out -> In (midday d) Spec.sixDays.
Proof.
  assert (E : exists out,
    Forecast.aggregate Spec.sixDays (Str.js "2024-01-01") = Normal out)
    by (vm_compute; eexists; reflexivity).
  destruct E as [out E]. exists out. split; [exact E|].
  exact (@aggregate_one_entry_per_date Spec.sixDays (Str.js "2024-01-01") out E).
Defined.

(** X6 at work: two samples of today, neither with a readable time. *)
Lemma aggregate_today_only_witness :
  Forecast.aggregate
    [Spec.sample "2024-01-01" 1 2; Spec.sample "2024-01-01 noon" 3 4]
    (Str.js "2024-01-01") = Normal [].
Proof.
  apply aggregate_today_only; [vm_compute; reflexivity|].
  intros e [<-|[<-|[]]]; vm_compute; reflexivity.
Defined.

(** X7 at work: seven days of samples, of which today's and the last
    day's are left out. *)
Lemma aggregate_selected_witness :
  let samples := (Spec.sixDays ++ Spec.threeHourly "2024-01-07")%list in
  forallb More.dated samples = true /\
  List.length (More.selected (Str.js "2024-01-01") samples) = 40 /\
  Forecast.aggregate (More.selected (Str.js "2024-01-01") samples) (Str.js "2024-01-01")
  = Forecast.aggregate samples (Str.js "2024-01-01").
Proof.
  intros samples.
  assert (H : forallb More.dated samples = true) by (vm_compute; reflexivity).
  split; [exact H|]. split; [vm_compute; reflexivity|].
  exact (@aggregate_selected samples (Str.js "2024-01-01") H).
Defined.

(** X8 at work, on one day of samples. *)
Lemma aggregate_range_encloses_representative_witness :
  forallb Spec.finiteBounds Spec.oneDay = true /\
  exists out,
    Forecast.aggregate Spec.oneDay (Str.js "2024-01-01") = Normal out /\
    out <> [] /\
    forall d, In d out ->
      exists lo hi rlo rhi,
        tempMin d = Fin lo /\ tempMax d = Fin hi /\
        temp_min (main (midday d)) = Fin rlo /\
        temp_max (main (midday d)) = Fin rhi /\
        (lo <= rlo)%Q /\ (rhi <= hi)%Q.
Proof.
  assert (H : forallb Spec.finiteBounds Spec.oneDay = true) by (vm_compute; reflexivity).
  assert (E : exists out,
    Forecast.aggregate Spec.oneDay (Str.js "2024-01-01") = Normal out /\ out <> [])
    by (vm_compute; eexists; split; [reflexivity|discriminate]).
  destruct E as [out [E Hne]]. split; [exact H|]. exists out.
  split; [exact E|]. split; [exact Hne|].
  exact (@aggregate_range_encloses_representative
           Spec.oneDay (Str.js "2024-01-01") out E H).
Defined.

(* ------------------------------------------------------------------ *)
(** * Further properties of the backdrop and of the alert banner *)

Section BackdropMore.

Context {U : Str.Unicode}.

Import UI Spec More.

Lemma classMap_own_theme (night : bool) (lower cls : JsString) :
  Obj.getOwn (classMap night) lower = Some cls ->
  Str.startsWith (Str.js "weather-") cls = true /\ wsFree cls = true.
Proof.
  unfold classMap. cbn [Obj.getOwn].
  repeat match goal with
  | |- context [Str.eqb (Str.js ?s) lower] =>
      destruct (Str.eqb (Str.js s) lower);
      [ intros H; injection H as <-; destruct night; split; reflexivity | ]
  end.
  discriminate.
Qed.

(** The theme a call adds is a weather class without white space, and
    there is one at most. *)
Lemma themeTokens_valid (condition icon : JsString) :
  (List.length (themeTokens condition icon) <= 1)%nat /\
  forall w, In w (themeTokens condition icon) ->
    notTheme w = false /\ ClassAttr.nonEmpty w = true /\ wsFree w = true.
Proof.
  unfold themeTokens, Obj.get.
  destruct (Obj.getOwn _ _) as [cls|] eqn:E.
  - split; [cbn; lia|]. intros w [<-|[]].
    destruct (classMap_own_theme _ _ E) as [Hw Hfree].
    unfold notTheme. rewrite Hw. repeat split; [|exact Hfree].
    destruct cls; [discriminate Hw|reflexivity].
  - destruct (Obj.isInherited _).
    + split; [cbn; lia|]. intros w [].
    + split; [cbn; lia|]. intros w [<-|[]]. repeat split.
Qed.

(** *** Splitting and joining *)

Lemma split_splitOn (sep : N) (s : JsString) :
  Str.split sep s = ClassAttr.splitOn (fun c => (c =? sep)%N) s.
Proof.
  induction s as [|c s IH]; [reflexivity|].
  cbn [Str.split ClassAttr.splitOn]. now rewrite IH.
Qed.

Lemma splitOn_ext (p q : N -> bool) (s : JsString) :
  (forall c, In c s -> p c = q c) ->
  ClassAttr.splitOn p s = ClassAttr.splitOn q s.
Proof.
  induction s as [|c s IH]; intros H; [reflexivity|].
  cbn [ClassAttr.splitOn]. rewrite (H c (or_introl eq_refl)), IH; [reflexivity|].
  intros c' Hc'. apply H. now right.
Qed.

Lemma splitOn_free (p : N -> bool) (s : JsString) :
  Forall (fun piece => forallb (fun c => negb (p c)) piece = true)
    (ClassAttr.splitOn p s).
Proof.
  induction s as [|c s IH]; [repeat constructor|].
  cbn [ClassAttr.splitOn]. destruct (p c) eqn:E; [constructor; [reflexivity|exact IH]|].
  destruct (ClassAttr.splitOn p s) as [|piece rest]; [repeat constructor; cbn; now rewrite E|].
  inversion IH as [|? ? Hpiece Hrest]; subst. constructor; [|exact Hrest].
  cbn [forallb]. now rewrite E, Hpiece.
Qed.

Lemma splitOn_piece (p : N -> bool) (piece : JsString) :
  forallb (fun c => negb (p c)) piece = true ->
  ClassAttr.splitOn p piece = [piece].
Proof.
  induction piece as [|c piece IH]; [reflexivity|].
  cbn [forallb]. intros H. apply andb_true_iff in H. destruct H as [Hc H].
  apply negb_true_iff in Hc. cbn [ClassAttr.splitOn]. now rewrite Hc, (IH H).
Qed.

Lemma splitOn_app (p : N -> bool) (piece rest : JsString) (sep : N) :
  forallb (fun c => negb (p c)) piece = true ->
  p sep = true ->
  ClassAttr.splitOn p (piece ++ sep :: rest) = piece :: ClassAttr.splitOn p rest.
Proof.
  intros Hfree Hsep. induction piece as [|c piece IH].
  - cbn [app ClassAttr.splitOn]. now rewrite Hsep.
  - cbn [forallb] in Hfree. apply andb_true_iff in Hfree. destruct Hfree as [Hc H].
    apply negb_true_iff in Hc. cbn [app ClassAttr.splitOn]. now rewrite Hc, (IH H).
Qed.

(** Splitting what was joined gives the pieces back. *)
Lemma splitOn_join (p : N -> bool) (sep : N) (pieces : list JsString) :
  p sep = true ->
  pieces <> [] ->
  Forall (fun piece => forallb (fun c => negb (p c)) piece = true) pieces ->
  ClassAttr.splitOn p (ClassAttr.join sep pieces) = pieces.
Proof.
  intros Hsep Hne Hall. induction Hall as [|piece rest Hpiece Hrest IH];
    [now elim Hne|].
  destruct rest as [|next rest].
  - cbn [ClassAttr.join]. now apply splitOn_piece.
  - cbn [ClassAttr.join]. rewrite splitOn_app by assumption.
    f_equal. apply IH. discriminate.
Qed.

Lemma nonEmpty_splitOn_join (p : N -> bool) (sep : N) (pieces : list JsString) :
  p sep = true ->
  Forall (fun piece => forallb (fun c => negb (p c)) piece = true) pieces ->
  filter ClassAttr.nonEmpty (ClassAttr.splitOn p (ClassAttr.join sep pieces))
  = filter ClassAttr.nonEmpty pieces.
Proof.
  intros Hsep Hall. destruct pieces as [|piece rest]; [reflexivity|].
  rewrite splitOn_join; [reflexivity|exact Hsep|discriminate|exact Hall].
Qed.

Lemma firstSeen_fixed (ks : list JsString) : NoDup ks -> firstSeen ks = ks.
Proof.
  induction 1 as [|k ks Hnotin Hnd IH]; [reflexivity|].
  cbn [firstSeen]. rewrite IH. f_equal.
  apply forallb_filter_id, forallb_forall. intros x Hx.
  apply negb_true_iff, StrFacts.eqb_neq. intros ->. contradiction.
Qed.

(** *** The tokens of the attribute *)

Lemma tokensOf_canonical (text : JsString) : canonical (ClassAttr.tokensOf text).
Proof.
  unfold ClassAttr.tokensOf. split; [apply firstSeen_NoDup|].
  intros t Ht. rewrite firstSeen_In in Ht. apply filter_In in Ht.
  destruct Ht as [Ht Hne]. split; [exact Hne|].
  pose proof (splitOn_free ClassAttr.isAsciiWhitespace text) as Hfree.
  rewrite Forall_forall in Hfree. exact (Hfree t Ht).
Qed.

Lemma canonical_free (tokens : list JsString) :
  canonical tokens ->
  Forall (fun piece =>
            forallb (fun c => negb (ClassAttr.isAsciiWhitespace c)) piece = true)
    tokens.
Proof. intros [_ H]. apply Forall_forall. intros t Ht. now apply H. Qed.

(** The tokens of a canonical list, joined by spaces, are read back as
    they are. *)
Lemma tokensOf_join (tokens : list JsString) :
  canonical tokens -> ClassAttr.tokensOf (ClassAttr.join 32 tokens) = tokens.
Proof.
  intros Hcan. unfold ClassAttr.tokensOf.
  rewrite nonEmpty_splitOn_join; [|reflexivity|now apply canonical_free].
  rewrite forallb_filter_id.
  - apply firstSeen_fixed, Hcan.
  - apply forallb_forall. intros t Ht. now apply Hcan.
Qed.

Lemma spaced_split (text : JsString) :
  spaced text = true ->
  ClassAttr.splitOn ClassAttr.isAsciiWhitespace text = Str.split 32 text.
Proof.
  intros Hsp. rewrite split_splitOn. apply splitOn_ext. intros c Hc.
  unfold spaced in Hsp. rewrite forallb_forall in Hsp. specialize (Hsp c Hc).
  destruct (c =? 32)%N eqn:E.
  - apply N.eqb_eq in E. now subst c.
  - rewrite orb_false_r in Hsp. now apply negb_true_iff in Hsp.
Qed.

Lemma spaced_join (pieces : list JsString) :
  Forall (fun piece => wsFree piece = true) pieces ->
  spaced (ClassAttr.join 32 pieces) = true.
Proof.
  assert (Hfree : forall piece, wsFree piece = true -> spaced piece = true).
  { intros piece H. unfold spaced, wsFree in *. rewrite forallb_forall in *.
    intros c Hc. now rewrite (H c Hc). }
  induction 1 as [|piece rest Hpiece Hrest IH]; [reflexivity|].
  destruct rest as [|next rest]; [now apply Hfree|].
  cbn [ClassAttr.join]. unfold spaced in *. rewrite forallb_app.
  rewrite (Hfree piece Hpiece). cbn [forallb andb]. exact IH.
Qed.

(** On an attribute whose tokens are separated by spaces, what the code
    clears are the theme tokens. *)
Lemma cleared_tokens (text : JsString) :
  spaced text = true ->
  ClassAttr.tokensOf (ClassAttr.join 32 (filter notTheme (Str.split 32 text)))
  = filter notTheme (ClassAttr.tokensOf text).
Proof.
  intros Hsp. unfold ClassAttr.tokensOf.
  pose proof (splitOn_free ClassAttr.isAsciiWhitespace text) as Hfree.
  rewrite (spaced_split text Hsp) in *.
  rewrite nonEmpty_splitOn_join; [|reflexivity|].
  - rewrite <- firstSeen_filter. f_equal. apply filter_comm.
  - rewrite Forall_forall in *. intros t Ht. apply filter_In in Ht. now apply Hfree.
Qed.

Lemma cleared_spaced (text : JsString) :
  spaced text = true ->
  spaced (ClassAttr.join 32 (filter notTheme (Str.split 32 text))) = true.
Proof.
  intros Hsp. apply spaced_join.
  pose proof (splitOn_free ClassAttr.isAsciiWhitespace text) as Hfree.
  rewrite (spaced_split text Hsp) in Hfree.
  rewrite Forall_forall in *. intros t Ht. apply filter_In in Ht.
  now apply Hfree.
Qed.

(** [classList.add] of a valid token that is not there. *)
Lemma classListAdd_tokens (w text : JsString) :
  ClassAttr.nonEmpty w = true ->
  wsFree w = true ->
  ~ In w (ClassAttr.tokensOf text) ->
  ClassAttr.tokensOf (ClassAttr.classListAdd w text) = ClassAttr.tokensOf text ++ [w] /\
  spaced (ClassAttr.classListAdd w text) = true.
Proof.
  intros Hne Hfree Hnotin. unfold ClassAttr.classListAdd.
  rewrite (proj2 (existsb_eqb_notIn _ _) Hnotin).
  destruct (tokensOf_canonical text) as [Hnd Hvalid].
  assert (Hcan : canonical (ClassAttr.tokensOf text ++ [w])).
  { split.
    - apply NoDup_app; [exact Hnd|repeat constructor; intros []|].
      intros t Ht [<-|[]]. contradiction.
    - intros t Ht. apply in_app_iff in Ht. destruct Ht as [Ht|[<-|[]]];
        [now apply Hvalid|now split]. }
  split; [now apply tokensOf_join|].
  apply spaced_join, Forall_forall. intros t Ht. now apply Hcan.
Qed.

(** What a call of [updateBackground] leaves on an attribute whose tokens
    are separated by spaces: the tokens that are no themes, in their
    order, then the theme of the call. *)
Lemma updateBackground_tokens (condition icon : JsString) (b : ClassAttr.Body) :
  spaced (ClassAttr.className b) = true ->
  let b' := fst (ClassAttr.updateBackground condition icon b) in
  ClassAttr.tokensOf (ClassAttr.className b') =
    filter notTheme (ClassAttr.tokensOf (ClassAttr.className b))
    ++ themeTokens condition icon /\
  spaced (ClassAttr.className b') = true.
Proof.
  intros Hsp b'. subst b'.
  pose proof (themeTokens_valid condition icon) as [_ Hvalid].
  pose proof (cleared_tokens _ Hsp) as Hcleared.
  pose proof (cleared_spaced _ Hsp) as Hspaced.
  unfold ClassAttr.updateBackground, themeTokens in *.
  fold notTheme.
  destruct (Obj.get _ _) as [cls| |]; cbn [fst ClassAttr.className].
  - destruct (Hvalid cls (or_introl eq_refl)) as (Hw & Hne & Hfree).
    rewrite <- Hcleared. apply classListAdd_tokens; [exact Hne|exact Hfree|].
    rewrite Hcleared. intros Hin. apply filter_In in Hin.
    destruct Hin as [_ Hin]. rewrite Hw in Hin. discriminate.
  - rewrite app_nil_r. split; assumption.
  - destruct (Hvalid _ (or_introl eq_refl)) as (Hw & Hne & Hfree).
    rewrite <- Hcleared. apply classListAdd_tokens; [exact Hne|exact Hfree|].
    rewrite Hcleared. intros Hin. apply filter_In in Hin.
    destruct Hin as [_ Hin]. rewrite Hw in Hin. discriminate.
Qed.

Lemma updateBackground_outcome (condition icon : JsString) (b1 b2 : ClassAttr.Body) :
  ClassAttr.overlays (fst (ClassAttr.updateBackground condition icon b1)) =
  ClassAttr.overlays (fst (ClassAttr.updateBackground condition icon b2)) /\
  snd (ClassAttr.updateBackground condition icon b1) =
  snd (ClassAttr.updateBackground condition icon b2).
Proof.
  unfold ClassAttr.updateBackground. destruct (Obj.get _ _); split; reflexivity.
Qed.

Lemma filter_themes (tokens theme : list JsString) :
  (forall w, In w theme -> notTheme w = false) ->
  filter notTheme (filter notTheme tokens ++ theme) = filter notTheme tokens.
Proof.
  intros Htheme. rewrite filter_app, (@filter_none _ _ theme) by exact Htheme.
  rewrite app_nil_r. apply filter_filter_weaker. auto.
Qed.

(** On the text of the attribute as on its tokens, the condition
    [constructor] makes the call throw, after the overlays are removed. *)
Lemma updateBackground_text_constructor_throws (b : ClassAttr.Body) :
  snd (ClassAttr.updateBackground (Str.js "constructor") (Str.js "01d") b)
    = Throw InvalidCharacterError /\
  ClassAttr.overlays
    (fst (ClassAttr.updateBackground (Str.js "constructor") (Str.js "01d") b)) = [].
Proof.
  unfold ClassAttr.updateBackground.
  change (Str.toLowerCase (Str.js "constructor")) with (Str.js "constructor").
  change (Obj.get (classMap (isNightIcon (Str.js "01d"))) (Str.js "constructor"))
    with (@Obj.Inherited JsString).
  split; reflexivity.
Qed.

(** X9.  On a page whose class attribute separates its tokens by spaces,
    the last update of the backdrop wins: whatever an earlier call of
    [updateBackground] did - an earlier call that threw included - the next
    call leaves the same classes on the body and the same overlays, and
    ends in the same way, as if the earlier call had not been made.  (A
    class attribute with a tab or a line feed in it keeps its old theme
    through the first call and loses it in the second.) *)
Theorem updateBackground_overwrites (c1 i1 c2 i2 : JsString) (b : ClassAttr.Body) :
  spaced (ClassAttr.className b) = true ->
  let twice :=
    ClassAttr.updateBackground c2 i2 (fst (ClassAttr.updateBackground c1 i1 b)) in
  let once := ClassAttr.updateBackground c2 i2 b in
  ClassAttr.tokensOf (ClassAttr.className (fst twice)) =
    ClassAttr.tokensOf (ClassAttr.className (fst once)) /\
  ClassAttr.overlays (fst twice) = ClassAttr.overlays (fst once) /\
  snd twice = snd once.
Proof.
  intros Hsp twice once. subst twice once.
  destruct (updateBackground_tokens c1 i1 b Hsp) as [H1 Hsp1].
  destruct (updateBackground_tokens c2 i2 _ Hsp1) as [H12 _].
  destruct (updateBackground_tokens c2 i2 b Hsp) as [H2 _].
  split; [|apply updateBackground_outcome].
  rewrite H12, H2, H1. f_equal. apply filter_themes.
  intros w Hw. now apply (themeTokens_valid c1 i1).
Qed.

(** X10.  On a page whose class attribute separates its tokens by
    spaces, [updateBackground] touches weather themes only: the other
    classes of the body stay, in their order and ahead of the theme, and
    of the themes only that of the call is left - one class at most -
    whatever the condition and the icon and however the call ends. *)
Theorem updateBackground_keeps_other_classes (condition icon : JsString)
  (b : ClassAttr.Body) :
  spaced (ClassAttr.className b) = true ->
  let b' := fst (ClassAttr.updateBackground condition icon b) in
  ClassAttr.tokensOf (ClassAttr.className b') =
    filter notTheme (ClassAttr.tokensOf (ClassAttr.className b))
    ++ themeTokens condition icon /\
  filter notTheme (ClassAttr.tokensOf (ClassAttr.className b')) =
    filter notTheme (ClassAttr.tokensOf (ClassAttr.className b)) /\
  filter (fun cls => negb (notTheme cls)) (ClassAttr.tokensOf (ClassAttr.className b')) =
    themeTokens condition icon /\
  (List.length (themeTokens condition icon) <= 1)%nat.
Proof.
  intros Hsp b'. subst b'.
  destruct (updateBackground_tokens condition icon b Hsp) as [Htokens _].
  destruct (themeTokens_valid condition icon) as [Hlen Hvalid].
  split; [exact Htokens|]. rewrite Htokens. split; [|split; [|exact Hlen]].
  - apply filter_themes. intros w Hw. now apply Hvalid.
  - rewrite filter_app, filter_none.
    + cbn [app]. apply forallb_filter_id, forallb_forall. intros w Hw.
      destruct (Hvalid w Hw) as [-> _]. reflexivity.
    + intros w Hw. apply filter_In in Hw. destruct Hw as [_ ->]. reflexivity.
Qed.

Lemma classListAdd_theme (w : JsString) (classes : list JsString) :
  notTheme w = false ->
  classListAdd w (filter notTheme classes) = filter notTheme classes ++ [w].
Proof.
  intros Hw. unfold classListAdd.
  destruct (existsb _ _) eqn:E; [|reflexivity].
  apply existsb_exists in E. destruct E as [x [Hx Heq]].
  apply StrFacts.eqb_eq in Heq. subst x. apply filter_In in Hx.
  destruct Hx as [_ Hx]. rewrite Hw in Hx. discriminate.
Qed.

(** The two embeddings of [updateBackground] agree: on an attribute as
    [classList] writes it, the call on the text leaves the tokens, the
    overlays and the outcome that the call on the tokens leaves. *)
Lemma updateBackground_on_tokens (condition icon : JsString)
  (tokens : list JsString) (particles : list Particle) :
  canonical tokens ->
  let onTokens :=
    UI.updateBackground condition icon
      {| bodyClass := tokens; UI.overlays := particles |} in
  let onText :=
    ClassAttr.updateBackground condition icon
      {| ClassAttr.className := ClassAttr.join 32 tokens;
         ClassAttr.overlays := particles |} in
  ClassAttr.tokensOf (ClassAttr.className (fst onText)) = bodyClass (fst onTokens) /\
  ClassAttr.overlays (fst onText) = UI.overlays (fst onTokens) /\
  snd onText = snd onTokens.
Proof.
  intros Hcan onTokens onText. subst onTokens onText.
  assert (Hsp : spaced (ClassAttr.join 32 tokens) = true).
  { apply spaced_join, Forall_forall. intros t Ht. now apply Hcan. }
  destruct (updateBackground_tokens condition icon
              {| ClassAttr.className := ClassAttr.join 32 tokens;
                 ClassAttr.overlays := particles |} Hsp) as [Htokens _].
  cbn [ClassAttr.className] in Htokens. rewrite (tokensOf_join Hcan) in Htokens.
  rewrite Htokens. clear Htokens.
  pose proof (themeTokens_valid condition icon) as [_ Hvalid].
  unfold UI.updateBackground, ClassAttr.updateBackground, themeTokens in *.
  fold notTheme.
  destruct (Obj.get _ _) as [cls| |]; cbn [fst snd bodyClass UI.overlays ClassAttr.overlays].
  - destruct (Hvalid cls (or_introl eq_refl)) as (Hw & _).
    rewrite classListAdd_theme by exact Hw. repeat split.
  - rewrite app_nil_r. repeat split.
  - rewrite classListAdd_theme by reflexivity. repeat split.
Qed.


(** X11.  The heat warning sets no background of its own: shown right
    after a cold warning it keeps the blue of the cold warning, shown after
    a reading that raises no alert it has the background of the style
    sheet. *)
Theorem checkWeatherAlert_heat_after (t1 t2 : number) (a : AlertBanner) :
  Num.gt t2 (ofZ 40) = true ->
  Num.gt t1 (ofZ 40) = false ->
  alertBackground (checkWeatherAlert t2 (checkWeatherAlert t1 a)) =
    if Num.lt t1 (ofZ (-20)) then coldBlue else ""%string.
Proof.
  intros H2 H1. unfold checkWeatherAlert. rewrite H2, H1.
  destruct (Num.lt t1 (ofZ (-20))); reflexivity.
Qed.

End BackdropMore.

(** X9 at work: a call that throws, then a call for a clear sky, on the
    attribute of a page with one class of its own. *)
Lemma updateBackground_overwrites_witness :
  let b := {| ClassAttr.className := Str.js "min-h-screen weather-default";
              ClassAttr.overlays := [] |} in
  More.spaced (ClassAttr.className b) = true /\
  let twice :=
    ClassAttr.updateBackground (U := Spec.latin1Engine) (Str.js "Clear") (Str.js "01d")
      (fst (ClassAttr.updateBackground (U := Spec.latin1Engine)
              (Str.js "constructor") (Str.js "01d") b)) in
  let once :=
    ClassAttr.updateBackground (U := Spec.latin1Engine) (Str.js "Clear") (Str.js "01d") b in
  ClassAttr.tokensOf (ClassAttr.className (fst twice)) =
    ClassAttr.tokensOf (ClassAttr.className (fst once)) /\
  ClassAttr.overlays (fst twice) = ClassAttr.overlays (fst once) /\
  snd twice = snd once.
Proof.
  intros b. split; [reflexivity|].
  exact (@updateBackground_overwrites Spec.latin1Engine
           (Str.js "constructor") (Str.js "01d") (Str.js "Clear") (Str.js "01d")
           b eq_refl).
Defined.

(** X10 at work: rain over a page with two classes of its own. *)
Lemma updateBackground_keeps_other_classes_witness :
  let b := {| ClassAttr.className := Str.js "min-h-screen weather-default dark";
              ClassAttr.overlays := [] |} in
  More.spaced (ClassAttr.className b) = true /\
  ClassAttr.tokensOf
    (ClassAttr.className
       (fst (ClassAttr.updateBackground (U := Spec.latin1Engine)
               (Str.js "Rain") (Str.js "10n") b)))
  = [Str.js "min-h-screen"; Str.js "dark"; Str.js "weather-rain"].
Proof.
  intros b. split; [reflexivity|].
  exact (proj1 (@updateBackground_keeps_other_classes Spec.latin1Engine
                  (Str.js "Rain") (Str.js "10n") b eq_refl)).
Defined.

(** Why X9 and X10 ask for spaces: the code splits [className] at spaces
    only.  When a line feed separates the classes of the body, the old
    theme is part of a piece that does not start with [weather-]; it
    stays, and the body ends with two themes. *)
Example updateBackground_keeps_theme_after_line_feed :
  let b := {| ClassAttr.className :=
                Str.js "min-h-screen" ++ [10%N] ++ Str.js "weather-default";
              ClassAttr.overlays := [] |} in
  More.spaced (ClassAttr.className b) = false /\
  ClassAttr.className
    (fst (ClassAttr.updateBackground (U := Spec.latin1Engine)
            (Str.js "Clear") (Str.js "01d") b))
  = Str.js "min-h-screen weather-default weather-clear".
Proof. vm_compute. split; reflexivity. Qed.

(** X11 at work: 41 degrees right after -30 degrees. *)
Lemma checkWeatherAlert_heat_after_witness :
  UI.alertBackground
    (UI.checkWeatherAlert (ofZ 41)
       (UI.checkWeatherAlert (ofZ (-30))
          {| UI.alertMessage := UI.NoAlertText; UI.alertHidden := true;
             UI.alertBackground := "" |}))
  = More.coldBlue.
Proof.
  exact (@checkWeatherAlert_heat_after (ofZ (-30)) (ofZ 41) _ eq_refl eq_refl).
Defined.

(* ------------------------------------------------------------------ *)
(** * Further properties of the lookups *)

Section LookupMore.

Context {U : Str.Unicode} {E : Events.Engine}.

Import App Events Spec More.

(** *** Statements that show no toast *)

Lemma quiet_seq {A B} (m : Eff A) (k : A -> Eff B) :
  quiet m -> (forall a, quiet (k a)) -> quiet (seq m k).
Proof.
  intros Hm Hk w. unfold seq. specialize (Hm w).
  destruct (m w) as [w1 [a|e]]; cbn [fst] in *; [|exact Hm].
  destruct (Hk a w1) as (H1 & H2 & H3). destruct Hm as (G1 & G2 & G3).
  repeat split; congruence.
Qed.

Lemma quiet_remember (n : number) :
  quiet (fun w => (withFeelsLike n w, Normal tt)).
Proof. intros w. repeat split. Qed.

Lemma quiet_renderCurrentWeather (data : CurrentData) :
  quiet (onPageE (UI.renderCurrentWeather data)).
Proof.
  intros w. unfold onPageE, UI.renderCurrentWeather.
  destruct (UI.updateBackground _ _ _) as [b [[]|e]]; repeat split.
Qed.

Lemma quiet_renderForecast (samples : list Entry) (todayKey : JsString) :
  quiet (onPageE (UI.renderForecast samples todayKey)).
Proof.
  intros w. unfold onPageE, UI.renderForecast.
  destruct (Forecast.aggregate samples todayKey); repeat split.
Qed.

Lemma quiet_addRecentCity (city : JsValue) :
  quiet (fun w => match Storage.addRecentCity city (storage w) with
                  | Normal s => (withStorage s w, Normal tt)
                  | Throw e => (w, Throw e)
                  end).
Proof.
  intros w. destruct (Storage.addRecentCity city (storage w)); repeat split.
Qed.

Lemma quiet_refresh : quiet refreshRecentCitiesDropdown.
Proof.
  intros w. unfold refreshRecentCitiesDropdown, onPageE, UI.renderRecentCities.
  destruct (negb _ || _); [repeat split|].
  destruct (Storage.getRecentCities (storage w)); repeat split.
Qed.

(** The statements the two lookups share, up to the refresh of the
    dropdown, reach the same world from the same world. *)
Lemma lookups_agree (todayKey : JsString) (currentData : CurrentData)
  (forecastList : list Entry) (w : World) :
  match showLookup todayKey currentData forecastList w,
        showLocationLookup todayKey currentData forecastList w with
  | (w1, Normal _), (w2, Normal _) =>
      sameDisplay w1 w2 /\
      cityInput w1 = [] /\ cityInput w2 = cityInput w /\
      UI.toastContainer (page w1) = UI.toastContainer (page w) /\
      UI.toastContainer (page w2) =
        UI.toastContainer (page w) ++ [showingWeatherFor (name currentData)]
  | (w1, Throw e1), (w2, Throw e2) =>
      w1 = w2 /\ e1 = e2 /\
      cityInput w1 = cityInput w /\
      UI.toastContainer (page w1) = UI.toastContainer (page w)
  | _, _ => False
  end.
Proof.
  unfold showLookup, showLocationLookup.
  set (a := fun w0 : World =>
              (withFeelsLike (Num.round (main_feels_like currentData)) w0, Normal tt)).
  set (b := onPageE (UI.renderCurrentWeather currentData)).
  set (c := onPageE (UI.renderForecast forecastList todayKey)).
  set (d := fun w0 : World =>
              match Storage.addRecentCity (name currentData) (storage w0) with
              | Normal s => (withStorage s w0, Normal tt)
              | Throw e => (w0, Throw e)
              end).
  assert (Ha : quiet a) by apply quiet_remember.
  assert (Hb : quiet b) by apply quiet_renderCurrentWeather.
  assert (Hc : quiet c) by apply quiet_renderForecast.
  assert (Hd : quiet d) by apply quiet_addRecentCity.
  pose proof quiet_refresh as He.
  unfold seq.
  specialize (Ha w). destruct (a w) as [wa [[]|ea]]; cbn [fst] in Ha;
    [|intuition congruence].
  specialize (Hb wa). destruct (b wa) as [wb [[]|eb]]; cbn [fst] in Hb;
    [|intuition congruence].
  specialize (Hc wb). destruct (c wb) as [wc [[]|ec]]; cbn [fst] in Hc;
    [|intuition congruence].
  specialize (Hd wc). destruct (d wc) as [wd [[]|ed]]; cbn [fst] in Hd;
    [|intuition congruence].
  specialize (He wd). destruct (refreshRecentCitiesDropdown wd) as [we [[]|ee]];
    cbn [fst] in He; [|intuition congruence].
  destruct Ha as (A1 & _ & A3), Hb as (B1 & _ & B3), Hc as (C1 & _ & C3),
           Hd as (D1 & _ & D3), He as (E1 & _ & E3).
  unfold onPage, UI.showToast, sameDisplay, withoutToasts, showingWeatherFor.
  cbn. repeat split; congruence.
Qed.

Lemma validateCityInput_error (input : JsString) :
  valid (validateCityInput input) = false ->
  exists msg, error (validateCityInput input) = Some msg /\ In msg validationMessages.
Proof.
  unfold validateCityInput, validationMessages.
  destruct (List.length (Str.trim input) =? 0);
    [intros _; eexists; split; [reflexivity|cbn; auto]|].
  destruct (List.length (Str.trim input) <? 2);
    [intros _; eexists; split; [reflexivity|cbn; auto]|].
  destruct (100 <? List.length (Str.trim input));
    [intros _; eexists; split; [reflexivity|cbn; auto]|].
  destruct (negb (validPattern_test (Str.trim input)));
    [intros _; eexists; split; [reflexivity|cbn; auto]|].
  discriminate.
Qed.

(** X12.  A refused input starts no lookup: whatever the two retrievals
    would answer and whatever the state of the page, the only effect is one
    error toast with one of the four messages of the validation; the
    loading overlay is not shown, nothing is rendered or stored. *)
Theorem searchByCity_invalid_input (city : JsString) (race : Race)
  (current : Settled CurrentData) (forecast : Settled (list Entry))
  (todayKey : JsString) (w : World) :
  valid (validateCityInput city) = false ->
  exists msg,
    In msg validationMessages /\
    searchByCity city race current forecast todayKey w =
    withPage (UI.showError (UI.Text msg) (page w)) w.
Proof.
  intros Hinvalid.
  destruct (validateCityInput_error city Hinvalid) as (msg & Herr & Hin).
  exists msg. split; [exact Hin|].
  unfold searchByCity. now rewrite Hinvalid, Herr.
Qed.

(** X13.  A lookup of a valid input always ends with the loading overlay
    hidden, in one of two ways: no toast is added and the input box is
    emptied, or exactly one error toast is added and the input box keeps
    its text.  No mix of the two occurs, whatever is retrieved and
    wherever the rendering fails. *)
Theorem searchByCity_ends (city : JsString) (race : Race)
  (current : Settled CurrentData) (forecast : Settled (list Entry))
  (todayKey : JsString) (w : World) :
  valid (validateCityInput city) = true ->
  let w' := searchByCity city race current forecast todayKey w in
  UI.loadingHidden (page w') = true /\
  ((UI.toastContainer (page w') = UI.toastContainer (page w) /\ cityInput w' = [])
   \/
   (exists e, UI.toastContainer (page w') = UI.toastContainer (page w) ++ [errorToast e]
              /\ cityInput w' = cityInput w)).
Proof.
  intros Hvalid w'. subst w'. unfold searchByCity, tryCatchFinally.
  rewrite Hvalid. cbn [negb].
  destruct (promiseAll race current forecast) as [[currentData forecastList]|e].
  - set (w1 := withPage (UI.showLoading (page w)) w).
    pose proof (lookups_agree todayKey currentData forecastList w1) as H.
    destruct (showLookup todayKey currentData forecastList w1) as [w2 [[]|e2]],
             (showLocationLookup todayKey currentData forecastList w1) as [w3 [[]|e3]];
      try contradiction.
    + destruct H as (_ & Hinput & _ & Htoasts & _).
      split; [reflexivity|]. left. split; [exact Htoasts|exact Hinput].
    + destruct H as (_ & _ & Hinput & Htoasts).
      split; [reflexivity|]. right. exists e2. cbn.
      rewrite Htoasts, Hinput. split; reflexivity.
  - split; [reflexivity|]. right. exists e. cbn. split; reflexivity.
Qed.

(** Outside the names inherited from [Object.prototype], the card of the
    current conditions is rendered in full. *)
Lemma renderCurrentWeather_ok (data : CurrentData) (p : UI.Page) :
  Obj.isInherited (Str.toLowerCase (condition (current_weather data))) = false ->
  exists p',
    UI.renderCurrentWeather data p = (p', Normal tt) /\
    UI.currentCard p' = Some data /\
    UI.weatherHidden p' = false /\
    UI.welcomeHidden p' = true /\
    UI.banner p' = UI.checkWeatherAlert (main_temp data) (UI.banner p) /\
    themeOf (UI.backdrop p') =
      [expectedTheme (Str.toLowerCase (condition (current_weather data)))
         (UI.isNightIcon (icon (current_weather data)))] /\
    UI.forecastContainer p' = UI.forecastContainer p /\
    UI.recentList p' = UI.recentList p /\
    UI.recentHidden p' = UI.recentHidden p /\
    UI.toastContainer p' = UI.toastContainer p /\
    UI.loadingHidden p' = UI.loadingHidden p.
Proof.
  intros Hinh. unfold UI.renderCurrentWeather.
  destruct (@updateBackground_classifies U (condition (current_weather data))
              (icon (current_weather data))
              (UI.backdrop (UI.withCurrent data p)) Hinh) as (b' & Hb & Htheme & _).
  rewrite Hb. eexists. split; [reflexivity|].
  cbn. repeat split. exact Htheme.
Qed.

(** X14.  A lookup that succeeds, for every input: once the city has
    passed validation, both retrievals are fulfilled, the condition is no
    name inherited from [Object.prototype], the aggregation returns and the
    store accepts the write, the card shows the response, the forecast has
    the aggregated days, the name the provider gave - not the text that was
    typed - is put first in the recent list, the dropdown lists the stored
    cities without being opened, no toast is added, the loading overlay is
    hidden and the input box is emptied. *)
Theorem searchByCity_shows (city : JsString) (race : Race)
  (currentData : CurrentData) (forecastList : list Entry) (todayKey : JsString)
  (w : World) (out : list DailyForecast) (n : JsString) (prior : list JsString) :
  valid (validateCityInput city) = true ->
  Obj.isInherited (Str.toLowerCase (condition (current_weather currentData))) = false ->
  Forecast.aggregate forecastList todayKey = Normal out ->
  name currentData = VString n ->
  Str.trim n <> [] ->
  holds (storage w) prior ->
  writable (storage w) ->
  let w' := searchByCity city race (Fulfilled currentData) (Fulfilled forecastList)
              todayKey w in
  UI.currentCard (page w') = Some currentData /\
  UI.forecastContainer (page w') = out /\
  holds (storage w') (updated (Str.trim n) prior) /\
  UI.recentList (page w') = List.map VString (updated (Str.trim n) prior) /\
  UI.recentHidden (page w') = UI.recentHidden (page w) /\
  UI.toastContainer (page w') = UI.toastContainer (page w) /\
  UI.loadingHidden (page w') = true /\
  cityInput w' = [] /\
  currentFeelsLikeCelsius w' = Some (Num.round (main_feels_like currentData)).
Proof.
  intros Hvalid Hinh Hagg Hname Htrim Hholds Hwritable w'. subst w'.
  unfold searchByCity, tryCatchFinally. rewrite Hvalid. cbn [negb promiseAll].
  unfold showLookup, seq, onPageE, refreshRecentCitiesDropdown, onPageE.
  match goal with
  | |- context [UI.renderCurrentWeather currentData ?p] =>
      destruct (@renderCurrentWeather_ok currentData p Hinh)
        as (p1 & Hp1 & Hcard & _ & _ & _ & _ & _ & _ & Hhidden & Htoasts & _);
      rewrite Hp1
  end.
  unfold UI.renderForecast. rewrite Hagg.
  cbn [storage withPage withFeelsLike]. rewrite Hname.
  rewrite (@addRecentCity_writes U n prior (storage w) Htrim Hholds Hwritable).
  cbn [storage withStorage Storage.getRecentCities Storage.blocked Storage.item].
  unfold UI.renderRecentCities. cbn [truthy negb orb].
  assert (Hne : UI.lengthIsZero (VArray (List.map VString (updated (Str.trim n) prior)))
                = false).
  { unfold updated. cbn [firstn List.map UI.lengthIsZero]. reflexivity. }
  rewrite Hne. cbn. repeat split; assumption.
Qed.

(** X15.  Failures after the retrievals are not undone: when both
    retrievals are fulfilled and the aggregation of the forecast throws,
    the card of the current conditions is already on the page and stays
    there, the forecast container is left empty, one error toast is added,
    and the city is neither stored nor removed from the input box. *)
Theorem searchByCity_forecast_failure_is_partial (city : JsString) (race : Race)
  (currentData : CurrentData) (forecastList : list Entry) (todayKey : JsString)
  (w : World) (e : JsError) :
  valid (validateCityInput city) = true ->
  Obj.isInherited (Str.toLowerCase (condition (current_weather currentData))) = false ->
  Forecast.aggregate forecastList todayKey = Throw e ->
  let w' := searchByCity city race (Fulfilled currentData) (Fulfilled forecastList)
              todayKey w in
  UI.currentCard (page w') = Some currentData /\
  UI.weatherHidden (page w') = false /\
  UI.forecastContainer (page w') = [] /\
  UI.toastContainer (page w') = UI.toastContainer (page w) ++ [errorToast e] /\
  UI.loadingHidden (page w') = true /\
  storage w' = storage w /\
  cityInput w' = cityInput w.
Proof.
  intros Hvalid Hinh Hagg w'. subst w'.
  unfold searchByCity, tryCatchFinally. rewrite Hvalid. cbn [negb promiseAll].
  unfold showLookup, seq, onPageE.
  match goal with
  | |- context [UI.renderCurrentWeather currentData ?p] =>
      destruct (@renderCurrentWeather_ok currentData p Hinh)
        as (p1 & Hp1 & Hcard & Hweather & _ & _ & _ & _ & _ & _ & Htoasts & _);
      rewrite Hp1
  end.
  unfold UI.renderForecast. rewrite Hagg.
  cbn. rewrite Htoasts. repeat split; assumption.
Qed.

(** X16.  A lookup by location fails as a whole in the same way as a
    lookup by name: when the browser reports a position error, the only
    effect is one error toast with the message of the code - the message
    for unknown errors for every code other than 1, 2 and 3 - and when a
    retrieval is rejected, one error toast with the message of the first
    rejection; in both cases the loading overlay ends hidden and nothing is
    rendered or stored. *)
Theorem searchByLocation_fails (race : Race)
  (current : Settled CurrentData) (forecast : Settled (list Entry))
  (todayKey : JsString) (w : World) :
  (forall code,
     failedWith (Error (positionErrorMessage code)) w
       (searchByLocation (PositionError code) race current forecast todayKey w) /\
     (code <> 1%N -> code <> 2%N -> code <> 3%N ->
      positionErrorMessage code = unknownError)) /\
  (forall latitude longitude e,
     promiseAll race current forecast = Rejected e ->
     failedWith e w
       (searchByLocation (Position latitude longitude) race current forecast todayKey w)).
Proof.
  split.
  - intros code. split.
    + unfold searchByLocation, failedWith. cbn. repeat split; reflexivity.
    + intros H1 H2 H3. unfold positionErrorMessage.
      apply N.eqb_neq in H1, H2, H3. now rewrite H1, H2, H3.
  - intros latitude longitude e Hall.
    unfold searchByLocation, tryCatchFinally. rewrite Hall.
    unfold failedWith. cbn. repeat split; reflexivity.
Qed.

Lemma withoutToasts_hideLoading (p1 p2 : UI.Page) :
  withoutToasts p1 = withoutToasts p2 ->
  withoutToasts (UI.hideLoading p1) = withoutToasts (UI.hideLoading p2).
Proof.
  intros H.
  change (withoutToasts (UI.hideLoading p1)) with (UI.hideLoading (withoutToasts p1)).
  change (withoutToasts (UI.hideLoading p2)) with (UI.hideLoading (withoutToasts p2)).
  now rewrite H.
Qed.

(** X17.  The two lookups show the same weather: on the same answers of
    the provider, a lookup by location leaves the page, the store and the
    remembered temperature as a lookup of a valid name does, toasts and
    input box apart.  Either both fail, and then they end in the same
    world, or both succeed, and then the lookup by name empties the input
    box and adds no toast while the lookup by location keeps the input box
    and adds one success toast that names the city. *)
Theorem searchByLocation_like_searchByCity (city : JsString)
  (latitude longitude : number) (race : Race)
  (current : Settled CurrentData) (forecast : Settled (list Entry))
  (todayKey : JsString) (w : World) :
  valid (validateCityInput city) = true ->
  let byName := searchByCity city race current forecast todayKey w in
  let byLocation :=
    searchByLocation (Position latitude longitude) race current forecast todayKey w in
  sameDisplay byName byLocation /\
  (byLocation = byName \/
   exists currentData,
     current = Fulfilled currentData /\
     cityInput byName = [] /\
     cityInput byLocation = cityInput w /\
     UI.toastContainer (page byName) = UI.toastContainer (page w) /\
     UI.toastContainer (page byLocation) =
       UI.toastContainer (page w) ++ [showingWeatherFor (name currentData)]).
Proof.
  intros Hvalid byName byLocation. subst byName byLocation.
  unfold searchByCity, searchByLocation, tryCatchFinally.
  rewrite Hvalid. cbn [negb].
  destruct (promiseAll race current forecast) as [[currentData forecastList]|e] eqn:Hall.
  - set (w1 := withPage (UI.showLoading (page w)) w).
    pose proof (lookups_agree todayKey currentData forecastList w1) as H.
    destruct (showLookup todayKey currentData forecastList w1) as [w2 [[]|e2]],
             (showLocationLookup todayKey currentData forecastList w1) as [w3 [[]|e3]];
      try contradiction.
    + destruct H as ((Hpage & Hstore & Hfeels) & Hin2 & Hin3 & Ht2 & Ht3).
      split.
      * unfold sameDisplay. cbn [page storage currentFeelsLikeCelsius withPage].
        split; [now apply withoutToasts_hideLoading|]. split; assumption.
      * right. exists currentData.
        assert (Hcur : current = Fulfilled currentData).
        { destruct current as [c|ec], forecast as [f|ef]; cbn in Hall;
            try discriminate; try (destruct race; discriminate).
          now injection Hall as -> _. }
        split; [exact Hcur|]. cbn. repeat split; assumption.
    + destruct H as (-> & -> & _). split; [|now left].
      unfold sameDisplay. repeat split.
  - split; [|now left]. unfold sameDisplay. repeat split.
Qed.

(** *** The listeners of the dropdown *)

Lemma getRecentCities_cleared (ls : Storage.LocalStorage) :
  Storage.getRecentCities (Storage.clearRecentCities ls) = VArray [].
Proof.
  unfold Storage.clearRecentCities, Storage.getRecentCities.
  destruct (Storage.blocked ls) eqn:Hb; [now rewrite Hb|reflexivity].
Qed.

(** X18.  Once the recent searches are cleared the dropdown stays closed:
    after the clear button, for every page and every state of the store -
    one that cannot be read or written included - the dropdown is hidden,
    one information toast is added, and focusing the input box changes
    nothing and does not throw. *)
Theorem onFocus_after_clear (w : World) :
  let w' := onClearRecent w in
  UI.recentHidden (page w') = true /\
  UI.toastContainer (page w') =
    UI.toastContainer (page w)
    ++ [{| UI.toastMessage := UI.Text recentSearchesCleared;
           UI.toastType := UI.ToastInfo |}] /\
  onFocus w' = (w', Normal tt).
Proof.
  intros w'. subst w'. split; [reflexivity|]. split; [reflexivity|].
  unfold onFocus, onClearRecent.
  cbn [storage withPage withStorage].
  rewrite getRecentCities_cleared.
  unfold lengthPositive, lengthOf. cbn [bind List.length toNumber Z.of_nat].
  reflexivity.
Qed.

(** X19.  Focusing the input box over a stored list of cities that is
    not empty fills the dropdown with exactly those cities, in their
    order, and opens it; nothing else of the page changes. *)
Theorem onFocus_shows_stored (w : World) (cities : list JsString) :
  holds (storage w) cities ->
  cities <> [] ->
  onFocus w =
  (withPage (UI.withRecent (List.map VString cities) false (page w)) w, Normal tt).
Proof.
  intros Hholds Hne. destruct cities as [|c cities]; [now elim Hne|].
  unfold onFocus, showRecentCities, refreshRecentCitiesDropdown, seq, onPageE.
  unfold holds in Hholds. rewrite Hholds.
  assert (Hpos : lengthPositive (VArray (List.map VString (c :: cities))) = Normal true).
  { reflexivity. }
  rewrite Hpos. unfold UI.renderRecentCities. cbn [truthy negb orb List.map UI.lengthIsZero].
  cbn [storage withPage]. rewrite Hholds, Hpos. reflexivity.
Qed.

End LookupMore.

(** X12 at work: a digit is no city. *)
Lemma searchByCity_invalid_input_witness :
  exists msg,
    In msg More.validationMessages /\
    App.searchByCity (U := Spec.latin1Engine) (Str.js "7") CurrentFirst
      (Fulfilled Spec.parisNow) (Fulfilled Spec.oneDay) (Str.js "2024-01-01")
      Spec.freshWorld =
    App.withPage (UI.showError (UI.Text msg) (App.page Spec.freshWorld)) Spec.freshWorld.
Proof.
  apply (@searchByCity_invalid_input Spec.latin1Engine (Str.js "7")).
  vm_compute. reflexivity.
Defined.

(** X13 at work: "Paris" is looked up and the forecast is rejected. *)
Lemma searchByCity_ends_witness :
  let w' := App.searchByCity (U := Spec.latin1Engine) (Str.js "Paris") CurrentFirst
              (Fulfilled Spec.parisNow) (Rejected (Error tooManyRequests))
              (Str.js "2024-01-01") Spec.freshWorld in
  UI.loadingHidden (App.page w') = true /\
  ((UI.toastContainer (App.page w') = UI.toastContainer (App.page Spec.freshWorld)
    /\ App.cityInput w' = [])
   \/
   (exists e, UI.toastContainer (App.page w') =
                UI.toastContainer (App.page Spec.freshWorld) ++ [More.errorToast e]
              /\ App.cityInput w' = App.cityInput Spec.freshWorld)).
Proof.
  apply (@searchByCity_ends Spec.latin1Engine More.plainEngine (Str.js "Paris")).
  vm_compute. reflexivity.
Defined.

(** X14 at work: "lutetia" is typed, the provider answers for Paris. *)
Lemma searchByCity_shows_witness :
  let w' := App.searchByCity (U := Spec.latin1Engine) (Str.js "lutetia") CurrentFirst
              (Fulfilled Spec.parisNow) (Fulfilled [Spec.sample "2024-01-02 03:00:00" (-4) 7])
              (Str.js "2024-01-01") Spec.freshWorld in
  UI.recentList (App.page w') = [VString (Str.js "Paris")] /\
  App.cityInput w' = [].
Proof.
  assert (Hagg : Forecast.aggregate [Spec.sample "2024-01-02 03:00:00" (-4) 7]
                   (Str.js "2024-01-01")
                 = Normal [ {| midday := Spec.sample "2024-01-02 03:00:00" (-4) 7;
                               tempMin := ofZ (-4); tempMax := ofZ 7 |} ])
    by (vm_compute; reflexivity).
  assert (Hvalid : App.valid (App.validateCityInput (Str.js "lutetia")) = true)
    by (vm_compute; reflexivity).
  assert (Htrim : Str.trim (Str.js "Paris") <> []) by (vm_compute; discriminate).
  pose proof (@searchByCity_shows Spec.latin1Engine
                (Str.js "lutetia") CurrentFirst
                Spec.parisNow [Spec.sample "2024-01-02 03:00:00" (-4) 7]
                (Str.js "2024-01-01") Spec.freshWorld _ (Str.js "Paris") []
                Hvalid eq_refl Hagg eq_refl Htrim eq_refl (conj eq_refl eq_refl)) as H.
  cbv zeta in H. destruct H as (_ & _ & _ & Hlist & _ & _ & _ & Hinput & _).
  split; [exact Hlist|exact Hinput].
Defined.

(** X15 at work: a forecast with a sample that has no timestamp. *)
Lemma searchByCity_forecast_failure_is_partial_witness :
  let w' := App.searchByCity (U := Spec.latin1Engine) (Str.js "Paris") CurrentFirst
              (Fulfilled Spec.parisNow) (Fulfilled [Spec.unstamped 8 22])
              (Str.js "2024-01-01") Spec.freshWorld in
  UI.currentCard (App.page w') = Some Spec.parisNow /\
  UI.weatherHidden (App.page w') = false /\
  UI.forecastContainer (App.page w') = [] /\
  UI.toastContainer (App.page w') =
    UI.toastContainer (App.page Spec.freshWorld) ++ [More.errorToast TypeError] /\
  UI.loadingHidden (App.page w') = true /\
  App.storage w' = App.storage Spec.freshWorld /\
  App.cityInput w' = App.cityInput Spec.freshWorld.
Proof.
  apply (@searchByCity_forecast_failure_is_partial Spec.latin1Engine
           (Str.js "Paris") CurrentFirst Spec.parisNow [Spec.unstamped 8 22]
           (Str.js "2024-01-01") Spec.freshWorld TypeError);
    vm_compute; reflexivity.
Defined.

(** X16 at work: the position is known, the provider refuses the key. *)
Lemma searchByLocation_fails_witness :
  @promiseAll CurrentData (list Entry) CurrentFirst
    (Rejected (Error invalidApiKey)) (Fulfilled Spec.oneDay)
    = Rejected (Error invalidApiKey) /\
  Spec.failedWith (Error invalidApiKey) Spec.freshWorld
    (Events.searchByLocation (U := Spec.latin1Engine) (E := More.plainEngine)
       (Events.Position (ofZ 48) (ofZ 2)) CurrentFirst
       (Rejected (Error invalidApiKey)) (Fulfilled Spec.oneDay)
       (Str.js "2024-01-01") Spec.freshWorld).
Proof.
  split; [reflexivity|].
  apply (proj2 (@searchByLocation_fails Spec.latin1Engine More.plainEngine CurrentFirst
                  (Rejected (Error invalidApiKey)) (Fulfilled Spec.oneDay)
                  (Str.js "2024-01-01") Spec.freshWorld)).
  reflexivity.
Defined.

(** X17 at work: Paris by name and by position. *)
Lemma searchByLocation_like_searchByCity_witness :
  More.sameDisplay
    (App.searchByCity (U := Spec.latin1Engine) (Str.js "Paris") CurrentFirst
       (Fulfilled Spec.parisNow) (Fulfilled Spec.oneDay) (Str.js "2024-01-01")
       Spec.freshWorld)
    (Events.searchByLocation (U := Spec.latin1Engine) (E := More.plainEngine)
       (Events.Position (ofZ 48) (ofZ 2)) CurrentFirst
       (Fulfilled Spec.parisNow) (Fulfilled Spec.oneDay) (Str.js "2024-01-01")
       Spec.freshWorld).
Proof.
  assert (Hvalid : App.valid (App.validateCityInput (Str.js "Paris")) = true)
    by (vm_compute; reflexivity).
  exact (proj1 (@searchByLocation_like_searchByCity Spec.latin1Engine More.plainEngine
                  (Str.js "Paris") (ofZ 48) (ofZ 2) CurrentFirst
                  (Fulfilled Spec.parisNow) (Fulfilled Spec.oneDay)
                  (Str.js "2024-01-01") Spec.freshWorld Hvalid)).
Defined.

(** X19 at work: the store holds Paris and London. *)
Lemma onFocus_shows_stored_witness :
  let w := App.withStorage (Spec.storeOf [Str.js "Paris"; Str.js "London"])
             Spec.freshWorld in
  Events.onFocus (E := More.plainEngine) w =
  (App.withPage
     (UI.withRecent [VString (Str.js "Paris"); VString (Str.js "London")] false
        (App.page w)) w, Normal tt).
Proof.
  intros w.
  apply (@onFocus_shows_stored More.plainEngine w [Str.js "Paris"; Str.js "London"]).
  - reflexivity.
  - discriminate.
Defined.

(* ------------------------------------------------------------------ *)
(** * The dropdown of the recent cities *)

Section DropdownMore.

Context {U : Str.Unicode} {E : Events.Engine}.

Import App Events Spec More.

Lemma keepsClosed_seq {A B} (m : Eff A) (k : A -> Eff B) :
  keepsClosed m -> (forall a, keepsClosed (k a)) -> keepsClosed (seq m k).
Proof.
  intros Hm Hk w Hw. unfold seq. specialize (Hm w Hw).
  destruct (m w) as [w1 [a|e]]; cbn [fst] in *; [|exact Hm].
  now apply Hk.
Qed.

Lemma keepsClosed_renderCurrentWeather (data : CurrentData) :
  keepsClosed (onPageE (UI.renderCurrentWeather data)).
Proof.
  intros w Hw. unfold onPageE, UI.renderCurrentWeather.
  destruct (UI.updateBackground _ _ _) as [b [[]|e]]; exact Hw.
Qed.

Lemma keepsClosed_renderForecast (samples : list Entry) (todayKey : JsString) :
  keepsClosed (onPageE (UI.renderForecast samples todayKey)).
Proof.
  intros w Hw. unfold onPageE, UI.renderForecast.
  destruct (Forecast.aggregate samples todayKey); exact Hw.
Qed.

Lemma keepsClosed_addRecentCity (city : JsValue) :
  keepsClosed (fun w => match Storage.addRecentCity city (storage w) with
                        | Normal s => (withStorage s w, Normal tt)
                        | Throw e => (w, Throw e)
                        end).
Proof.
  intros w Hw. destruct (Storage.addRecentCity city (storage w)); exact Hw.
Qed.

Lemma keepsClosed_refresh : keepsClosed refreshRecentCitiesDropdown.
Proof.
  intros w Hw. unfold refreshRecentCitiesDropdown, onPageE, UI.renderRecentCities.
  destruct (negb _ || _); [reflexivity|].
  destruct (Storage.getRecentCities (storage w)); exact Hw.
Qed.

Lemma keepsClosed_showLookup (todayKey : JsString) (currentData : CurrentData)
  (forecastList : list Entry) :
  keepsClosed (showLookup todayKey currentData forecastList) /\
  keepsClosed (showLocationLookup todayKey currentData forecastList).
Proof.
  unfold showLookup, showLocationLookup.
  split;
    repeat (apply keepsClosed_seq; [|intros _]);
    auto using keepsClosed_renderCurrentWeather, keepsClosed_renderForecast,
               keepsClosed_addRecentCity, keepsClosed_refresh;
    intros w Hw; exact Hw.
Qed.

(** X20.  Only the focus on the input box opens the dropdown of the
    recent cities: on a page whose dropdown is hidden it is still hidden
    after the initialisation, after a lookup by name and after a lookup by
    location, whatever the input, the answers of the provider and of the
    browser, and the content of the store, and wherever the lookup
    fails. *)
Theorem dropdown_stays_closed (city : JsString) (geo : Geolocation) (race : Race)
  (current : Settled CurrentData) (forecast : Settled (list Entry))
  (todayKey : JsString) (w : World) :
  UI.recentHidden (page w) = true ->
  UI.recentHidden (page (fst (init w))) = true /\
  UI.recentHidden (page (searchByCity city race current forecast todayKey w)) = true /\
  UI.recentHidden (page (searchByLocation geo race current forecast todayKey w)) = true.
Proof.
  intros Hw. split; [now apply keepsClosed_refresh|].
  assert (Hloading : UI.recentHidden (page (withPage (UI.showLoading (page w)) w)) = true)
    by exact Hw.
  split.
  - unfold searchByCity. destruct (negb (valid (validateCityInput city))).
    + destruct (error (validateCityInput city)); exact Hw.
    + unfold tryCatchFinally.
      destruct (promiseAll race current forecast) as [[currentData forecastList]|e];
        [|exact Hw].
      pose proof (proj1 (keepsClosed_showLookup todayKey currentData forecastList)
                    _ Hloading) as H.
      destruct (showLookup todayKey currentData forecastList _) as [w2 [[]|e2]];
        exact H.
  - unfold searchByLocation. destruct geo as [|latitude longitude|code];
      [exact Hw| |exact Hw].
    unfold tryCatchFinally.
    destruct (promiseAll race current forecast) as [[currentData forecastList]|e];
      [|exact Hw].
    pose proof (proj2 (keepsClosed_showLookup todayKey currentData forecastList)
                  _ Hloading) as H.
    destruct (showLocationLookup todayKey currentData forecastList _) as [w2 [[]|e2]];
      exact H.
Qed.

End DropdownMore.

(** X20 at work, on the page as it loads. *)
Lemma dropdown_stays_closed_witness :
  UI.recentHidden (App.page (fst (Events.init Spec.freshWorld))) = true /\
  UI.recentHidden
    (App.page (App.searchByCity (U := Spec.latin1Engine) (Str.js "Paris") CurrentFirst
                 (Fulfilled Spec.parisNow) (Fulfilled Spec.oneDay)
                 (Str.js "2024-01-01") Spec.freshWorld)) = true /\
  UI.recentHidden
    (App.page (Events.searchByLocation (U := Spec.latin1Engine) (E := More.plainEngine)
                 Events.Unsupported CurrentFirst
                 (Fulfilled Spec.parisNow) (Fulfilled Spec.oneDay)
                 (Str.js "2024-01-01") Spec.freshWorld)) = true.
Proof.
  apply (@dropdown_stays_closed Spec.latin1Engine More.plainEngine).
  reflexivity.
Defined.

(* ------------------------------------------------------------------ *)
(** * The fetch wrapper *)

Section ApiMore.

Import Api.

Context {E : Events.Engine}.
Variable A : Type.

Lemma caught_cases (r : Raised) :
  (r = RaisedTypeError true /\ @caught A r = ThrowsError networkError) \/
  (r <> RaisedTypeError true /\ @caught A r = Rethrows r).
Proof.
  destruct r as [[|]|]; [left|right|right]; split; try reflexivity; discriminate.
Qed.

Lemma refused_outcome (response : Response A) :
  ok response = false ->
  exists m, fetchData (FetchResolves response) = ThrowsError m.
Proof.
  intros Hok. unfold fetchData. rewrite Hok. cbn [negb].
  destruct (status response =? 404)%N; [now eexists|].
  destruct (status response =? 401)%N; [now eexists|].
  destruct (status response =? 429)%N; [now eexists|].
  now eexists.
Qed.

Lemma failedToFetch_not_empty (status : N) : failedToFetch status <> [].
Proof. unfold failedToFetch. discriminate. Qed.

(** X21.  [fetchData] returns data in one case only: the request was
    answered with a status from 200 to 299 and the body parsed; what it
    returns is the parsed body. *)
Theorem fetchData_returns_iff (fetched : Fetched A) (a : A) :
  fetchData fetched = Returns a <->
  exists response,
    fetched = FetchResolves response /\
    ok response = true /\
    json response = Parses a.
Proof.
  split.
  - destruct fetched as [r|response].
    + cbn [fetchData]. destruct (caught_cases r) as [[_ ->]|[_ ->]]; discriminate.
    + destruct (ok response) eqn:Hok.
      * unfold fetchData. rewrite Hok. cbn [negb].
        destruct (json response) as [b|r] eqn:Hjson.
        { intros H. injection H as ->. now exists response. }
        { destruct (caught_cases r) as [[_ ->]|[_ ->]]; discriminate. }
      * destruct (refused_outcome response Hok) as (m & ->). discriminate.
  - intros (response & -> & Hok & Hjson).
    unfold fetchData. now rewrite Hok, Hjson.
Qed.

(** X22.  A response with a status outside 200-299 always ends in an
    [Error], and the body decides nothing for 404, 401 and 429: these
    three have their fixed messages, whatever the body says and whether or
    not it parses.  For every other status the message is the [message] of
    the body when that is a text that is not empty, and the text that
    quotes the status when the body has no message or a falsy one.  The
    message of the [Error] is not empty as long as the [message] of the
    body is a text or missing; a truthy value of another kind is turned
    into a string, which may be empty. *)
Theorem fetchData_refused_status (response : Response A) :
  ok response = false ->
  exists m,
    fetchData (FetchResolves response) = ThrowsError m /\
    (status response = 404%N -> m = cityNotFound) /\
    (status response = 401%N -> m = invalidApiKey) /\
    (status response = 429%N -> m = tooManyRequests) /\
    (status response <> 404%N -> status response <> 401%N ->
     status response <> 429%N ->
     (forall s, messageOf (errorData response) = VString s -> s <> [] -> m = s) /\
     (truthy (messageOf (errorData response)) = false ->
      m = failedToFetch (status response))) /\
    (More.plainMessage (messageOf (errorData response)) -> m <> []).
Proof.
  intros Hok. destruct (refused_outcome response Hok) as (m & Hm).
  exists m. split; [exact Hm|].
  unfold fetchData in Hm. rewrite Hok in Hm. cbn [negb] in Hm.
  split; [intros Hs; rewrite Hs in Hm; cbn [N.eqb Pos.eqb] in Hm;
          now injection Hm as <-|].
  split; [intros Hs; rewrite Hs in Hm; cbn [N.eqb Pos.eqb] in Hm;
          now injection Hm as <-|].
  split; [intros Hs; rewrite Hs in Hm; cbn [N.eqb Pos.eqb] in Hm;
          now injection Hm as <-|].
  split.
  - intros H404 H401 H429. apply N.eqb_neq in H404, H401, H429.
    rewrite H404, H401, H429 in Hm. injection Hm as <-. split.
    + intros s -> Hs. destruct s as [|c s]; [now elim Hs|reflexivity].
    + now intros ->.
  - intros Hplain.
    destruct (status response =? 404)%N; [injection Hm as <-; discriminate|].
    destruct (status response =? 401)%N; [injection Hm as <-; discriminate|].
    destruct (status response =? 429)%N; [injection Hm as <-; discriminate|].
    injection Hm as <-.
    destruct Hplain as [-> | [s Hs]]; [apply failedToFetch_not_empty|].
    rewrite Hs. destruct s as [|c s]; [apply failedToFetch_not_empty|discriminate].
Qed.

(** X23.  An exception leaves [fetchData] as it was raised in two cases
    only - [fetch] itself rejected, or the body of an accepted response did
    not parse - and never when it is a TypeError whose message mentions
    fetch: that one is always replaced by the network error. *)
Theorem fetchData_rethrows_iff (fetched : Fetched A) (r : Raised) :
  fetchData fetched = Rethrows r <->
  r <> RaisedTypeError true /\
  (fetched = FetchRejects r \/
   exists response,
     fetched = FetchResolves response /\ ok response = true /\
     json response = JsonFails r).
Proof.
  split.
  - destruct fetched as [r0|response].
    + cbn [fetchData]. destruct (caught_cases r0) as [[_ ->]|[Hr0 ->]];
        [discriminate|].
      intros H. injection H as <-. split; [exact Hr0|now left].
    + destruct (ok response) eqn:Hok.
      * unfold fetchData. rewrite Hok. cbn [negb].
        destruct (json response) as [b|r0] eqn:Hjson; [discriminate|].
        destruct (caught_cases r0) as [[_ ->]|[Hr0 ->]]; [discriminate|].
        intros H. injection H as <-. split; [exact Hr0|].
        right. now exists response.
      * destruct (refused_outcome response Hok) as (m & ->). discriminate.
  - intros [Hr [->|(response & -> & Hok & Hjson)]].
    + cbn [fetchData]. destruct (caught_cases r) as [[-> _]|[_ ->]];
        [now elim Hr|reflexivity].
    + unfold fetchData. rewrite Hok, Hjson. cbn [negb].
      destruct (caught_cases r) as [[-> _]|[_ ->]]; [now elim Hr|reflexivity].
Qed.

End ApiMore.

(** X22 at work: a server error without a body that parses. *)
Lemma fetchData_refused_status_witness :
  exists m,
    Api.fetchData (E := More.plainEngine) (Api.FetchResolves
      {| Api.status := 500; Api.json := Api.JsonFails Api.RaisedSyntaxError;
         Api.errorData := VNull |} : Api.Fetched unit) = Api.ThrowsError m /\
    m = Str.js "Failed to fetch weather data (Error 500).".
Proof.
  destruct (@fetchData_refused_status More.plainEngine unit
              {| Api.status := 500; Api.json := Api.JsonFails Api.RaisedSyntaxError;
                 Api.errorData := VNull |} eq_refl) as (m & Hm & _).
  exists m. split; [exact Hm|].
  vm_compute in Hm. injection Hm as <-. vm_compute. reflexivity.
Defined.

(** A body whose [message] is the empty array is truthy, and its string
    is empty: the [Error] has no message at all. *)
Example fetchData_empty_message :
  Api.fetchData (E := More.plainEngine) (Api.FetchResolves
    {| Api.status := 500; Api.json := Api.JsonFails Api.RaisedSyntaxError;
       Api.errorData := VObject [(Str.js "message", VArray [])] |} : Api.Fetched unit)
  = Api.ThrowsError [].
Proof. vm_compute. reflexivity. Qed.
